(** * pyEDAA.Reports.Unittesting: JUnit data model, aggregation, iteration,
      document protocol and GoogleTest class-name mapping.

    The development embeds [pyEDAA/Reports/Unittesting/JUnit.py] and
    [pyEDAA/Reports/Unittesting/JUnit/GoogleTestJUnit.py].  Python objects
    are records, [Dict[str, _]] is an insertion-ordered association list,
    integers are [Z], flag enumerations are bit sets over [N], and a method
    that mutates [self] returns the new [self] next to its outcome. *)

From Stdlib Require Import ZArith NArith List String Ascii Bool Lia Permutation.
Import ListNotations.

#[local] Set Warnings "-register-all".

Local Open Scope string_scope.
Local Open Scope list_scope.

(** ** Python runtime: exceptions, outcomes, dictionaries, generators *)

Module Py.

Inductive exn : Type :=
| ValueError (msg : string)
| TypeError (msg : string)
| AttributeError (msg : string)
| UnboundLocalError (msg : string)
| AssertionError
| OSError (msg : string)
| UnittestException (msg : string)
| DuplicateTestsuiteException (msg : string)
| DuplicateTestcaseException (msg : string).

(** Outcome of a call: a returned value or a raised exception. *)
Inductive result (A : Type) : Type :=
| Return (a : A)
| Raise (e : exn).
Arguments Return {A} a.
Arguments Raise {A} e.

Definition bind {A B : Type} (r : result A) (k : A -> result B) : result B :=
  match r with
  | Return a => k a
  | Raise e => Raise e
  end.

Definition is_Return {A : Type} (r : result A) : bool :=
  match r with Return _ => true | Raise _ => false end.

(** [Dict[str, V]]: keys are unique, iteration follows insertion order. *)
Definition dict (V : Type) : Type := list (string * V).

Section Dict.
Context {V : Type}.

Fixpoint get (k : string) (d : dict V) : option V :=
  match d with
  | [] => None
  | (k', v) :: d' => if String.eqb k k' then Some v else get k d'
  end.

(** [k in d] *)
Definition contains (k : string) (d : dict V) : bool :=
  match get k d with Some _ => true | None => false end.

(** [d[k] = v]: an existing key keeps its position, a new key goes last. *)
Fixpoint set (k : string) (v : V) (d : dict V) : dict V :=
  match d with
  | [] => [(k, v)]
  | (k', v') :: d' =>
      if String.eqb k k' then (k', v) :: d' else (k', v') :: set k v d'
  end.

Definition keys (d : dict V) : list string := map fst d.
Definition values (d : dict V) : list V := map snd d.
End Dict.

(** A generator run to exhaustion: the items it yielded and, when it stopped
    by raising, the exception. *)
Definition generator (A : Type) : Type := (list A * option exn)%type.

Definition yield {A : Type} (a : A) : generator A := ([a], None).
Definition yield_all {A : Type} (l : list A) : generator A := (l, None).
Definition stop {A : Type} : generator A := ([], None).
Definition throw {A : Type} (e : exn) : generator A := ([], Some e).

(** Sequencing of generator bodies: what follows a raise is never run. *)
Definition seq {A : Type} (g1 g2 : generator A) : generator A :=
  match g1 with
  | (xs, None) => (xs ++ fst g2, snd g2)
  | (xs, Some e) => (xs, Some e)
  end.

End Py.

Import Py.

Notation "x <- r ;; k" := (Py.bind r (fun x => k))
  (at level 61, r at next level, right associativity).
Notation "g1 >> g2" := (Py.seq g1 g2) (at level 60, right associativity).

(** ** Enumerations of [pyEDAA.Reports.Unittesting] *)

(** Modelled from the spec: [TestcaseStatus] is declared in the package
    module [pyEDAA/Reports/Unittesting/__init__.py], which is not among the
    sources.  The code combines statuses with [&], [|] and [~], so it is a
    flag enumeration; the members are those the spec lists, each on a bit of
    its own, [Unknown] being the empty flag.  [Mask] gathers the terminal
    test outcomes.  The bit positions are a choice of this model. *)
Module TestcaseStatus.
Definition t : Type := N.
Definition Unknown : t := 0%N.
Definition Skipped : t := 2%N.
Definition Weak    : t := 4%N.
Definition Passed  : t := 8%N.
Definition Failed  : t := 16%N.
Definition Errored : t := 2048%N.
Definition Mask    : t := N.lor Skipped (N.lor Weak (N.lor Passed Failed)).

(** [a is b] on flag members *)
Definition is_ (a b : t) : bool := N.eqb a b.
(** [a & ~b] *)
Definition without (a b : t) : t := N.ldiff a b.

(** How a status reads in a message; members only. *)
Definition name (s : t) : string :=
  if is_ s Unknown then "TestcaseStatus.Unknown"
  else if is_ s Skipped then "TestcaseStatus.Skipped"
  else if is_ s Weak then "TestcaseStatus.Weak"
  else if is_ s Passed then "TestcaseStatus.Passed"
  else if is_ s Failed then "TestcaseStatus.Failed"
  else if is_ s Errored then "TestcaseStatus.Errored"
  else "TestcaseStatus(?)".
End TestcaseStatus.

(** Modelled from the spec: [TestsuiteStatus] (same missing module).  The
    code only assigns and compares its members. *)
Module TestsuiteStatus.
Inductive t : Type := Unknown | Passed | Failed | Skipped | Errored | Empty.
End TestsuiteStatus.

(** Modelled from the spec: [IterationScheme] (same missing module), a flag
    set with the members of the spec's tree iterator. *)
Module IterationScheme.
Definition t : Type := N.
Definition IncludeSelf       : t := 1%N.
Definition IncludeTestsuites : t := 2%N.
Definition IncludeTestcases  : t := 4%N.
Definition Recursive         : t := 8%N.
Definition PreOrder          : t := 16%N.
Definition PostOrder         : t := 32%N.
Definition Default : t :=
  N.lor IncludeTestsuites (N.lor Recursive (N.lor IncludeTestcases PreOrder)).
Definition TestsuiteDefault : t :=
  N.lor IncludeTestsuites (N.lor Recursive PreOrder).
Definition TestcaseDefault : t :=
  N.lor IncludeTestcases (N.lor Recursive PreOrder).

(** [a | b] *)
Definition or (a b : t) : t := N.lor a b.
(** [a in s]: every bit of [a] is set in [s]. *)
Definition In (a s : t) : bool := N.eqb (N.land a s) a.
End IterationScheme.

(** Modelled from the spec: [TestsuiteKind] (same missing module), an ordered
    enumeration; [Package], [Module] and [Class] lie above [Logical]. *)
Module TestsuiteKind.
Inductive t : Type := Root | Logical | Namespace | Package | Module_ | Class.

Definition value (k : t) : Z :=
  match k with
  | Root => 0 | Logical => 1 | Namespace => 2
  | Package => 3 | Module_ => 4 | Class => 5
  end%Z.

(** [a > b] *)
Definition gt (a b : t) : bool := (value b <? value a)%Z.
End TestsuiteKind.

(** ** [JUnit.py] *)

Module JUnit.

(** [TestsuiteAggregateReturnType] *)
Definition TestsuiteAggregateReturnType : Type := (Z * Z * Z * Z * Z)%type.

(** *** class [Testcase] *)
Module Testcase.

(** The back-reference [_parent] is kept as the name of the parent node. *)
Record t : Type := mk {
    _parent : option string;
    _name : string;
    _duration : option Z;
    _assertionCount : option Z;
    _classname : option string;
    _status : TestcaseStatus.t
  }.

Definition set_status (s : TestcaseStatus.t) (self : t) : t :=
  mk (_parent self) (_name self) (_duration self) (_assertionCount self)
     (_classname self) s.

Definition set_parent (p : option string) (self : t) : t :=
  mk p (_name self) (_duration self) (_assertionCount self)
     (_classname self) (_status self).

(** [self._failedAssertionCount]: the class declares no such attribute and
    no method assigns it (the classes have slots only), so reading it
    raises. *)
Definition _failedAssertionCount (self : t) : result Z :=
  Raise (AttributeError
           "'Testcase' object has no attribute '_failedAssertionCount'").

(** [Testcase.Aggregate(strict)]: returns [None], mutates [_status]; the
    test case comes back as the call left it, also when it raised. *)
Definition Aggregate (strict : bool) (self : t) : t * result unit :=
  if TestcaseStatus.is_ (_status self) TestcaseStatus.Unknown then
    match _assertionCount self with
    | None => (set_status TestcaseStatus.Passed self, Return tt)
    | Some n =>
        if (n =? 0)%Z then (set_status TestcaseStatus.Weak self, Return tt)
        else
          match _failedAssertionCount self with
          | Raise e => (self, Raise e)
          | Return failedAssertionCount =>
              if (failedAssertionCount =? 0)%Z then
                (set_status TestcaseStatus.Passed self, Return tt)
              else
                let self := set_status TestcaseStatus.Failed self in
                if strict then
                  (set_status
                     (N.lor (TestcaseStatus.without (_status self)
                                                    TestcaseStatus.Passed)
                            TestcaseStatus.Failed) self,
                   Return tt)
                else (self, Return tt)
          end
    end
  else (self, Return tt).

End Testcase.

(** *** class [TestsuiteBase] *)
Module TestsuiteBase.
(** [TestsuiteBase.Aggregate()]: the five accumulators, all zero; the loop
    over child test suites is commented out in the source. *)
Definition Aggregate : TestsuiteAggregateReturnType :=
  let tests := 0%Z in
  let skipped := 0%Z in
  let errored := 0%Z in
  let failed := 0%Z in
  let passed := 0%Z in
  (tests, skipped, errored, failed, passed).
End TestsuiteBase.

(** *** class [Testsuite] *)
Module Testsuite.

Record t : Type := mk {
    _parent : option string;
    _name : string;
    _duration : option Z;
    _startTime : option Z;
    _status : TestsuiteStatus.t;
    _tests : Z;
    _skipped : Z;
    _errored : Z;
    _failed : Z;
    _passed : Z;
    _hostname : option string;
    _testcases : dict Testcase.t
  }.

Definition set_parent (p : option string) (self : t) : t :=
  mk p (_name self) (_duration self) (_startTime self) (_status self)
     (_tests self) (_skipped self) (_errored self) (_failed self)
     (_passed self) (_hostname self) (_testcases self).

Definition set_testcases (tcs : dict Testcase.t) (self : t) : t :=
  mk (_parent self) (_name self) (_duration self) (_startTime self)
     (_status self) (_tests self) (_skipped self) (_errored self)
     (_failed self) (_passed self) (_hostname self) tcs.

Definition set_counters (c : TestsuiteAggregateReturnType) (self : t) : t :=
  let '(tests, skipped, errored, failed, passed) := c in
  mk (_parent self) (_name self) (_duration self) (_startTime self)
     (_status self) tests skipped errored failed passed (_hostname self)
     (_testcases self).

Definition set_status (s : TestsuiteStatus.t) (self : t) : t :=
  mk (_parent self) (_name self) (_duration self) (_startTime self) s
     (_tests self) (_skipped self) (_errored self) (_failed self)
     (_passed self) (_hostname self) (_testcases self).

(** [TestcaseCount] *)
Definition TestcaseCount (self : t) : Z := Z.of_nat (List.length (_testcases self)).

(** [AddTestcase(testcase)] *)
Definition AddTestcase (testcase : Testcase.t) (self : t) : result t :=
  match Testcase._parent testcase with
  | Some _ =>
      Raise (ValueError ("Testcase '" ++ Testcase._name testcase
                         ++ "' is already part of a testsuite hierarchy."))
  | None =>
      if Py.contains (Testcase._name testcase) (_testcases self) then
        Raise (DuplicateTestcaseException
                 ("Testsuite already contains a testcase with same name '"
                  ++ Testcase._name testcase ++ "'."))
      else
        let testcase := Testcase.set_parent (Some (_name self)) testcase in
        Return (set_testcases
                  (Py.set (Testcase._name testcase) testcase (_testcases self))
                  self)
  end.

(** [AddTestcases(testcases)] *)
Fixpoint AddTestcases (testcases : list Testcase.t) (self : t) : result t :=
  match testcases with
  | [] => Return self
  | testcase :: rest =>
      self <- AddTestcase testcase self ;; AddTestcases rest self
  end.

(** The body of the [for testcase in self._testcases.values()] loop of
    [Aggregate], over the remaining entries; the entries come back as the
    loop left them, also when it raised. *)
Fixpoint Aggregate_loop (strict : bool) (entries : dict Testcase.t)
    (acc : TestsuiteAggregateReturnType)
    : dict Testcase.t * result TestsuiteAggregateReturnType :=
  match entries with
  | [] => ([], Return acc)
  | (key, testcase) :: rest =>
      let '(tests, skipped, errored, failed, passed) := acc in
      let (testcase, outcome) := Testcase.Aggregate strict testcase in
      let tests := (tests + 1)%Z in
      let status := Testcase._status testcase in
      let continue acc :=
        let (rest, r) := Aggregate_loop strict rest acc in
        ((key, testcase) :: rest, r) in
      let raise e := ((key, testcase) :: rest, Raise e) in
      match outcome with
      | Raise e => raise e
      | Return _ =>
      if TestcaseStatus.is_ status TestcaseStatus.Unknown then
        raise (UnittestException
                 ("Found testcase '" ++ Testcase._name testcase
                  ++ "' with state 'Unknown'."))
      else if TestcaseStatus.is_ status TestcaseStatus.Skipped then
        continue (tests, (skipped + 1)%Z, errored, failed, passed)
      else if TestcaseStatus.is_ status TestcaseStatus.Errored then
        continue (tests, skipped, (errored + 1)%Z, failed, passed)
      else if TestcaseStatus.is_ status TestcaseStatus.Passed then
        continue (tests, skipped, errored, failed, (passed + 1)%Z)
      else if TestcaseStatus.is_ status TestcaseStatus.Failed then
        continue (tests, skipped, errored, (failed + 1)%Z, passed)
      else if negb (TestcaseStatus.is_
                      (N.land status TestcaseStatus.Mask)
                      TestcaseStatus.Unknown) then
        raise (UnittestException
                 ("Found testcase '" ++ Testcase._name testcase
                  ++ "' with unsupported state '"
                  ++ TestcaseStatus.name status ++ "'."))
      else
        raise (UnittestException
                 ("Internal error for testcase '" ++ Testcase._name testcase
                  ++ "', field '_status' is '"
                  ++ TestcaseStatus.name status ++ "'."))
      end
  end.

(** The [if errored > 0: ... else: Unknown] chain that ends [Aggregate]. *)
Definition Aggregate_status (c : TestsuiteAggregateReturnType)
    : TestsuiteStatus.t :=
  let '(tests, skipped, errored, failed, passed) := c in
  if (errored >? 0)%Z then TestsuiteStatus.Errored
  else if (failed >? 0)%Z then TestsuiteStatus.Failed
  else if (tests =? 0)%Z then TestsuiteStatus.Empty
  else if (tests - skipped =? passed)%Z then TestsuiteStatus.Passed
  else if (tests =? skipped)%Z then TestsuiteStatus.Skipped
  else TestsuiteStatus.Unknown.

(** [Testsuite.Aggregate(strict)] *)
Definition Aggregate (strict : bool) (self : t)
    : t * result TestsuiteAggregateReturnType :=
  let (entries, r) :=
    Aggregate_loop strict (_testcases self) TestsuiteBase.Aggregate in
  let self := set_testcases entries self in
  match r with
  | Raise e => (self, Raise e)
  | Return c =>
      let self := set_counters c self in
      let self := set_status (Aggregate_status c) self in
      (self, Return c)
  end.


(** What [Iterate] yields: [Union[Testsuite, Testcase]]. *)
Inductive entity : Type :=
| ETestsuite (testsuite : t)
| ETestcase (testcase : Testcase.t).

(** [self._testsuites]: class [Testsuite] declares [_hostname] and
    [_testcases] only and nothing assigns [_testsuites] (the classes have
    slots only), so reading it raises. *)
Definition _testsuites (self : t) : exn :=
  AttributeError "'Testsuite' object has no attribute '_testsuites'".

(** [Testsuite.Iterate(scheme)], a generator.  The loop
    [for testsuite in self._testsuites.values()] raises when it evaluates
    [self._testsuites]: its body is never run, and nothing after the loop
    is. *)
Definition Iterate (scheme : IterationScheme.t) (self : t)
    : generator entity :=
  let own_testcases := yield_all (map ETestcase (Py.values (_testcases self))) in
  if IterationScheme.In
       (IterationScheme.or IterationScheme.PreOrder IterationScheme.PostOrder)
       scheme
  then throw AssertionError
  else
    (if IterationScheme.In IterationScheme.PreOrder scheme then
       (if IterationScheme.In
             (IterationScheme.or IterationScheme.IncludeSelf
                                 IterationScheme.IncludeTestsuites) scheme
        then yield (ETestsuite self) else stop)
       >> (if IterationScheme.In IterationScheme.IncludeTestcases scheme
           then own_testcases else stop)
     else stop)
    >> throw (_testsuites self)
    >> (if IterationScheme.In IterationScheme.PostOrder scheme then
          (if IterationScheme.In IterationScheme.IncludeTestcases scheme
           then own_testcases else stop)
          >> (if IterationScheme.In
                   (IterationScheme.or IterationScheme.IncludeSelf
                                       IterationScheme.IncludeTestsuites) scheme
              then yield (ETestsuite self) else stop)
        else stop).

(** [IterateTestcases(scheme)] *)
Definition IterateTestcases (scheme : IterationScheme.t) (self : t)
    : generator entity :=
  Iterate scheme self.

(** [testsuite.IterateTestsuites(scheme)], which [TestsuiteSummary.Iterate]
    calls: the method is commented out in the class and in its base, so
    looking it up raises. *)
Definition IterateTestsuites (scheme : IterationScheme.t) (self : t)
    : generator entity :=
  throw (AttributeError
           "'Testsuite' object has no attribute 'IterateTestsuites'").

End Testsuite.

(** *** class [TestsuiteSummary] *)
Module TestsuiteSummary.

Record t : Type := mk {
  _name : string;
  _duration : option Z;
  _startTime : option Z;
  _status : TestsuiteStatus.t;
  _tests : Z;
  _skipped : Z;
  _errored : Z;
  _failed : Z;
  _passed : Z;
  _testsuites : dict Testsuite.t
}.

Definition set_testsuites (tss : dict Testsuite.t) (self : t) : t :=
  mk (_name self) (_duration self) (_startTime self) (_status self)
     (_tests self) (_skipped self) (_errored self) (_failed self)
     (_passed self) tss.

Definition set_counters (c : TestsuiteAggregateReturnType) (self : t) : t :=
  let '(tests, skipped, errored, failed, passed) := c in
  mk (_name self) (_duration self) (_startTime self) (_status self)
     tests skipped errored failed passed (_testsuites self).

Definition set_status (s : TestsuiteStatus.t) (self : t) : t :=
  mk (_name self) (_duration self) (_startTime self) s
     (_tests self) (_skipped self) (_errored self) (_failed self)
     (_passed self) (_testsuites self).

(** [TestcaseCount] *)
Definition TestcaseCount (self : t) : Z :=
  fold_right Z.add 0%Z (map Testsuite.TestcaseCount (Py.values (_testsuites self))).

(** [TestsuiteCount] *)
Definition TestsuiteCount (self : t) : Z :=
  Z.of_nat (List.length (_testsuites self)).

(** [AddTestsuite(testsuite)] *)
Definition AddTestsuite (testsuite : Testsuite.t) (self : t) : result t :=
  match Testsuite._parent testsuite with
  | Some _ =>
      Raise (ValueError ("Testsuite '" ++ Testsuite._name testsuite
                         ++ "' is already part of a testsuite hierarchy."))
  | None =>
      if Py.contains (Testsuite._name testsuite) (_testsuites self) then
        Raise (DuplicateTestsuiteException
                 ("Testsuite already contains a testsuite with same name '"
                  ++ Testsuite._name testsuite ++ "'."))
      else
        let testsuite := Testsuite.set_parent (Some (_name self)) testsuite in
        Return (set_testsuites
                  (Py.set (Testsuite._name testsuite) testsuite (_testsuites self))
                  self)
  end.

(** [AddTestsuites(testsuites)] *)
Fixpoint AddTestsuites (testsuites : list Testsuite.t) (self : t) : result t :=
  match testsuites with
  | [] => Return self
  | testsuite :: rest =>
      self <- AddTestsuite testsuite self ;; AddTestsuites rest self
  end.

(** The [if errored > 0: ... else: Unknown] chain that ends [Aggregate]. *)
Definition Aggregate_status (c : TestsuiteAggregateReturnType)
    : TestsuiteStatus.t :=
  let '(tests, skipped, errored, failed, passed) := c in
  if (errored >? 0)%Z then TestsuiteStatus.Errored
  else if (failed >? 0)%Z then TestsuiteStatus.Failed
  else if (tests =? 0)%Z then TestsuiteStatus.Empty
  else if (tests - skipped =? passed)%Z then TestsuiteStatus.Passed
  else if (tests =? skipped)%Z then TestsuiteStatus.Skipped
  else TestsuiteStatus.Unknown.

(** [TestsuiteSummary.Aggregate()] *)
Definition Aggregate (self : t) : t * result TestsuiteAggregateReturnType :=
  let c := TestsuiteBase.Aggregate in
  let self := set_counters c self in
  let self := set_status (Aggregate_status c) self in
  (self, Return c).

(** What [Iterate] yields: the summary itself or what a test suite yields. *)
Inductive entity : Type :=
| ESelf (summary : t)
| EInner (e : Testsuite.entity).

(** [TestsuiteSummary.Iterate(scheme)], a generator. *)
Definition Iterate (scheme : IterationScheme.t) (self : t) : generator entity :=
  let inner (g : generator Testsuite.entity) : generator entity :=
    (map EInner (fst g), snd g) in
  (if IterationScheme.In
        (IterationScheme.or IterationScheme.IncludeSelf
           (IterationScheme.or IterationScheme.IncludeTestsuites
                               IterationScheme.PreOrder)) scheme
   then yield (ESelf self) else stop)
  >> (fix loop (entries : dict Testsuite.t) : generator entity :=
        match entries with
        | [] => stop
        | (_, testsuite) :: rest =>
            inner (Testsuite.IterateTestsuites
                     (IterationScheme.or scheme IterationScheme.IncludeSelf)
                     testsuite)
            >> loop rest
        end) (_testsuites self)
  >> (if IterationScheme.In
           (IterationScheme.or IterationScheme.IncludeSelf
              (IterationScheme.or IterationScheme.IncludeTestsuites
                                  IterationScheme.PostOrder)) scheme
      then yield (ESelf self) else stop).

End TestsuiteSummary.

(** *** Constructors

    A constructor called with [parent=] stores the new object in the
    parent's child map before anything else; it hands back the parent as it
    left it next to its outcome. *)

(** [Testcase.__init__(name, classname, duration, status, assertionCount,
    parent)] *)
Definition Testcase__init__ (name : string) (classname : option string)
    (duration : option Z) (status : TestcaseStatus.t)
    (assertionCount : option Z) (parent : option Testsuite.t)
    : option Testsuite.t * result Testcase.t :=
  let self :=
    Testcase.mk (option_map Testsuite._name parent) name duration
                assertionCount classname status in
  match parent with
  | Some p =>
      (Some (Testsuite.set_testcases
               (Py.set name self (Testsuite._testcases p)) p),
       Return self)
  | None => (None, Return self)
  end.

(** The [for testcase in testcases] loop of [Testsuite.__init__]. *)
Fixpoint Testsuite__init__loop (testcases : list Testcase.t)
    (self : Testsuite.t) : Testsuite.t * result unit :=
  match testcases with
  | [] => (self, Return tt)
  | testcase :: rest =>
      match Testcase._parent testcase with
      | Some _ =>
          (self,
           Raise (ValueError ("Testcase '" ++ Testcase._name testcase
                              ++ "' is already part of a testsuite hierarchy.")))
      | None =>
          if Py.contains (Testcase._name testcase) (Testsuite._testcases self)
          then
            (self,
             Raise (DuplicateTestcaseException
                      ("Testsuite already contains a testcase with same name '"
                       ++ Testcase._name testcase ++ "'.")))
          else
            let testcase :=
              Testcase.set_parent (Some (Testsuite._name self)) testcase in
            Testsuite__init__loop rest
              (Testsuite.set_testcases
                 (Py.set (Testcase._name testcase) testcase
                         (Testsuite._testcases self)) self)
      end
  end.

(** [Testsuite.__init__(name, hostname, startTime, duration, status,
    testcases, parent)] *)
Definition Testsuite__init__ (name : string) (hostname : option string)
    (startTime : option Z) (duration : option Z) (status : TestsuiteStatus.t)
    (testcases : option (list Testcase.t))
    (parent : option TestsuiteSummary.t)
    : option TestsuiteSummary.t * result Testsuite.t :=
  let self :=
    Testsuite.mk (option_map TestsuiteSummary._name parent) name duration
                 startTime status 0 0 0 0 0 hostname [] in
  let (self, r) :=
    match testcases with
    | Some testcases => Testsuite__init__loop testcases self
    | None => (self, Return tt)
    end in
  let parent :=
    option_map
      (fun p => TestsuiteSummary.set_testsuites
                  (Py.set name self (TestsuiteSummary._testsuites p)) p)
      parent in
  (parent, _ <- r ;; Return self).

(** The [for testsuite in testsuites] loop of [TestsuiteSummary.__init__]. *)
Fixpoint TestsuiteSummary__init__loop (testsuites : list Testsuite.t)
    (self : TestsuiteSummary.t) : result TestsuiteSummary.t :=
  match testsuites with
  | [] => Return self
  | testsuite :: rest =>
      match Testsuite._parent testsuite with
      | Some _ =>
          Raise (ValueError ("Testsuite '" ++ Testsuite._name testsuite
                             ++ "' is already part of a testsuite hierarchy."))
      | None =>
          if Py.contains (Testsuite._name testsuite)
                         (TestsuiteSummary._testsuites self)
          then
            Raise (DuplicateTestsuiteException
                     ("Testsuite already contains a testsuite with same name '"
                      ++ Testsuite._name testsuite ++ "'."))
          else
            let testsuite :=
              Testsuite.set_parent (Some (TestsuiteSummary._name self)) testsuite in
            TestsuiteSummary__init__loop rest
              (TestsuiteSummary.set_testsuites
                 (Py.set (Testsuite._name testsuite) testsuite
                         (TestsuiteSummary._testsuites self)) self)
      end
  end.

(** [TestsuiteSummary.__init__(name, startTime, duration, status, testsuites)] *)
Definition TestsuiteSummary__init__ (name : string) (startTime : option Z)
    (duration : option Z) (status : TestsuiteStatus.t)
    (testsuites : option (list Testsuite.t)) : result TestsuiteSummary.t :=
  let self :=
    TestsuiteSummary.mk name duration startTime status 0 0 0 0 0 [] in
  match testsuites with
  | Some testsuites => TestsuiteSummary__init__loop testsuites self
  | None => Return self
  end.

(** *** class [JUnitDocument] *)

(** The [lxml] element tree, as far as [Generate] builds it.  Attribute
    values stay structured: their rendering as text ([str], [isoformat],
    [:.6f]) is left out. *)
Module Xml.

Inductive value : Type :=
| Text (s : string)
| Int (z : Z)
| Seconds (duration : Z)
| Timestamp (time : Z).

Inductive Element : Type :=
| Elem (tag : string) (attrib : dict value) (children : list Element).

(** [SubElement(parent, tag, attrib)] appends a child. *)
Definition SubElement (child : Element) (parent : Element) : Element :=
  match parent with
  | Elem tag attrib children => Elem tag attrib (children ++ [child])
  end.

End Xml.

Module JUnitDocument.

(** What the [try] block of [Read] met. *)
Inductive lxml_outcome : Type :=
| Parsed (junitDocument : Xml.Element)
| SchemaSyntaxError
| DocumentSyntaxError
| OtherException.

(** The files on disk: path to content. *)
Definition filesystem : Type := dict Xml.Element.

(** What [path.open("wb")] and [file.write] did, the work of the operating
    system: the file was written, or an exception was raised and the files
    are left in some state. *)
Inductive write_outcome : Type :=
| Written
| WriteError (e : exn) (after : filesystem).

Record t : Type := mk {
  summary : TestsuiteSummary.t;
  _path : string;
  _xmlDocument : option Xml.Element;
  _analysisDuration : option Z;
  _modelConversion : option Z
}.

Definition set_xmlDocument (x : option Xml.Element) (self : t) : t :=
  mk (summary self) (_path self) x (_analysisDuration self)
     (_modelConversion self).

Definition set_analysisDuration (d : option Z) (self : t) : t :=
  mk (summary self) (_path self) (_xmlDocument self) d (_modelConversion self).

(** [JUnitDocument.__init__(xmlReportFile)] with [parse=False]. *)
Definition __init__ (xmlReportFile : string) : t :=
  mk (TestsuiteSummary.mk "Unprocessed JUnit XML file" None None
        TestsuiteStatus.Unknown 0 0 0 0 0 [])
     xmlReportFile None None None.

(** [Read()]: [fs] tells whether the path exists, [lxml] is what the parser
    did, the clock readings are in nanoseconds (the division by [1e9] is
    left out). *)
Definition Read (fs : filesystem) (lxml : lxml_outcome)
    (startAnalysis endAnalysis : Z) (self : t) : t * result unit :=
  if negb (Py.contains (_path self) fs) then
    (self, Raise (UnittestException
                    ("JUnit XML file '" ++ _path self ++ "' does not exist.")))
  else
    let finish self :=
      (set_analysisDuration (Some (endAnalysis - startAnalysis)%Z) self,
       Return tt) in
    match lxml with
    | Parsed junitDocument => finish (set_xmlDocument (Some junitDocument) self)
    | DocumentSyntaxError => finish self
    | SchemaSyntaxError =>
        (self, Raise (UnboundLocalError "junitParser"))
    | OtherException =>
        (self, Raise (UnittestException
                        ("Couldn't open '" ++ _path self ++ "'.")))
    end.

Definition attr_optional (key : string) (v : option Xml.value)
    (attrib : dict Xml.value) : dict Xml.value :=
  match v with
  | Some v => Py.set key v attrib
  | None => attrib
  end.

(** [_GenerateTestcase(testcase, parentElement)] *)
Definition _GenerateTestcase (testcase : Testcase.t)
    (parentElement : Xml.Element) : Xml.Element :=
  let attrib := Py.set "name" (Xml.Text (Testcase._name testcase)) [] in
  let attrib :=
    attr_optional "classname"
      (option_map Xml.Text (Testcase._classname testcase)) attrib in
  let attrib :=
    attr_optional "time"
      (option_map Xml.Seconds (Testcase._duration testcase)) attrib in
  let attrib :=
    attr_optional "assertions"
      (option_map Xml.Int (Testcase._assertionCount testcase)) attrib in
  let status := Testcase._status testcase in
  let children :=
    if TestcaseStatus.is_ status TestcaseStatus.Passed then []
    else if TestcaseStatus.is_ status TestcaseStatus.Failed then
      [Xml.Elem "failure" [] []]
    else if TestcaseStatus.is_ status TestcaseStatus.Skipped then
      [Xml.Elem "skipped" [] []]
    else [Xml.Elem "error" [] []] in
  Xml.SubElement (Xml.Elem "testcase" attrib children) parentElement.

(** [_GenerateTestsuite(testsuite, parentElement)] *)
Definition _GenerateTestsuite (testsuite : Testsuite.t)
    (parentElement : Xml.Element) : Xml.Element :=
  let attrib := Py.set "name" (Xml.Text (Testsuite._name testsuite)) [] in
  let attrib :=
    attr_optional "timestamp"
      (option_map Xml.Timestamp (Testsuite._startTime testsuite)) attrib in
  let attrib :=
    attr_optional "time"
      (option_map Xml.Seconds (Testsuite._duration testsuite)) attrib in
  let attrib := Py.set "tests" (Xml.Int (Testsuite._tests testsuite)) attrib in
  let attrib := Py.set "failures" (Xml.Int (Testsuite._failed testsuite)) attrib in
  let attrib := Py.set "errors" (Xml.Int (Testsuite._errored testsuite)) attrib in
  let attrib := Py.set "skipped" (Xml.Int (Testsuite._skipped testsuite)) attrib in
  let attrib :=
    attr_optional "hostname"
      (option_map Xml.Text (Testsuite._hostname testsuite)) attrib in
  let testsuiteElement :=
    fold_left (fun element tc => _GenerateTestcase tc element)
              (Py.values (Testsuite._testcases testsuite))
              (Xml.Elem "testsuite" attrib []) in
  Xml.SubElement testsuiteElement parentElement.

(** [Generate(overwrite)] *)
Definition Generate (overwrite : bool) (self : t) : t * result unit :=
  match _xmlDocument self with
  | Some _ =>
      (self,
       Raise (UnittestException "Internal XML document is populated with data."))
  | None =>
      let s := summary self in
      let attrib := Py.set "name" (Xml.Text (TestsuiteSummary._name s)) [] in
      let attrib :=
        attr_optional "timestamp"
          (option_map Xml.Timestamp (TestsuiteSummary._startTime s)) attrib in
      let attrib :=
        attr_optional "time"
          (option_map Xml.Seconds (TestsuiteSummary._duration s)) attrib in
      let attrib := Py.set "tests" (Xml.Int (TestsuiteSummary._tests s)) attrib in
      let attrib := Py.set "failures" (Xml.Int (TestsuiteSummary._failed s)) attrib in
      let attrib := Py.set "errors" (Xml.Int (TestsuiteSummary._errored s)) attrib in
      let attrib := Py.set "skipped" (Xml.Int (TestsuiteSummary._skipped s)) attrib in
      let rootElement :=
        fold_left (fun element testsuite => _GenerateTestsuite testsuite element)
                  (Py.values (TestsuiteSummary._testsuites s))
                  (Xml.Elem "testsuites" attrib []) in
      (set_xmlDocument (Some rootElement) self, Return tt)
  end.

(** [Write(path, overwrite, regenerate)]; [io] is what opening and writing
    the file does when the call gets that far. *)
Definition Write (path : option string) (overwrite regenerate : bool)
    (io : write_outcome) (fs : filesystem) (self : t)
    : (t * filesystem) * result unit :=
  let path := match path with Some p => p | None => _path self end in
  if negb overwrite && Py.contains path fs then
    ((self, fs),
     Raise (UnittestException
              ("JUnit XML file '" ++ path ++ "' can not be written.")))
  else
    let (self, r) :=
      if regenerate then Generate true self else (self, Return tt) in
    match r with
    | Raise e => ((self, fs), Raise e)
    | Return _ =>
        match _xmlDocument self with
        | None =>
            ((self, fs),
             Raise (UnittestException
                      "Internal XML document tree is empty and needs to be generated before write is possible."))
        | Some doc =>
            match io with
            | Written => ((self, Py.set path doc fs), Return tt)
            | WriteError e after => ((self, after), Raise e)
            end
        end
    end.

End JUnitDocument.

End JUnit.

(** ** The unified data model [pyEDAA.Reports.Unittesting]

    [GoogleTestJUnit.py] converts from and to the classes [ut_Testsuite] and
    [ut_Testcase]. *)

Module Unittesting.

(** Modelled from the spec: class [Testcase] of the unified model (the
    package module is not among the sources): a named leaf with a status. *)
Module Testcase.

Record t : Type := mk {
  _name : string;
  _status : TestcaseStatus.t;
  _testDuration : option Z;
  _assertionCount : option Z
}.

End Testcase.

(** Modelled from the spec: class [Testsuite] of the unified model: a named
    node with a kind, counters, a name-unique map of child test suites and
    one of test cases.  The back-reference [_parent] is not stored: a node is
    reached from above, and the way down to it gives its ancestors. *)
Module Testsuite.

Inductive t : Type := mk {
  _name : string;
  _kind : TestsuiteKind.t;
  _startTime : option Z;
  _totalDuration : option Z;
  _status : TestsuiteStatus.t;
  _tests : Z;
  _skipped : Z;
  _errored : Z;
  _failed : Z;
  _passed : Z;
  _testsuites : dict t;
  _testcases : dict Testcase.t
}.

Definition set_kind (k : TestsuiteKind.t) (self : t) : t :=
  mk (_name self) k (_startTime self) (_totalDuration self) (_status self)
     (_tests self) (_skipped self) (_errored self) (_failed self)
     (_passed self) (_testsuites self) (_testcases self).

Definition set_testsuites (tss : dict t) (self : t) : t :=
  mk (_name self) (_kind self) (_startTime self) (_totalDuration self)
     (_status self) (_tests self) (_skipped self) (_errored self)
     (_failed self) (_passed self) tss (_testcases self).

Definition set_testcases (tcs : dict Testcase.t) (self : t) : t :=
  mk (_name self) (_kind self) (_startTime self) (_totalDuration self)
     (_status self) (_tests self) (_skipped self) (_errored self)
     (_failed self) (_passed self) (_testsuites self) tcs.

(** [Testsuite(name, kind, startTime, totalDuration, status)] without
    children. *)
Definition __init__ (name : string) (kind : TestsuiteKind.t)
    (startTime totalDuration : option Z) (status : TestsuiteStatus.t) : t :=
  mk name kind startTime totalDuration status 0 0 0 0 0 [] [].

(** A node on the way up: what the walk over [_parent] reads of it. *)
Definition ancestor : Type := (string * TestsuiteKind.t)%type.

(** [IterateTestcases()]: the test cases of the subtree in pre-order (own
    cases, then each child suite), each with the chain of its [_parent]
    links, nearest first; [ancestors] is the chain above [self]. *)
Fixpoint IterateTestcases (ancestors : list ancestor) (self : t) {struct self}
    : list (list ancestor * Testcase.t) :=
  let chain := (_name self, _kind self) :: ancestors in
  map (fun tc => (chain, tc)) (Py.values (_testcases self))
  ++ (fix loop (entries : dict t) : list (list ancestor * Testcase.t) :=
        match entries with
        | [] => []
        | (_, testsuite) :: rest => IterateTestcases chain testsuite ++ loop rest
        end) (_testsuites self).

(** [AddTestcase(testcase)] for a test case that has no parent yet. *)
Definition AddTestcase (testcase : Testcase.t) (self : t) : result t :=
  if Py.contains (Testcase._name testcase) (_testcases self) then
    Raise (DuplicateTestcaseException
             ("Testsuite already contains a test case with same name '"
              ++ Testcase._name testcase ++ "'."))
  else
    Return (set_testcases
              (Py.set (Testcase._name testcase) testcase (_testcases self))
              self).

(** [AddTestcases(testcases)] *)
Fixpoint AddTestcases (testcases : list Testcase.t) (self : t) : result t :=
  match testcases with
  | [] => Return self
  | testcase :: rest =>
      self <- AddTestcase testcase self ;; AddTestcases rest self
  end.

End Testsuite.

End Unittesting.

(** ** [JUnit/GoogleTestJUnit.py] *)

Module GoogleTestJUnit.

Module ut_Testcase := Unittesting.Testcase.
Module ut_Testsuite := Unittesting.Testsuite.

(** [str.split(sep)] for a one-character separator. *)
Fixpoint split (sep : ascii) (s : string) : list string :=
  match s with
  | EmptyString => [EmptyString]
  | String c s' =>
      if Ascii.eqb c sep then EmptyString :: split sep s'
      else
        match split sep s' with
        | [] => [String c EmptyString]
        | w :: ws => String c w :: ws
        end
  end.

(** Modelled from the spec: class [Testcase] of the JUnit package
    ([JUnit/__init__.py] is not among the sources), with its conversions
    [FromTestcase] and [ToTestcase], which copy a test case field by field. *)
Module Testcase.

Record t : Type := mk {
  _name : string;
  _status : TestcaseStatus.t;
  _duration : option Z;
  _assertionCount : option Z
}.

Definition FromTestcase (testcase : ut_Testcase.t) : t :=
  mk (ut_Testcase._name testcase) (ut_Testcase._status testcase)
     (ut_Testcase._testDuration testcase) (ut_Testcase._assertionCount testcase).

Definition ToTestcase (self : t) : ut_Testcase.t :=
  ut_Testcase.mk (_name self) (_status self) (_duration self)
                 (_assertionCount self).

End Testcase.

(** Modelled from the spec: class [Testclass] of the JUnit package: the
    grouping node keyed by the class name, a name-unique map of test cases. *)
Module Testclass.

Record t : Type := mk {
  _name : string;
  _testcases : dict Testcase.t
}.

(** [AddTestcase(testcase)] for a test case that has no parent yet. *)
Definition AddTestcase (testcase : Testcase.t) (self : t) : result t :=
  if Py.contains (Testcase._name testcase) (_testcases self) then
    Raise (DuplicateTestcaseException
             ("Testclass already contains a testcase with same name '"
              ++ Testcase._name testcase ++ "'."))
  else
    Return (mk (_name self)
               (Py.set (Testcase._name testcase) testcase (_testcases self))).

End Testclass.

(** *** class [Testsuite] *)
Module Testsuite.

(** The fields are those of the JUnit package's [Testsuite]; in this dialect
    the children are the test classes. *)
Record t : Type := mk {
  _name : string;
  _startTime : option Z;
  _duration : option Z;
  _status : TestsuiteStatus.t;
  _tests : Z;
  _skipped : Z;
  _errored : Z;
  _failed : Z;
  _passed : Z;
  _testclasses : dict Testclass.t
}.

Definition set_testclasses (tcs : dict Testclass.t) (self : t) : t :=
  mk (_name self) (_startTime self) (_duration self) (_status self)
     (_tests self) (_skipped self) (_errored self) (_failed self)
     (_passed self) tcs.

(** The [while ts is not None and ts._kind > TestsuiteKind.Logical] loop of
    [FromTestsuite]; [ts] is the chain of [_parent] links still ahead. *)
Fixpoint FromTestsuite_classname (classname : string)
    (ts : list ut_Testsuite.ancestor) : string :=
  match ts with
  | [] => classname
  | (name, kind) :: up =>
      if TestsuiteKind.gt kind TestsuiteKind.Logical then
        FromTestsuite_classname (name ++ "." ++ classname) up
      else classname
  end.

(** The body of [for tc in testsuite.IterateTestcases()] in
    [FromTestsuite], over the test cases still to come. *)
Fixpoint FromTestsuite_loop
    (testcases : list (list ut_Testsuite.ancestor * ut_Testcase.t))
    (juTestsuite : t) : result t :=
  match testcases with
  | [] => Return juTestsuite
  | (chain, tc) :: rest =>
      match chain with
      | [] =>
          Raise (UnittestException
                   ("Testcase '" ++ ut_Testcase._name tc
                    ++ "' is not part of a hierarchy."))
      | (name, _) :: up =>
          let classname := FromTestsuite_classname name up in
          let juClass :=
            match Py.get classname (_testclasses juTestsuite) with
            | Some juClass => juClass
            | None => Testclass.mk classname []
            end in
          juClass <- Testclass.AddTestcase (Testcase.FromTestcase tc) juClass ;;
          FromTestsuite_loop rest
            (set_testclasses
               (Py.set classname juClass (_testclasses juTestsuite))
               juTestsuite)
      end
  end.

(** [Testsuite.FromTestsuite(testsuite)]; [ancestors] is the chain of
    [_parent] links above [testsuite]. *)
Definition FromTestsuite (ancestors : list ut_Testsuite.ancestor)
    (testsuite : ut_Testsuite.t) : result t :=
  let juTestsuite :=
    mk (ut_Testsuite._name testsuite) (ut_Testsuite._startTime testsuite)
       (ut_Testsuite._totalDuration testsuite) (ut_Testsuite._status testsuite)
       (ut_Testsuite._tests testsuite) (ut_Testsuite._skipped testsuite)
       (ut_Testsuite._errored testsuite) (ut_Testsuite._failed testsuite)
       (ut_Testsuite._passed testsuite) [] in
  FromTestsuite_loop (ut_Testsuite.IterateTestcases ancestors testsuite)
                     juTestsuite.

(** The walk [for element in classpath] of [ToTestsuite] from [suite] on,
    and what follows it: the innermost suite becomes a [Class], its parent a
    [Module] unless that parent is [testsuite], and the innermost suite
    receives the test cases.  [is_testsuite] tells whether [suite] is the
    suite [testsuite] that [ToTestsuite] returns. *)
Fixpoint ToTestsuite_walk (classpath : list string)
    (testcases : list ut_Testcase.t) (is_testsuite : bool)
    (suite : ut_Testsuite.t) : result ut_Testsuite.t :=
  match classpath with
  | [] =>
      ut_Testsuite.AddTestcases testcases
        (ut_Testsuite.set_kind TestsuiteKind.Class suite)
  | element :: rest =>
      let child :=
        match Py.get element (ut_Testsuite._testsuites suite) with
        | Some child => child
        | None =>
            ut_Testsuite.__init__ element TestsuiteKind.Package None None
                                  TestsuiteStatus.Unknown
        end in
      child <- ToTestsuite_walk rest testcases false child ;;
      let suite :=
        ut_Testsuite.set_testsuites
          (Py.set element child (ut_Testsuite._testsuites suite)) suite in
      Return (match rest with
              | [] =>
                  if is_testsuite then suite
                  else ut_Testsuite.set_kind TestsuiteKind.Module_ suite
              | _ :: _ => suite
              end)
  end.

(** The body of [for testclass in self._testclasses.values()]. *)
Definition ToTestsuite_testclass (testclass : Testclass.t)
    (testsuite : ut_Testsuite.t) : result ut_Testsuite.t :=
  let classpath := split "." (Testclass._name testclass) in
  match classpath with
  | [] => Raise (AttributeError "'NoneType' object has no attribute '_kind'")
  | _ :: _ =>
      ToTestsuite_walk classpath
        (map Testcase.ToTestcase (Py.values (Testclass._testcases testclass)))
        true testsuite
  end.

Fixpoint ToTestsuite_loop (testclasses : list Testclass.t)
    (testsuite : ut_Testsuite.t) : result ut_Testsuite.t :=
  match testclasses with
  | [] => Return testsuite
  | testclass :: rest =>
      testsuite <- ToTestsuite_testclass testclass testsuite ;;
      ToTestsuite_loop rest testsuite
  end.

(** [Testsuite.ToTestsuite()] *)
Definition ToTestsuite (self : t) : result ut_Testsuite.t :=
  let testsuite :=
    ut_Testsuite.__init__ (_name self) TestsuiteKind.Logical (_startTime self)
                          (_duration self) (_status self) in
  ToTestsuite_loop (Py.values (_testclasses self)) testsuite.

End Testsuite.

End GoogleTestJUnit.

(** ** [JUnit.py]: further methods *)

(** Python runtime, continued: [KeyError] and [del d[k]]. *)
Module PyMore.

(** The exceptions met so far, and [KeyError]. *)
Inductive exn : Type :=
| Known (e : Py.exn)
| KeyError (key : string).

Inductive result (A : Type) : Type :=
| Return (a : A)
| Raise (e : exn).
Arguments Return {A} a.
Arguments Raise {A} e.

(** [del d[k]] on a dictionary that holds [k]. *)
Fixpoint delete {V : Type} (k : string) (d : dict V) : dict V :=
  match d with
  | [] => []
  | (k', v) :: d' =>
      if String.eqb k k' then delete k d' else (k', v) :: delete k d'
  end.

End PyMore.

Module JUnitMore.
Import JUnit.

(** *** class [Base]: the annotation store *)
Module Base.
Section Store.
Context {Any : Type}.

Record t : Type := mk {
  _parent : option string;
  _name : string;
  _duration : option Z;
  _assertionCount : option Z;
  _dict : dict Any
}.

Definition set_dict (d : dict Any) (self : t) : t :=
  mk (_parent self) (_name self) (_duration self) (_assertionCount self) d.

(** [Base.__init__(name, duration, assertionCount, parent)] *)
Definition __init__ (name : string) (duration assertionCount : option Z)
    (parent : option string) : t :=
  mk parent name duration assertionCount [].

(** [__len__] *)
Definition __len__ (self : t) : Z := Z.of_nat (List.length (_dict self)).

(** [__getitem__(key)] *)
Definition __getitem__ (key : string) (self : t) : PyMore.result Any :=
  match Py.get key (_dict self) with
  | Some value => PyMore.Return value
  | None => PyMore.Raise (PyMore.KeyError key)
  end.

(** [__setitem__(key, value)] *)
Definition __setitem__ (key : string) (value : Any) (self : t) : t :=
  set_dict (Py.set key value (_dict self)) self.

(** [__delitem__(key)] *)
Definition __delitem__ (key : string) (self : t) : t * PyMore.result unit :=
  if Py.contains key (_dict self) then
    (set_dict (PyMore.delete key (_dict self)) self, PyMore.Return tt)
  else (self, PyMore.Raise (PyMore.KeyError key)).

(** [__contains__(key)] *)
Definition __contains__ (key : string) (self : t) : bool :=
  Py.contains key (_dict self).

(** [__iter__]: the items in insertion order. *)
Definition __iter__ (self : t) : list (string * Any) := _dict self.

End Store.
End Base.

(** *** [Copy] *)

(** [Testcase.Copy()] *)
Definition Testcase_Copy (self : Testcase.t) : Py.result Testcase.t :=
  snd (Testcase__init__ (Testcase._name self) None (Testcase._duration self)
         (Testcase._status self) (Testcase._assertionCount self) None).

(** [Testsuite.Copy()] *)
Definition Testsuite_Copy (self : Testsuite.t) : Py.result Testsuite.t :=
  snd (Testsuite__init__ (Testsuite._name self) (Testsuite._hostname self)
         (Testsuite._startTime self) (Testsuite._duration self)
         (Testsuite._status self) None None).

(** *** [JUnitDocument.Parse]

    How the text of an attribute becomes a string, a time stamp or a
    duration is the work of [lxml], [datetime.fromisoformat], [float] and
    [timedelta]; the three readers are parameters, a reader that raises says
    with what. *)
Module Parse.
Section Readers.
Variable text : Xml.value -> string.
Variable fromisoformat : Xml.value -> PyMore.result Z.
Variable seconds : Xml.value -> PyMore.result Z.

Definition tag (e : Xml.Element) : string :=
  match e with Xml.Elem tag _ _ => tag end.

Definition attrib (e : Xml.Element) : dict Xml.value :=
  match e with Xml.Elem _ attrib _ => attrib end.

(** [iterchildren()]; comment nodes, which every loop of [Parse] skips, are
    not part of the tree. *)
Definition iterchildren (e : Xml.Element) : list Xml.Element :=
  match e with Xml.Elem _ _ children => children end.

(** [reader(attrib[key]) if key in attrib else None] *)
Definition optional (reader : Xml.value -> PyMore.result Z) (key : string)
    (e : Xml.Element) : PyMore.result (option Z) :=
  match Py.get key (attrib e) with
  | None => PyMore.Return None
  | Some v =>
      match reader v with
      | PyMore.Return z => PyMore.Return (Some z)
      | PyMore.Raise x => PyMore.Raise x
      end
  end.

(** The loop over the children of a [testcase] element: the status they
    leave, and the exception of an element that is not known. *)
Fixpoint _ParseTestcase_loop (children : list Xml.Element)
    (status : TestcaseStatus.t) : TestcaseStatus.t * PyMore.result unit :=
  match children with
  | [] => (status, PyMore.Return tt)
  | node :: rest =>
      if String.eqb (tag node) "skipped" then
        _ParseTestcase_loop rest TestcaseStatus.Skipped
      else if String.eqb (tag node) "failure" then
        _ParseTestcase_loop rest TestcaseStatus.Failed
      else if String.eqb (tag node) "error" then
        _ParseTestcase_loop rest TestcaseStatus.Errored
      else if String.eqb (tag node) "system-out" then
        _ParseTestcase_loop rest status
      else if String.eqb (tag node) "system-err" then
        _ParseTestcase_loop rest status
      else if String.eqb (tag node) "properties" then
        _ParseTestcase_loop rest status
      else
        (status,
         PyMore.Raise
           (PyMore.Known
              (UnittestException
                 ("Unknown element '" ++ tag node ++ "' in junit file."))))
  end.

(** [_ParseTestcase(parent, testsuiteNode)]; the test case sits in the map
    of [parent] from its construction on, so [parent] comes back with it
    also when a child element raises.  The test case is the one
    [Testcase__init__] builds. *)
Definition _ParseTestcase (parent : Testsuite.t) (testsuiteNode : Xml.Element)
    : Testsuite.t * PyMore.result unit :=
  match Py.get "name" (attrib testsuiteNode) with
  | None => (parent, PyMore.Raise (PyMore.KeyError "name"))
  | Some name =>
      match Py.get "classname" (attrib testsuiteNode) with
      | None => (parent, PyMore.Raise (PyMore.KeyError "classname"))
      | Some className =>
          match Py.get "time" (attrib testsuiteNode) with
          | None => (parent, PyMore.Raise (PyMore.KeyError "time"))
          | Some time =>
              match seconds time with
              | PyMore.Raise x => (parent, PyMore.Raise x)
              | PyMore.Return duration =>
                  let testcase :=
                    Testcase.mk (Some (Testsuite._name parent)) (text name)
                                (Some duration) None (Some (text className))
                                TestcaseStatus.Unknown in
                  let (status, r) :=
                    _ParseTestcase_loop (iterchildren testsuiteNode)
                                        (Testcase._status testcase) in
                  let status :=
                    match r with
                    | PyMore.Return _ =>
                        if TestcaseStatus.is_ status TestcaseStatus.Unknown
                        then TestcaseStatus.Passed else status
                    | PyMore.Raise _ => status
                    end in
                  (Testsuite.set_testcases
                     (Py.set (text name) (Testcase.set_status status testcase)
                             (Testsuite._testcases parent)) parent,
                   r)
              end
          end
      end
  end.

(** What the attributes of a [testsuite] element give before the test suite
    is constructed: name, start time and duration. *)
Definition _ParseTestsuite_header (testsuitesNode : Xml.Element)
    : PyMore.result (string * option Z * option Z) :=
  match Py.get "name" (attrib testsuitesNode) with
  | None => PyMore.Raise (PyMore.KeyError "name")
  | Some name =>
      match optional fromisoformat "timestamp" testsuitesNode with
      | PyMore.Raise x => PyMore.Raise x
      | PyMore.Return startTime =>
          match optional seconds "time" testsuitesNode with
          | PyMore.Raise x => PyMore.Raise x
          | PyMore.Return duration =>
              PyMore.Return (text name, startTime, duration)
          end
      end
  end.

(** [_ParseTestsuite(newTestsuite, node)] for a [testsuite] element inside a
    [testsuite] element: the parent is a test suite, and the constructor
    refuses it when it gets that far. *)
Definition _ParseTestsuite_nested (node : Xml.Element) : PyMore.exn :=
  match _ParseTestsuite_header node with
  | PyMore.Raise x => x
  | PyMore.Return _ =>
      match Py.get "hostname" (attrib node) with
      | None =>
          PyMore.Known
            (TypeError
               "Testsuite.__init__() missing 1 required positional argument: 'hostname'")
      | Some _ =>
          PyMore.Known
            (TypeError "Parameter 'parent' is not of type 'TestsuiteSummary'.")
      end
  end.

(** The loop over the children of a [testsuite] element. *)
Fixpoint _ParseTestsuite_loop (children : list Xml.Element)
    (newTestsuite : Testsuite.t) : Testsuite.t * PyMore.result unit :=
  match children with
  | [] => (newTestsuite, PyMore.Return tt)
  | node :: rest =>
      if String.eqb (tag node) "testsuite" then
        (newTestsuite, PyMore.Raise (_ParseTestsuite_nested node))
      else if String.eqb (tag node) "testcase" then
        match _ParseTestcase newTestsuite node with
        | (newTestsuite, PyMore.Return _) =>
            _ParseTestsuite_loop rest newTestsuite
        | (newTestsuite, PyMore.Raise x) => (newTestsuite, PyMore.Raise x)
        end
      else _ParseTestsuite_loop rest newTestsuite
  end.

(** [_ParseTestsuite(parent, testsuitesNode)] for a child of the root; the
    new test suite, the one [Testsuite__init__] builds, sits in the map of
    [parent] from its construction on. *)
Definition _ParseTestsuite (parent : TestsuiteSummary.t)
    (testsuitesNode : Xml.Element) : TestsuiteSummary.t * PyMore.result unit :=
  match _ParseTestsuite_header testsuitesNode with
  | PyMore.Raise x => (parent, PyMore.Raise x)
  | PyMore.Return (name, startTime, duration) =>
      match Py.get "hostname" (attrib testsuitesNode) with
      | None =>
          (parent,
           PyMore.Raise
             (PyMore.Known
                (TypeError
                   "Testsuite.__init__() missing 1 required positional argument: 'hostname'")))
      | Some hostname =>
          let newTestsuite :=
            Testsuite.mk (Some (TestsuiteSummary._name parent)) name duration
                         startTime TestsuiteStatus.Unknown 0 0 0 0 0
                         (Some (text hostname)) [] in
          let (newTestsuite, r) :=
            _ParseTestsuite_loop (iterchildren testsuitesNode) newTestsuite in
          (TestsuiteSummary.set_testsuites
             (Py.set name newTestsuite (TestsuiteSummary._testsuites parent))
             parent,
           r)
      end
  end.

(** The loop [for rootNode in rootElement.iterchildren(tag="testsuite")]. *)
Fixpoint Parse_loop (children : list Xml.Element) (self : TestsuiteSummary.t)
    : TestsuiteSummary.t * PyMore.result unit :=
  match children with
  | [] => (self, PyMore.Return tt)
  | rootNode :: rest =>
      if String.eqb (tag rootNode) "testsuite" then
        match _ParseTestsuite self rootNode with
        | (self, PyMore.Return _) => Parse_loop rest self
        | (self, PyMore.Raise x) => (self, PyMore.Raise x)
        end
      else Parse_loop rest self
  end.

Definition set_summary (s : TestsuiteSummary.t) (self : JUnitDocument.t)
    : JUnitDocument.t :=
  JUnitDocument.mk s (JUnitDocument._path self) (JUnitDocument._xmlDocument self)
                   (JUnitDocument._analysisDuration self)
                   (JUnitDocument._modelConversion self).

Definition set_modelConversion (d : option Z) (self : JUnitDocument.t)
    : JUnitDocument.t :=
  JUnitDocument.mk (JUnitDocument.summary self) (JUnitDocument._path self)
                   (JUnitDocument._xmlDocument self)
                   (JUnitDocument._analysisDuration self) d.

Definition set_name (name : string) (s : TestsuiteSummary.t)
    : TestsuiteSummary.t :=
  TestsuiteSummary.mk name (TestsuiteSummary._duration s)
    (TestsuiteSummary._startTime s) (TestsuiteSummary._status s)
    (TestsuiteSummary._tests s) (TestsuiteSummary._skipped s)
    (TestsuiteSummary._errored s) (TestsuiteSummary._failed s)
    (TestsuiteSummary._passed s) (TestsuiteSummary._testsuites s).

Definition set_startTime (startTime : option Z) (s : TestsuiteSummary.t)
    : TestsuiteSummary.t :=
  TestsuiteSummary.mk (TestsuiteSummary._name s) (TestsuiteSummary._duration s)
    startTime (TestsuiteSummary._status s)
    (TestsuiteSummary._tests s) (TestsuiteSummary._skipped s)
    (TestsuiteSummary._errored s) (TestsuiteSummary._failed s)
    (TestsuiteSummary._passed s) (TestsuiteSummary._testsuites s).

Definition set_duration (duration : option Z) (s : TestsuiteSummary.t)
    : TestsuiteSummary.t :=
  TestsuiteSummary.mk (TestsuiteSummary._name s) duration
    (TestsuiteSummary._startTime s) (TestsuiteSummary._status s)
    (TestsuiteSummary._tests s) (TestsuiteSummary._skipped s)
    (TestsuiteSummary._errored s) (TestsuiteSummary._failed s)
    (TestsuiteSummary._passed s) (TestsuiteSummary._testsuites s).

(** [Parse()]; the clock readings are in nanoseconds (the division by
    [1e9] is left out). *)
Definition Parse (startConversion endConversation : Z) (self : JUnitDocument.t)
    : JUnitDocument.t * PyMore.result unit :=
  match JUnitDocument._xmlDocument self with
  | None =>
      (self,
       PyMore.Raise
         (PyMore.Known
            (UnittestException
               ("JUnit XML file '" ++ JUnitDocument._path self
                ++ "' needs to be read and analyzed by an XML parser."))))
  | Some rootElement =>
      let s := JUnitDocument.summary self in
      let s :=
        set_name (match Py.get "name" (attrib rootElement) with
                  | Some v => text v
                  | None => "root"
                  end) s in
      match optional fromisoformat "timestamp" rootElement with
      | PyMore.Raise x => (set_summary s self, PyMore.Raise x)
      | PyMore.Return startTime =>
          let s := set_startTime startTime s in
          match optional seconds "time" rootElement with
          | PyMore.Raise x => (set_summary s self, PyMore.Raise x)
          | PyMore.Return duration =>
              let s := set_duration duration s in
              match Parse_loop (iterchildren rootElement) s with
              | (s, PyMore.Raise x) => (set_summary s self, PyMore.Raise x)
              | (s, PyMore.Return _) =>
                  let s := fst (TestsuiteSummary.Aggregate s) in
                  (set_modelConversion
                     (Some (endConversation - startConversion)%Z)
                     (set_summary s self),
                   PyMore.Return tt)
              end
          end
      end
  end.

End Readers.
End Parse.

End JUnitMore.

(** ** [JUnit.py]: the constructor of the document *)
Module JUnitConstruct.
Import JUnit JUnitMore.

(** [JUnitDocument.__init__(xmlReportFile, parse)]: with [parse] the
    constructor reads and parses; when one of the two raises there is no
    object.  The arguments before [xmlReportFile] are those of [Read] and
    [Parse]. *)
Definition JUnitDocument__init__ (text : Xml.value -> string)
    (fromisoformat seconds : Xml.value -> PyMore.result Z)
    (fs : JUnitDocument.filesystem) (lxml : JUnitDocument.lxml_outcome)
    (startAnalysis endAnalysis startConversion endConversation : Z)
    (xmlReportFile : string) (parse : bool) : PyMore.result JUnitDocument.t :=
  let self := JUnitDocument.__init__ xmlReportFile in
  if parse then
    match JUnitDocument.Read fs lxml startAnalysis endAnalysis self with
    | (_, Raise e) => PyMore.Raise (PyMore.Known e)
    | (self, Return _) =>
        match Parse.Parse text fromisoformat seconds startConversion
                          endConversation self with
        | (_, PyMore.Raise e) => PyMore.Raise e
        | (self, PyMore.Return _) => PyMore.Return self
        end
    end
  else PyMore.Return self.

End JUnitConstruct.

(** * Vocabulary of the statements and sample inputs *)

(** The sum of the four outcome counters equals the number of tests. *)
Definition balanced (c : JUnit.TestsuiteAggregateReturnType) : Prop :=
  let '(tests, skipped, errored, failed, passed) := c in
  (tests = skipped + errored + failed + passed)%Z.

(** The status rules in their order, first match wins: each rule applies
    when its condition holds and those of the rules before it do not. *)
Definition precedence (c : JUnit.TestsuiteAggregateReturnType)
    (status : TestsuiteStatus.t) : Prop :=
  let '(tests, skipped, errored, failed, passed) := c in
  ((errored > 0 -> status = TestsuiteStatus.Errored)
   /\ (errored <= 0 -> failed > 0 -> status = TestsuiteStatus.Failed)
   /\ (errored <= 0 -> failed <= 0 -> tests = 0 ->
       status = TestsuiteStatus.Empty)
   /\ (errored <= 0 -> failed <= 0 -> tests <> 0 -> tests - skipped = passed ->
       status = TestsuiteStatus.Passed)
   /\ (errored <= 0 -> failed <= 0 -> tests <> 0 -> tests - skipped <> passed ->
       tests = skipped -> status = TestsuiteStatus.Skipped)
   /\ (errored <= 0 -> failed <= 0 -> tests <> 0 -> tests - skipped <> passed ->
       tests <> skipped -> status = TestsuiteStatus.Unknown))%Z.

(** The counters a test suite stores. *)
Definition stored (self : JUnit.Testsuite.t) : JUnit.TestsuiteAggregateReturnType :=
  (JUnit.Testsuite._tests self, JUnit.Testsuite._skipped self,
   JUnit.Testsuite._errored self, JUnit.Testsuite._failed self,
   JUnit.Testsuite._passed self).

(** The counters a summary stores. *)
Definition stored_summary (self : JUnit.TestsuiteSummary.t)
    : JUnit.TestsuiteAggregateReturnType :=
  (JUnit.TestsuiteSummary._tests self, JUnit.TestsuiteSummary._skipped self,
   JUnit.TestsuiteSummary._errored self, JUnit.TestsuiteSummary._failed self,
   JUnit.TestsuiteSummary._passed self).

Module Sample.
Import JUnit.

Definition testcase (parent name : string) (status : TestcaseStatus.t)
    (assertionCount : option Z) : Testcase.t :=
  Testcase.mk (Some parent) name None assertionCount (Some "cls") status.

Definition testsuite (name : string) (testcases : dict Testcase.t)
    : Testsuite.t :=
  Testsuite.mk None name None None TestsuiteStatus.Unknown 0 0 0 0 0 None
               testcases.

(** One failed and one passed test case. *)
Definition T : Testsuite.t :=
  testsuite "T"
    [("bad", testcase "T" "bad" TestcaseStatus.Failed None);
     ("good", testcase "T" "good" TestcaseStatus.Passed None)].

(** Every test case skipped. *)
Definition all_skipped : Testsuite.t :=
  testsuite "S" [("a", testcase "S" "a" TestcaseStatus.Skipped None)].

(** An unresolved test case that recorded zero assertions. *)
Definition zero_assertions : Testsuite.t :=
  testsuite "W" [("w", testcase "W" "w" TestcaseStatus.Unknown (Some 0%Z))].

(** An unresolved test case that recorded three assertions. *)
Definition three_assertions : Testsuite.t :=
  testsuite "A" [("t", testcase "A" "t" TestcaseStatus.Unknown (Some 3%Z))].

(** A summary over [T]. *)
Definition summary : TestsuiteSummary.t :=
  TestsuiteSummary.mk "root" None None TestsuiteStatus.Unknown 0 0 0 0 0
                      [("T", T)].

(** Everything, the node included, children first. *)
Definition post_order : IterationScheme.t :=
  IterationScheme.or IterationScheme.IncludeSelf
    (IterationScheme.or IterationScheme.IncludeTestsuites
       (IterationScheme.or IterationScheme.IncludeTestcases
                           IterationScheme.PostOrder)).

(** Both orders at once. *)
Definition both_orders : IterationScheme.t :=
  IterationScheme.or IterationScheme.Default IterationScheme.PostOrder.

(** A document whose internal XML tree [Read] has filled. *)
Definition fs : JUnitDocument.filesystem :=
  [("report.xml", Xml.Elem "testsuites" [] [])].

Definition document : JUnitDocument.t :=
  fst (JUnitDocument.Read fs
         (JUnitDocument.Parsed (Xml.Elem "testsuites" [] [])) 0 5
         (JUnitDocument.__init__ "report.xml")).

(** The same name as a test case of [T], for a test case not yet in it. *)
Definition newcomer : Testcase.t :=
  Testcase.mk None "good" None None (Some "other") TestcaseStatus.Skipped.

End Sample.

Module SampleGoogleTest.
Import GoogleTestJUnit.

Definition testcase (name : string) : ut_Testcase.t :=
  ut_Testcase.mk name TestcaseStatus.Passed None None.

Definition suite (name : string) (kind : TestsuiteKind.t)
    (testsuites : dict ut_Testsuite.t) (testcases : dict ut_Testcase.t)
    : ut_Testsuite.t :=
  ut_Testsuite.mk name kind None None TestsuiteStatus.Unknown 0 0 0 0 0
                  testsuites testcases.

(** Test cases under the classes pkg.Mod.ClassA and pkg.Mod.ClassB. *)
Definition x : ut_Testsuite.t :=
  suite "T" TestsuiteKind.Logical
    [("pkg",
      suite "pkg" TestsuiteKind.Package
        [("Mod",
          suite "Mod" TestsuiteKind.Module_
            [("ClassA",
              suite "ClassA" TestsuiteKind.Class []
                [("t1", testcase "t1"); ("t2", testcase "t2")]);
             ("ClassB",
              suite "ClassB" TestsuiteKind.Class []
                [("t1", testcase "t1")])]
            [])]
        [])]
    [].

(** Two suites that come out under the same dotted class name "a.b", each
    with a test case "t". *)
Definition clash : ut_Testsuite.t :=
  suite "T" TestsuiteKind.Logical
    [("a.b", suite "a.b" TestsuiteKind.Class [] [("t", testcase "t")]);
     ("a",
      suite "a" TestsuiteKind.Package
        [("b", suite "b" TestsuiteKind.Class [] [("t", testcase "t")])]
        [])]
    [].

(** The empty result suite [ToTestsuite] starts from. *)
Definition root : ut_Testsuite.t :=
  ut_Testsuite.__init__ "T" TestsuiteKind.Logical None None
                        TestsuiteStatus.Unknown.

Definition testclass (name : string) : Testclass.t :=
  Testclass.mk name [("t", Testcase.mk "t" TestcaseStatus.Passed None None)].

(** The result suite after the test class pkg.Mod.ClassA was placed. *)
Definition placed : ut_Testsuite.t :=
  match Testsuite.ToTestsuite_testclass (testclass "pkg.Mod.ClassA") root with
  | Return testsuite => testsuite
  | Raise _ => root
  end.

End SampleGoogleTest.

(** The three groups of what [Testsuite.Iterate] yields for a node. *)
Module Groups.
Import JUnit.

(** The node itself, when [IncludeSelf] and [IncludeTestsuites] are set. *)
Definition self (scheme : IterationScheme.t) (node : Testsuite.t)
    : list Testsuite.entity :=
  if IterationScheme.In IterationScheme.IncludeSelf scheme
     && IterationScheme.In IterationScheme.IncludeTestsuites scheme
  then [Testsuite.ETestsuite node] else [].

(** The node's own test cases, when [IncludeTestcases] is set. *)
Definition testcases (scheme : IterationScheme.t) (node : Testsuite.t)
    : list Testsuite.entity :=
  if IterationScheme.In IterationScheme.IncludeTestcases scheme
  then map Testsuite.ETestcase (Py.values (Testsuite._testcases node)) else [].

(** The summary itself, when [IncludeSelf] and [IncludeTestsuites] are set. *)
Definition summary (scheme : IterationScheme.t) (node : TestsuiteSummary.t)
    : list TestsuiteSummary.entity :=
  if IterationScheme.In IterationScheme.IncludeSelf scheme
     && IterationScheme.In IterationScheme.IncludeTestsuites scheme
  then [TestsuiteSummary.ESelf node] else [].

End Groups.

(** The vocabulary of the class-name mapping. *)
Module Classname.
Import GoogleTestJUnit.

(** The kind of the suite reached from [suite] along the names of [path]. *)
Fixpoint kind_at (path : list string) (suite : ut_Testsuite.t)
    : option TestsuiteKind.t :=
  match path with
  | [] => Some (ut_Testsuite._kind suite)
  | element :: rest =>
      match Py.get element (ut_Testsuite._testsuites suite) with
      | Some child => kind_at rest child
      | None => None
      end
  end.

(** The kind a suite on the way has after the walk: its own when it was
    there, [Package] when the walk made it. *)
Definition kept_or_Package (before : option TestsuiteKind.t)
    : option TestsuiteKind.t :=
  match before with
  | Some kind => Some kind
  | None => Some TestsuiteKind.Package
  end.

(** ["."].join(path) *)
Fixpoint join (path : list string) : string :=
  match path with
  | [] => ""
  | element :: rest =>
      match rest with
      | [] => element
      | _ :: _ => element ++ "." ++ join rest
      end
  end.

(** The dotted class name [FromTestsuite] computes for a test case from the
    chain of its [_parent] links. *)
Definition of_chain (chain : list ut_Testsuite.ancestor) : string :=
  match chain with
  | [] => ""
  | (name, _) :: up => Testsuite.FromTestsuite_classname name up
  end.

(** The test cases of a tree, each under its dotted class name. *)
Definition cases (ancestors : list ut_Testsuite.ancestor)
    (testsuite : ut_Testsuite.t) : list (string * ut_Testcase.t) :=
  map (fun e => (of_chain (fst e), snd e))
      (ut_Testsuite.IterateTestcases ancestors testsuite).

(** Class name and test case name, what tells one test case from another. *)
Definition names (l : list (string * ut_Testcase.t)) : list (string * string) :=
  map (fun e => (fst e, ut_Testcase._name (snd e))) l.

(** Every suite strictly below [testsuite] has a kind above [Logical]. *)
Fixpoint kinds_above_Logical (testsuite : ut_Testsuite.t) : bool :=
  (fix all (entries : dict ut_Testsuite.t) : bool :=
     match entries with
     | [] => true
     | (_, child) :: rest =>
         TestsuiteKind.gt (ut_Testsuite._kind child) TestsuiteKind.Logical
         && kinds_above_Logical child && all rest
     end) (ut_Testsuite._testsuites testsuite).

(** What a test class holds, as test cases of the unified model under the
    name of the class. *)
Definition class_content (testclass : Testclass.t)
    : list (string * ut_Testcase.t) :=
  map (fun e => (Testclass._name testclass, Testcase.ToTestcase (snd e)))
      (Testclass._testcases testclass).

(** What the test classes of a test suite hold. *)
Definition content (testclasses : dict Testclass.t)
    : list (string * ut_Testcase.t) :=
  flat_map (fun e => class_content (snd e)) testclasses.

(** The test cases of a subtree under the dotted names of their suites,
    counted from the root of the subtree. *)
Fixpoint relative (self : ut_Testsuite.t) : list (string * ut_Testcase.t) :=
  map (fun tc => (ut_Testsuite._name self, tc))
      (Py.values (ut_Testsuite._testcases self))
  ++ (fix loop (entries : dict ut_Testsuite.t) : list (string * ut_Testcase.t) :=
        match entries with
        | [] => []
        | (_, child) :: rest =>
            map (fun e => ((ut_Testsuite._name self ++ "." ++ fst e)%string, snd e))
                (relative child)
            ++ loop rest
        end) (ut_Testsuite._testsuites self).

(** A subtree all of whose suites have a kind above [Logical] and sit in
    their parent's map under their own name. *)
Fixpoint above (self : ut_Testsuite.t) : Prop :=
  TestsuiteKind.gt (ut_Testsuite._kind self) TestsuiteKind.Logical = true
  /\ (fix all (entries : dict ut_Testsuite.t) : Prop :=
        match entries with
        | [] => True
        | (key, child) :: rest =>
            (ut_Testsuite._name child = key /\ above child) /\ all rest
        end) (ut_Testsuite._testsuites self).

(** The result suite of [ToTestsuite] while it is being filled: [Logical],
    without test cases of its own, over subtrees that are [above]. *)
Definition filling (testsuite : ut_Testsuite.t) : Prop :=
  ut_Testsuite._kind testsuite = TestsuiteKind.Logical
  /\ ut_Testsuite._testcases testsuite = []
  /\ Forall (fun e => ut_Testsuite._name (snd e) = fst e /\ above (snd e))
            (ut_Testsuite._testsuites testsuite).

(** Test classes as [FromTestsuite] builds them: keyed by their name, each a
    map of test cases keyed by their name, no key twice. *)
Definition grouped (testclasses : dict Testclass.t) : Prop :=
  NoDup (Py.keys testclasses)
  /\ Forall (fun e =>
               Testclass._name (snd e) = fst e
               /\ NoDup (Py.keys (Testclass._testcases (snd e)))
               /\ Forall (fun c => Testcase._name (snd c) = fst c)
                         (Testclass._testcases (snd e)))
            testclasses.

End Classname.

(** Inputs for the properties of insertion. *)
Module SampleInsert.
Import JUnit.

Definition fresh (name : string) : Testcase.t :=
  Testcase.mk None name None None (Some "cls") TestcaseStatus.Passed.

Definition empty : Testsuite.t :=
  Testsuite.mk None "E" None None TestsuiteStatus.Unknown 0 0 0 0 0 None [].

Definition unparented : Testsuite.t :=
  Testsuite.mk None "U" None None TestsuiteStatus.Unknown 0 0 0 0 0 None
               [("u", Sample.testcase "U" "u" TestcaseStatus.Passed None)].

End SampleInsert.

(** Reading an element of the generated XML tree. *)
Module XmlView.
Import JUnit.

Definition tag (e : Xml.Element) : string :=
  match e with Xml.Elem tag _ _ => tag end.

Definition attrib (e : Xml.Element) : dict Xml.value :=
  match e with Xml.Elem _ attrib _ => attrib end.

Definition children (e : Xml.Element) : list Xml.Element :=
  match e with Xml.Elem _ _ children => children end.

(** The element [_GenerateTestcase] appends for a test case: what it adds to
    a parent without children. *)
Definition testcase_element (testcase : Testcase.t) : list Xml.Element :=
  children (JUnitDocument._GenerateTestcase testcase (Xml.Elem "testsuite" [] [])).

(** The element [_GenerateTestsuite] appends for a test suite. *)
Definition testsuite_element (testsuite : Testsuite.t) : list Xml.Element :=
  children (JUnitDocument._GenerateTestsuite testsuite (Xml.Elem "testsuites" [] [])).

(** The status child of a [testcase] element that stands for a status. *)
Definition status_children (status : TestcaseStatus.t) : list string :=
  if TestcaseStatus.is_ status TestcaseStatus.Passed then []
  else if TestcaseStatus.is_ status TestcaseStatus.Failed then ["failure"]
  else if TestcaseStatus.is_ status TestcaseStatus.Skipped then ["skipped"]
  else ["error"].



End XmlView.

Module SampleStore.
Import JUnitMore.

Definition annotated : @Base.t Z :=
  Base.mk None "node" None None [("seed", 7%Z); ("runs", 3%Z)].

End SampleStore.

(** What [Parse] builds, and what it makes of what [Generate] wrote. *)
Module Reparsed.
Import JUnit.

(** The status a test case comes back with after its element was written
    and read again. *)
Definition status (s : TestcaseStatus.t) : TestcaseStatus.t :=
  if TestcaseStatus.is_ s TestcaseStatus.Passed then TestcaseStatus.Passed
  else if TestcaseStatus.is_ s TestcaseStatus.Failed then TestcaseStatus.Failed
  else if TestcaseStatus.is_ s TestcaseStatus.Skipped then TestcaseStatus.Skipped
  else TestcaseStatus.Errored.

Definition testcase (suite : string) (tc : Testcase.t) : Testcase.t :=
  Testcase.mk (Some suite) (Testcase._name tc) (Testcase._duration tc) None
              (Testcase._classname tc) (status (Testcase._status tc)).

Definition testsuite (summary : string) (ts : Testsuite.t) : Testsuite.t :=
  Testsuite.mk (Some summary) (Testsuite._name ts) (Testsuite._duration ts)
               (Testsuite._startTime ts) TestsuiteStatus.Unknown 0 0 0 0 0
               (Testsuite._hostname ts)
               (map (fun e => (fst e, testcase (Testsuite._name ts) (snd e)))
                    (Testsuite._testcases ts)).

Definition summary (s : TestsuiteSummary.t) : TestsuiteSummary.t :=
  TestsuiteSummary.mk (TestsuiteSummary._name s) (TestsuiteSummary._duration s)
    (TestsuiteSummary._startTime s) TestsuiteStatus.Empty 0 0 0 0 0
    (map (fun e => (fst e, testsuite (TestsuiteSummary._name s) (snd e)))
         (TestsuiteSummary._testsuites s)).

(** The readers give back what [Generate] rendered. *)
Definition inverse (text : Xml.value -> string)
    (fromisoformat seconds : Xml.value -> PyMore.result Z) : Prop :=
  (forall s, text (Xml.Text s) = s)
  /\ (forall t, fromisoformat (Xml.Timestamp t) = PyMore.Return t)
  /\ (forall d, seconds (Xml.Seconds d) = PyMore.Return d).

(** A map keeps every object under its name, and no name twice. *)
Definition keyed {V : Type} (name : V -> string) (d : dict V) : Prop :=
  NoDup (Py.keys d) /\ Forall (fun e => fst e = name (snd e)) d.

(** The summary holds what [Parse] asks of a document: every test suite
    has a host name, every test case a class name and a duration. *)
Definition complete (s : TestsuiteSummary.t) : Prop :=
  keyed Testsuite._name (TestsuiteSummary._testsuites s)
  /\ Forall
       (fun e =>
          Testsuite._hostname (snd e) <> None
          /\ keyed Testcase._name (Testsuite._testcases (snd e))
          /\ Forall
               (fun c =>
                  Testcase._classname (snd c) <> None
                  /\ Testcase._duration (snd c) <> None)
               (Testsuite._testcases (snd e)))
       (TestsuiteSummary._testsuites s).

(** One of the four statuses [_ParseTestcase] can leave. *)
Definition terminal (s : TestcaseStatus.t) : Prop :=
  s = TestcaseStatus.Passed \/ s = TestcaseStatus.Skipped
  \/ s = TestcaseStatus.Failed \/ s = TestcaseStatus.Errored.

(** An entry of a test suite's map as [_ParseTestcase] makes it. *)
Definition read_testcase (suite : string) (e : string * Testcase.t) : Prop :=
  fst e = Testcase._name (snd e)
  /\ Testcase._parent (snd e) = Some suite
  /\ terminal (Testcase._status (snd e))
  /\ Testcase._classname (snd e) <> None
  /\ Testcase._duration (snd e) <> None
  /\ Testcase._assertionCount (snd e) = None.

(** An entry of the summary's map as [_ParseTestsuite] makes it. *)
Definition read_testsuite (summary : string) (e : string * Testsuite.t)
    : Prop :=
  fst e = Testsuite._name (snd e)
  /\ Testsuite._parent (snd e) = Some summary
  /\ Testsuite._status (snd e) = TestsuiteStatus.Unknown
  /\ stored (snd e) = (0, 0, 0, 0, 0)%Z
  /\ Testsuite._hostname (snd e) <> None
  /\ Forall (read_testcase (fst e)) (Testsuite._testcases (snd e)).

End Reparsed.

Module SampleParse.
Import JUnit.

Definition text (v : Xml.value) : string :=
  match v with Xml.Text s => s | _ => "" end.

Definition fromisoformat (v : Xml.value) : PyMore.result Z :=
  match v with
  | Xml.Timestamp t => PyMore.Return t
  | _ => PyMore.Raise (PyMore.Known (ValueError "Invalid isoformat string"))
  end.

Definition seconds (v : Xml.value) : PyMore.result Z :=
  match v with
  | Xml.Seconds d => PyMore.Return d
  | _ =>
      PyMore.Raise (PyMore.Known (ValueError "could not convert string to float"))
  end.

(** A document as [Read] leaves it with [root] as its XML tree. *)
Definition read (root : Xml.Element) : JUnitDocument.t :=
  JUnitDocument.set_xmlDocument (Some root) (JUnitDocument.__init__ "report.xml").

Definition case (name : string) (children : list Xml.Element) : Xml.Element :=
  Xml.Elem "testcase"
    [("name", Xml.Text name); ("classname", Xml.Text "C");
     ("time", Xml.Seconds 1)]
    children.

(** A report with one test suite: a failed and a passed test case. *)
Definition failing : Xml.Element :=
  Xml.Elem "testsuites" [("name", Xml.Text "all")]
    [Xml.Elem "testsuite"
       [("name", Xml.Text "S"); ("hostname", Xml.Text "host")]
       [case "a" [Xml.Elem "failure" [] []]; case "b" []]].

(** A test suite element without host name. *)
Definition anonymous : Xml.Element :=
  Xml.Elem "testsuite" [("name", Xml.Text "S")] [case "a" []].

(** A report with a test suite inside a test suite. *)
Definition inner : Xml.Element :=
  Xml.Elem "testsuite"
    [("name", Xml.Text "inner"); ("hostname", Xml.Text "host")] [].

Definition outer : Xml.Element :=
  Xml.Elem "testsuite"
    [("name", Xml.Text "outer"); ("hostname", Xml.Text "host")]
    [case "a" []; inner].

Definition nested : Xml.Element :=
  Xml.Elem "testsuites" [("name", Xml.Text "all")] [outer].

(** A summary built in memory, with all that [Parse] asks for. *)
Definition S : Testsuite.t :=
  Testsuite.mk (Some "all") "S" (Some 3%Z) (Some 100%Z) TestsuiteStatus.Failed
               2 0 0 1 1 (Some "host")
               [("a", Testcase.mk (Some "S") "a" (Some 1%Z) (Some 4%Z)
                        (Some "C") TestcaseStatus.Failed);
                ("b", Testcase.mk (Some "S") "b" (Some 2%Z) None
                        (Some "C") TestcaseStatus.Weak)].

Definition written : JUnitDocument.t :=
  JUnitDocument.mk
    (TestsuiteSummary.mk "all" (Some 3%Z) None TestsuiteStatus.Failed
                         2 0 0 1 1 [("S", S)])
    "report.xml" None None None.

End SampleParse.

Module SampleTestclasses.
Import GoogleTestJUnit.

(** A test suite of the dialect with two test classes. *)
Definition juTestsuite : Testsuite.t :=
  Testsuite.mk "T" None None TestsuiteStatus.Unknown 0 0 0 0 0
    [("pkg.Mod.ClassA", SampleGoogleTest.testclass "pkg.Mod.ClassA");
     ("Solo", SampleGoogleTest.testclass "Solo")].

End SampleTestclasses.

Module SampleSummary.
Import JUnit.

(** A summary without test suites. *)
Definition empty : TestsuiteSummary.t :=
  TestsuiteSummary.mk "root" None None TestsuiteStatus.Unknown 0 0 0 0 0 [].

End SampleSummary.

Module SampleConstruct.
Import JUnit.

(** A test case that sits in a test suite already. *)
Definition taken : Testcase.t :=
  Testcase.mk (Some "elsewhere") "b" None None (Some "cls")
              TestcaseStatus.Passed.

(** The file system with the report of [SampleParse.failing]. *)
Definition fs : JUnitDocument.filesystem :=
  [("report.xml", SampleParse.failing)].

End SampleConstruct.

(** * Properties *)

(** ** Dictionaries *)

Section DictFacts.
Context {V : Type}.

Lemma get_set_same (k : string) (v : V) (d : dict V) :
  Py.get k (Py.set k v d) = Some v.
Proof.
  induction d as [|[k' v'] d IH]; simpl.
  - now rewrite String.eqb_refl.
  - destruct (String.eqb k k') eqn:E; simpl; rewrite E; auto.
Qed.

Lemma get_set_other (k k' : string) (v : V) (d : dict V) :
  k <> k' -> Py.get k' (Py.set k v d) = Py.get k' d.
Proof.
  intros Hne. induction d as [|[k0 v0] d IH]; simpl.
  - destruct (String.eqb k' k) eqn:E; auto.
    apply String.eqb_eq in E. congruence.
  - destruct (String.eqb k k0) eqn:E; simpl.
    + apply String.eqb_eq in E. subst k0.
      destruct (String.eqb k' k) eqn:E'; auto.
      apply String.eqb_eq in E'. congruence.
    + now rewrite IH.
Qed.

Lemma get_None_not_In (k : string) (d : dict V) :
  Py.get k d = None <-> ~ In k (Py.keys d).
Proof.
  induction d as [|[k' v'] d IH]; simpl.
  - tauto.
  - destruct (String.eqb k k') eqn:E.
    + apply String.eqb_eq in E. subst. split; [discriminate | tauto].
    + apply String.eqb_neq in E. rewrite IH. split; intros H.
      * intros [H1|H1]; [congruence | tauto].
      * tauto.
Qed.

(** A new key goes to the end. *)
Lemma set_fresh (k : string) (v : V) (d : dict V) :
  Py.get k d = None -> Py.set k v d = d ++ [(k, v)].
Proof.
  induction d as [|[k' v'] d IH]; simpl; auto.
  destruct (String.eqb k k'); [discriminate|].
  intros H. now rewrite IH.
Qed.

(** An existing key is overwritten where it stands. *)
Lemma set_present (k : string) (v v0 : V) (d : dict V) :
  Py.get k d = Some v0 ->
  exists d1 d2,
    d = d1 ++ (k, v0) :: d2 /\ Py.set k v d = d1 ++ (k, v) :: d2
    /\ ~ In k (Py.keys d1).
Proof.
  induction d as [|[k' v'] d IH]; simpl; [discriminate|].
  destruct (String.eqb k k') eqn:E.
  - apply String.eqb_eq in E. subst k'. intros [= ->].
    exists [], d. simpl. tauto.
  - intros H. destruct (IH H) as (d1 & d2 & -> & -> & Hn).
    exists ((k', v') :: d1), d2. simpl. repeat split; auto.
    apply String.eqb_neq in E. intros [H1|H1]; [congruence | tauto].
Qed.

Lemma get_Some_In (k : string) (v : V) (d : dict V) :
  Py.get k d = Some v -> In (k, v) d.
Proof.
  induction d as [|[k' v'] d IH]; simpl; [discriminate|].
  destruct (String.eqb k k') eqn:E.
  - apply String.eqb_eq in E. subst. intros [= ->]. now left.
  - intros H. right. auto.
Qed.

Lemma keys_set (k : string) (v : V) (d : dict V) :
  Py.keys (Py.set k v d)
  = if Py.contains k d then Py.keys d else Py.keys d ++ [k].
Proof.
  unfold Py.contains. induction d as [|[k' v'] d IH]; simpl; [reflexivity|].
  destruct (String.eqb k k') eqn:E; simpl; [reflexivity|].
  rewrite IH. destruct (Py.get k d); reflexivity.
Qed.

(** A property of all entries survives an assignment that satisfies it. *)
Lemma Forall_set (P : string * V -> Prop) (k : string) (v : V) (d : dict V) :
  Forall P d -> P (k, v) -> Forall P (Py.set k v d).
Proof.
  intros Hd Hv. induction Hd as [|[k' v'] d Hx Hd IH]; simpl.
  - constructor; auto.
  - destruct (String.eqb k k') eqn:E.
    + apply String.eqb_eq in E. subst. constructor; auto.
    + constructor; auto.
Qed.

(** What an assignment does to the concatenation of what the entries give:
    the new value gives what the old one gave, and [extra]. *)
Lemma flat_map_set {B : Type} (F : V -> list B) (k : string) (v : V)
    (d : dict V) (extra : list B) :
  Permutation (F v)
    (match Py.get k d with Some v0 => F v0 | None => [] end ++ extra) ->
  Permutation (flat_map (fun e => F (snd e)) (Py.set k v d))
              (flat_map (fun e => F (snd e)) d ++ extra).
Proof.
  intros H. destruct (Py.get k d) as [v0|] eqn:E.
  - destruct (set_present k v v0 d E) as (d1 & d2 & -> & -> & _).
    rewrite !flat_map_app. cbn [flat_map snd].
    rewrite <- !app_assoc. apply Permutation_app_head.
    rewrite H. rewrite <- !app_assoc. apply Permutation_app_head.
    apply Permutation_app_comm.
  - rewrite (set_fresh k v d E), flat_map_app. cbn [flat_map snd].
    rewrite app_nil_r. apply Permutation_app_head. exact H.
Qed.

Lemma In_get (k : string) (v : V) (d : dict V) :
  NoDup (Py.keys d) -> In (k, v) d -> Py.get k d = Some v.
Proof.
  induction d as [|[k' v'] d IH]; simpl; [tauto|].
  intros Hnodup [Heq|Hin].
  - inversion Heq; subst. now rewrite String.eqb_refl.
  - inversion Hnodup as [|? ? Hfirst Hrest]; subst.
    destruct (String.eqb k k') eqn:E; [|auto].
    apply String.eqb_eq in E. subst k'. exfalso. apply Hfirst.
    change k with (fst (k, v)). now apply in_map.
Qed.

Lemma In_contains (k : string) (v : V) (d : dict V) :
  In (k, v) d -> Py.contains k d = true.
Proof.
  unfold Py.contains. induction d as [|[k' v'] d IH]; simpl; [tauto|].
  intros [Heq|Hin].
  - inversion Heq; subst. now rewrite String.eqb_refl.
  - destruct (String.eqb k k'); auto.
Qed.

End DictFacts.

(** ** Aggregation *)

Section AggregateFacts.
Import JUnit.

(** A resolved test case is left alone. *)
Lemma Testcase_Aggregate_fixed (strict : bool) (tc : Testcase.t) :
  TestcaseStatus.is_ (Testcase._status tc) TestcaseStatus.Unknown = false ->
  Testcase.Aggregate strict tc = (tc, Return tt).
Proof. unfold Testcase.Aggregate. now intros ->. Qed.

(** Called again on the test case it left, [Testcase.Aggregate] leaves it
    as it is; it raises again when it raised. *)
Lemma Testcase_Aggregate_idem (strict strict' : bool) (tc : Testcase.t) :
  Testcase.Aggregate strict' (fst (Testcase.Aggregate strict tc))
  = Testcase.Aggregate strict tc.
Proof.
  unfold Testcase.Aggregate at 2 3. unfold Testcase._failedAssertionCount.
  destruct (TestcaseStatus.is_ (Testcase._status tc) TestcaseStatus.Unknown) eqn:E.
  - destruct (Testcase._assertionCount tc) as [n|] eqn:En; [|reflexivity].
    destruct (n =? 0)%Z eqn:E0; [reflexivity|].
    cbn [fst]. unfold Testcase.Aggregate, Testcase._failedAssertionCount.
    now rewrite E, En, E0.
  - cbn [fst]. now apply Testcase_Aggregate_fixed.
Qed.

Lemma Aggregate_loop_balanced (strict : bool) (entries : dict Testcase.t) :
  forall acc entries' c,
    balanced acc ->
    Testsuite.Aggregate_loop strict entries acc = (entries', Return c) ->
    balanced c.
Proof.
  induction entries as [|[key tc] rest IH]; intros acc entries' c Hacc H.
  - simpl in H. now inversion H; subst.
  - destruct acc as [[[[t s] e] f] p]. simpl in Hacc.
    cbn [Testsuite.Aggregate_loop] in H.
    destruct (Testcase.Aggregate strict tc) as [tc' [u|x]]; [|discriminate].
    repeat match type of H with
    | (if ?b then _ else _) = _ => destruct b
    end; try discriminate;
    match type of H with
    | (let (_, _) := ?x in _) = _ => destruct x as [rest' r] eqn:E
    end;
    inversion H; subst; eapply IH; try exact E; simpl; lia.
Qed.

(** Running the loop again over what it left gives the same outcome. *)
Lemma Aggregate_loop_idem (strict strict' : bool) (entries : dict Testcase.t) :
  forall acc,
    Testsuite.Aggregate_loop strict'
      (fst (Testsuite.Aggregate_loop strict entries acc)) acc
    = Testsuite.Aggregate_loop strict entries acc.
Proof.
  induction entries as [|[key tc] rest IH]; intros acc; [reflexivity|].
  destruct acc as [[[[t s] e] f] p].
  cbn [Testsuite.Aggregate_loop].
  pose proof (Testcase_Aggregate_idem strict strict' tc) as Hidem.
  destruct (Testcase.Aggregate strict tc) as [tc' [u|x]] eqn:Hagg;
    cbn [fst] in Hidem.
  2: { cbn [fst Testsuite.Aggregate_loop]. now rewrite Hidem. }
  repeat match goal with
  | |- context [if ?b then _ else _] =>
      match b with
      | context [tc'] => destruct b eqn:?
      end
  end;
  try match goal with
  | |- context [Testsuite.Aggregate_loop strict rest ?a] =>
      specialize (IH a);
      destruct (Testsuite.Aggregate_loop strict rest a) as [rest' r] eqn:E
  end;
  cbn [fst Testsuite.Aggregate_loop];
  rewrite Hidem;
  repeat match goal with
  | H : ?b = _ |- context [if ?b then _ else _] => rewrite H
  end;
  try reflexivity;
  cbn [fst] in IH; now rewrite IH.
Qed.

End AggregateFacts.

(** ** The claims on aggregation *)

(** C1 (as the code behaves): [Aggregate] does not descend into child test
    suites.  A summary returns the all-zero tuple and status [Empty] whatever
    its test suites hold: on the sample summary, whose suite holds two test
    cases, the tuple counts none, while the suite itself aggregates to two
    tests, one failed and one passed. *)
Theorem Aggregate_skips_child_testsuites :
  (forall self : JUnit.TestsuiteSummary.t,
     snd (JUnit.TestsuiteSummary.Aggregate self) = Return (0, 0, 0, 0, 0)%Z
     /\ JUnit.TestsuiteSummary._status (fst (JUnit.TestsuiteSummary.Aggregate self))
        = TestsuiteStatus.Empty)
  /\ JUnit.TestsuiteSummary.TestcaseCount Sample.summary = 2%Z
  /\ snd (JUnit.TestsuiteSummary.Aggregate Sample.summary)
     = Return (0, 0, 0, 0, 0)%Z
  /\ snd (JUnit.Testsuite.Aggregate true Sample.T)
     = Return (2, 0, 0, 1, 1)%Z.
Proof.
  split; [intros self; split; reflexivity|].
  repeat split; reflexivity.
Qed.

(** C4: when [Aggregate] returns, the counters it stored on the test suite
    or summary satisfy tests = skipped + errored + failed + passed, and they
    are the tuple it returned. *)
Theorem Aggregate_counters_balanced :
  (forall strict self self' c,
     JUnit.Testsuite.Aggregate strict self = (self', Return c) ->
     balanced (stored self') /\ stored self' = c)
  /\ (forall self self' c,
        JUnit.TestsuiteSummary.Aggregate self = (self', Return c) ->
        balanced (stored_summary self') /\ stored_summary self' = c).
Proof.
  split.
  - intros strict self self' c H. unfold JUnit.Testsuite.Aggregate in H.
    destruct (JUnit.Testsuite.Aggregate_loop strict _ _) as [entries r] eqn:E.
    destruct r as [c'|e]; [|discriminate].
    inversion H; subst; clear H.
    apply Aggregate_loop_balanced in E; [|reflexivity].
    destruct c as [[[[t s] e] f] p]. split; [exact E | reflexivity].
  - intros self self' c H. inversion H; subst. split; reflexivity.
Qed.

Lemma Aggregate_counters_balanced_witness :
  balanced (stored (fst (JUnit.Testsuite.Aggregate true Sample.T)))
  /\ stored (fst (JUnit.Testsuite.Aggregate true Sample.T)) = (2, 0, 0, 1, 1)%Z.
Proof.
  apply (proj1 Aggregate_counters_balanced true Sample.T).
  reflexivity.
Defined.

(** C5: [Aggregate] is idempotent.  Called again on the tree the first call
    left, it gives the same outcome (the same tuple, or the same exception)
    and leaves every counter and status as the first call left them. *)
Theorem Aggregate_idempotent :
  (forall strict self,
     JUnit.Testsuite.Aggregate strict
       (fst (JUnit.Testsuite.Aggregate strict self))
     = JUnit.Testsuite.Aggregate strict self)
  /\ (forall self,
        JUnit.TestsuiteSummary.Aggregate
          (fst (JUnit.TestsuiteSummary.Aggregate self))
        = JUnit.TestsuiteSummary.Aggregate self).
Proof.
  split; [|reflexivity].
  intros strict self. unfold JUnit.Testsuite.Aggregate.
  pose proof (Aggregate_loop_idem strict strict
                (JUnit.Testsuite._testcases self)
                JUnit.TestsuiteBase.Aggregate) as H.
  destruct (JUnit.Testsuite.Aggregate_loop strict
              (JUnit.Testsuite._testcases self) _) as [entries r] eqn:E.
  cbn [fst] in H.
  destruct r as [c|e]; cbn [fst].
  - destruct c as [[[[t s] e] f] p]. cbn. rewrite H. reflexivity.
  - cbn. rewrite H. reflexivity.
Qed.

(** The rule chain at the end of [Aggregate] follows the precedence. *)
Lemma Aggregate_status_precedence (c : JUnit.TestsuiteAggregateReturnType) :
  precedence c (JUnit.Testsuite.Aggregate_status c)
  /\ JUnit.TestsuiteSummary.Aggregate_status c = JUnit.Testsuite.Aggregate_status c.
Proof.
  destruct c as [[[[t s] e] f] p]. split; [|reflexivity].
  unfold precedence, JUnit.Testsuite.Aggregate_status.
  destruct (e >? 0)%Z eqn:He; [apply Z.gtb_gt in He; repeat split; intros; lia|].
  destruct (f >? 0)%Z eqn:Hf; [apply Z.gtb_gt in Hf; repeat split; intros; lia|].
  pose proof (Zgt_cases e 0) as He'. rewrite He in He'.
  pose proof (Zgt_cases f 0) as Hf'. rewrite Hf in Hf'.
  destruct (t =? 0)%Z eqn:Ht;
    [apply Z.eqb_eq in Ht; repeat split; intros; lia|].
  apply Z.eqb_neq in Ht.
  destruct (t - s =? p)%Z eqn:Hp;
    [apply Z.eqb_eq in Hp; repeat split; intros; lia|].
  apply Z.eqb_neq in Hp.
  destruct (t =? s)%Z eqn:Hs;
    [apply Z.eqb_eq in Hs | apply Z.eqb_neq in Hs]; repeat split; intros; lia.
Qed.

(** Over test cases that are all [Skipped] the loop only counts. *)
Lemma Aggregate_loop_all_skipped (strict : bool) (entries : dict JUnit.Testcase.t) :
  Forall (fun e => JUnit.Testcase._status (snd e) = TestcaseStatus.Skipped) entries ->
  forall t s e f p,
    JUnit.Testsuite.Aggregate_loop strict entries (t, s, e, f, p)
    = (entries,
       Return (t + Z.of_nat (List.length entries),
               s + Z.of_nat (List.length entries), e, f, p)%Z).
Proof.
  induction 1 as [|[key tc] rest Hx Hrest IH]; intros t s e f p.
  - simpl. now rewrite !Z.add_0_r.
  - cbn [JUnit.Testsuite.Aggregate_loop]. simpl in Hx.
    rewrite Testcase_Aggregate_fixed by (rewrite Hx; reflexivity).
    rewrite Hx. cbn [TestcaseStatus.is_ N.eqb TestcaseStatus.Unknown
                     TestcaseStatus.Skipped Pos.eqb].
    rewrite IH. cbn [List.length]. rewrite Nat2Z.inj_succ.
    do 2 f_equal. repeat (f_equal; try lia).
Qed.

(** C2 (amended): when [Aggregate] returns on a test suite or a summary, the
    status it stored follows the precedence over the counters it returned
    (Errored, Failed, Empty, Passed, Skipped, Unknown; first match wins).  In
    particular a test suite without test cases gets [Empty]; a test suite
    whose test cases are all skipped has tests = skipped and passed = 0,
    meets the rule tests - skipped = passed first and gets [Passed]. *)
Theorem Aggregate_status_by_precedence :
  (forall strict self self' c,
     JUnit.Testsuite.Aggregate strict self = (self', Return c) ->
     precedence c (JUnit.Testsuite._status self'))
  /\ (forall self self' c,
        JUnit.TestsuiteSummary.Aggregate self = (self', Return c) ->
        precedence c (JUnit.TestsuiteSummary._status self'))
  /\ (forall strict self,
        JUnit.Testsuite._testcases self = [] ->
        JUnit.Testsuite._status (fst (JUnit.Testsuite.Aggregate strict self))
        = TestsuiteStatus.Empty)
  /\ (forall strict self,
        JUnit.Testsuite._testcases self <> [] ->
        Forall (fun e => JUnit.Testcase._status (snd e) = TestcaseStatus.Skipped)
               (JUnit.Testsuite._testcases self) ->
        exists n,
          (0 < n)%Z
          /\ snd (JUnit.Testsuite.Aggregate strict self) = Return (n, n, 0, 0, 0)%Z
          /\ JUnit.Testsuite._status (fst (JUnit.Testsuite.Aggregate strict self))
             = TestsuiteStatus.Passed).
Proof.
  repeat split.
  - intros strict self self' c H. unfold JUnit.Testsuite.Aggregate in H.
    destruct (JUnit.Testsuite.Aggregate_loop strict _ _) as [entries r].
    destruct r as [c'|e]; [|discriminate].
    inversion H; subst; clear H.
    destruct c as [[[[t s] e] f] p]. cbn.
    apply (Aggregate_status_precedence (t, s, e, f, p)).
  - intros self self' c H. inversion H; subst.
    apply (Aggregate_status_precedence (0, 0, 0, 0, 0)%Z).
  - intros strict self H. unfold JUnit.Testsuite.Aggregate. rewrite H.
    reflexivity.
  - intros strict self Hne Hall. unfold JUnit.Testsuite.Aggregate.
    unfold JUnit.TestsuiteBase.Aggregate.
    rewrite (Aggregate_loop_all_skipped strict _ Hall).
    set (n := Z.of_nat (List.length (JUnit.Testsuite._testcases self))).
    assert (Hn : (0 < n)%Z).
    { subst n. destruct (JUnit.Testsuite._testcases self);
        [congruence | cbn [List.length]; lia]. }
    exists n. cbn. repeat split; auto.
    destruct (n >? 0)%Z eqn:E0.
    + pose proof (Zgt_cases n 0) as H. rewrite E0 in H.
      replace (n =? 0)%Z with false by (symmetry; apply Z.eqb_neq; lia).
      replace (n - n =? 0)%Z with true by (symmetry; apply Z.eqb_eq; lia).
      reflexivity.
    + pose proof (Zgt_cases n 0) as H. rewrite E0 in H. lia.
Qed.

Lemma Aggregate_status_by_precedence_witness :
  precedence (2, 0, 0, 1, 1)%Z
    (JUnit.Testsuite._status (fst (JUnit.Testsuite.Aggregate true Sample.T)))
  /\ exists n,
       (0 < n)%Z
       /\ snd (JUnit.Testsuite.Aggregate true Sample.all_skipped)
          = Return (n, n, 0, 0, 0)%Z
       /\ JUnit.Testsuite._status
            (fst (JUnit.Testsuite.Aggregate true Sample.all_skipped))
          = TestsuiteStatus.Passed.
Proof.
  split.
  - apply (proj1 Aggregate_status_by_precedence true Sample.T).
    reflexivity.
  - apply (proj2 (proj2 (proj2 Aggregate_status_by_precedence))).
    + discriminate.
    + repeat constructor.
Defined.

(** C2 as stated fails: the only test case of the sample suite is skipped,
    so tests = skipped = 1 and passed = 0, and the status is [Passed], not
    [Skipped]. *)
Lemma all_skipped_is_not_Skipped :
  snd (JUnit.Testsuite.Aggregate true Sample.all_skipped)
  = Return (1, 1, 0, 0, 0)%Z
  /\ JUnit.Testsuite._status
       (fst (JUnit.Testsuite.Aggregate true Sample.all_skipped))
     = TestsuiteStatus.Passed
  /\ JUnit.Testsuite._status
       (fst (JUnit.Testsuite.Aggregate true Sample.all_skipped))
     <> TestsuiteStatus.Skipped.
Proof. split; [reflexivity | split; [reflexivity | discriminate]]. Qed.

(** A test case that is [Unknown] and has an assertion count stops the loop
    of the enclosing test suite with an exception. *)
Lemma Aggregate_loop_unresolved (strict : bool) (key : string)
    (tc : JUnit.Testcase.t) (entries : dict JUnit.Testcase.t) :
  In (key, tc) entries ->
  JUnit.Testcase._status tc = TestcaseStatus.Unknown ->
  JUnit.Testcase._assertionCount tc <> None ->
  forall acc, exists e,
    snd (JUnit.Testsuite.Aggregate_loop strict entries acc) = Raise e.
Proof.
  intros Hin Hunknown Hcount. induction entries as [|[key' tc'] rest IH];
    [destruct Hin|].
  intros [[[[t s] e] f] p]. cbn [JUnit.Testsuite.Aggregate_loop].
  destruct Hin as [Heq|Hin].
  - inversion Heq; subst.
    unfold JUnit.Testcase.Aggregate, JUnit.Testcase._failedAssertionCount.
    rewrite Hunknown.
    destruct (JUnit.Testcase._assertionCount tc) as [n|]; [|congruence].
    destruct (n =? 0)%Z; cbn; eexists; reflexivity.
  - specialize (IH Hin).
    destruct (JUnit.Testcase.Aggregate strict tc') as [tc'' [u|x]];
      [|eexists; reflexivity].
    repeat match goal with
    | |- context [if ?b then _ else _] => destruct b
    end; cbn [snd]; try (eexists; reflexivity);
    match goal with
    | |- context [JUnit.Testsuite.Aggregate_loop strict rest ?a] =>
        destruct (IH a) as [x Hx];
        destruct (JUnit.Testsuite.Aggregate_loop strict rest a) as [rest' r]
    end; cbn [snd] in *; eauto.
Qed.

(** C3 (as the code behaves): a test case that is [Unknown] when
    [Aggregate] is called on it becomes [Passed] without an assertion count
    and [Weak] with an assertion count of zero.  With a nonzero assertion
    count the call raises [AttributeError] and the test case stays
    [Unknown]: the attribute [_failedAssertionCount] it reads does not
    exist, so neither [Passed] nor [Failed] is ever reached on this way, and
    [strict] is never looked at.  A test suite that holds a test case that is
    [Unknown] and has an assertion count does not aggregate, with [strict]
    set or not: its [Aggregate] raises and its counters stay as they were.
    On the sample with zero assertions the exception is the
    [UnittestException] for an unsupported state, not a count as failed; on
    the sample with three assertions it is the [AttributeError]. *)
Theorem Testcase_Aggregate_resolution :
  (forall strict tc,
     JUnit.Testcase._status tc = TestcaseStatus.Unknown ->
     JUnit.Testcase.Aggregate strict tc
     = match JUnit.Testcase._assertionCount tc with
       | None =>
           (JUnit.Testcase.set_status TestcaseStatus.Passed tc, Return tt)
       | Some n =>
           if (n =? 0)%Z then
             (JUnit.Testcase.set_status TestcaseStatus.Weak tc, Return tt)
           else
             (tc,
              Raise (AttributeError
                       "'Testcase' object has no attribute '_failedAssertionCount'"))
       end)
  /\ (forall strict key tc self,
        In (key, tc) (JUnit.Testsuite._testcases self) ->
        JUnit.Testcase._status tc = TestcaseStatus.Unknown ->
        JUnit.Testcase._assertionCount tc <> None ->
        (exists e, snd (JUnit.Testsuite.Aggregate strict self) = Raise e)
        /\ stored (fst (JUnit.Testsuite.Aggregate strict self)) = stored self)
  /\ (forall strict,
        (exists msg,
            snd (JUnit.Testsuite.Aggregate strict Sample.zero_assertions)
            = Raise (UnittestException msg))
        /\ snd (JUnit.Testsuite.Aggregate strict Sample.zero_assertions)
           <> Return (1, 0, 0, 1, 0)%Z
        /\ snd (JUnit.Testsuite.Aggregate strict Sample.three_assertions)
           = Raise (AttributeError
                      "'Testcase' object has no attribute '_failedAssertionCount'")
        /\ JUnit.Testsuite._testcases
             (fst (JUnit.Testsuite.Aggregate strict Sample.three_assertions))
           = JUnit.Testsuite._testcases Sample.three_assertions).
Proof.
  split; [|split].
  - intros strict tc H.
    unfold JUnit.Testcase.Aggregate, JUnit.Testcase._failedAssertionCount.
    rewrite H. cbn [TestcaseStatus.is_ TestcaseStatus.Unknown N.eqb].
    destruct (JUnit.Testcase._assertionCount tc) as [n|]; [|reflexivity].
    destruct (n =? 0)%Z; reflexivity.
  - intros strict key tc self Hin Hunknown Hcount.
    unfold JUnit.Testsuite.Aggregate.
    destruct (Aggregate_loop_unresolved strict key tc _ Hin Hunknown Hcount
                JUnit.TestsuiteBase.Aggregate) as [e He].
    destruct (JUnit.Testsuite.Aggregate_loop strict _ _) as [entries r].
    cbn [snd] in He. subst r. split; [exists e; reflexivity|].
    destruct self; reflexivity.
  - intros strict.
    split; [eexists; reflexivity|].
    split; [discriminate|].
    split; reflexivity.
Qed.

(** ** Insertion of children *)

(** [AddTestcase] and [AddTestsuite] check before they insert: a node with a
    parent gives [ValueError], a name already present gives the duplicate
    exception of its kind, and the parent is then left as it was (the
    outcome carries no new parent). *)
Lemma Add_checked :
  (forall testcase self,
     JUnit.Testcase._parent testcase <> None ->
     exists msg, JUnit.Testsuite.AddTestcase testcase self = Raise (ValueError msg))
  /\ (forall testcase self,
        JUnit.Testcase._parent testcase = None ->
        Py.contains (JUnit.Testcase._name testcase)
                    (JUnit.Testsuite._testcases self) = true ->
        exists msg,
          JUnit.Testsuite.AddTestcase testcase self
          = Raise (DuplicateTestcaseException msg))
  /\ (forall testsuite self,
        JUnit.Testsuite._parent testsuite <> None ->
        exists msg,
          JUnit.TestsuiteSummary.AddTestsuite testsuite self
          = Raise (ValueError msg))
  /\ (forall testsuite self,
        JUnit.Testsuite._parent testsuite = None ->
        Py.contains (JUnit.Testsuite._name testsuite)
                    (JUnit.TestsuiteSummary._testsuites self) = true ->
        exists msg,
          JUnit.TestsuiteSummary.AddTestsuite testsuite self
          = Raise (DuplicateTestsuiteException msg)).
Proof.
  repeat split.
  - intros testcase self H. unfold JUnit.Testsuite.AddTestcase.
    destruct (JUnit.Testcase._parent testcase); [eexists; reflexivity | congruence].
  - intros testcase self H Hc. unfold JUnit.Testsuite.AddTestcase.
    rewrite H, Hc. eexists; reflexivity.
  - intros testsuite self H. unfold JUnit.TestsuiteSummary.AddTestsuite.
    destruct (JUnit.Testsuite._parent testsuite); [eexists; reflexivity | congruence].
  - intros testsuite self H Hc. unfold JUnit.TestsuiteSummary.AddTestsuite.
    rewrite H, Hc. eexists; reflexivity.
Qed.

(** C8 (as the code behaves): a constructor called with [parent=] stores the
    new node in the parent's child map without any check.  It never raises;
    when the name is taken, as "good" is in the sample suite, the sibling is
    replaced, whereas [AddTestcase] refuses the same name with
    [DuplicateTestcaseException]. *)
Theorem parent_argument_replaces_sibling :
  (forall name classname duration status assertionCount parent,
     exists self parent',
       JUnit.Testcase__init__ name classname duration status assertionCount
                              (Some parent)
       = (Some parent', Return self)
       /\ Py.get name (JUnit.Testsuite._testcases parent') = Some self)
  /\ Py.get "good" (JUnit.Testsuite._testcases Sample.T)
     = Some (Sample.testcase "T" "good" TestcaseStatus.Passed None)
  /\ fst (JUnit.Testcase__init__ "good" (Some "other") None
            TestcaseStatus.Skipped None (Some Sample.T))
     = Some (Sample.testsuite "T"
               [("bad", Sample.testcase "T" "bad" TestcaseStatus.Failed None);
                ("good", JUnit.Testcase.set_parent (Some "T") Sample.newcomer)])
  /\ JUnit.Testsuite.AddTestcase Sample.newcomer Sample.T
     = Raise (DuplicateTestcaseException
                "Testsuite already contains a testcase with same name 'good'.").
Proof.
  split.
  - intros. eexists. eexists. split; [reflexivity|].
    cbn [JUnit.Testsuite._testcases JUnit.Testsuite.set_testcases].
    apply get_set_same.
  - repeat split; reflexivity.
Qed.

(** ** The document protocol *)

(** C10: once [Read] has filled the internal XML document, [Generate]
    raises [UnittestException] whatever [overwrite] is and leaves the
    document as it was, and [Write] with [regenerate=True] raises as well,
    writing nothing, whatever opening the file would do. *)
Theorem Generate_refuses_populated_document :
  (forall fs junitDocument startAnalysis endAnalysis self self',
     JUnit.JUnitDocument.Read fs (JUnit.JUnitDocument.Parsed junitDocument)
                              startAnalysis endAnalysis self
     = (self', Return tt) ->
     JUnit.JUnitDocument._xmlDocument self' = Some junitDocument)
  /\ (forall self,
        JUnit.JUnitDocument._xmlDocument self <> None ->
        (forall overwrite, exists msg,
            JUnit.JUnitDocument.Generate overwrite self
            = (self, Raise (UnittestException msg)))
        /\ (forall path overwrite io fs, exists msg,
               JUnit.JUnitDocument.Write path overwrite true io fs self
               = ((self, fs), Raise (UnittestException msg)))).
Proof.
  split.
  - intros fs doc t0 t1 self self' H. unfold JUnit.JUnitDocument.Read in H.
    destruct (negb _); [discriminate|]. now inversion H.
  - intros self H.
    assert (HG : forall overwrite, exists msg,
               JUnit.JUnitDocument.Generate overwrite self
               = (self, Raise (UnittestException msg))).
    { intros overwrite. unfold JUnit.JUnitDocument.Generate.
      destruct (JUnit.JUnitDocument._xmlDocument self);
        [eexists; reflexivity | congruence]. }
    split; [exact HG|].
    intros path overwrite io fs. unfold JUnit.JUnitDocument.Write.
    destruct (negb overwrite && _); [eexists; reflexivity|].
    destruct (HG true) as [msg ->]. exists msg. reflexivity.
Qed.

Lemma Generate_refuses_populated_document_witness :
  JUnit.JUnitDocument._xmlDocument Sample.document
  = Some (JUnit.Xml.Elem "testsuites" [] [])
  /\ (forall overwrite, exists msg,
         JUnit.JUnitDocument.Generate overwrite Sample.document
         = (Sample.document, Raise (UnittestException msg)))
  /\ (forall path overwrite io fs, exists msg,
         JUnit.JUnitDocument.Write path overwrite true io fs Sample.document
         = ((Sample.document, fs), Raise (UnittestException msg))).
Proof.
  split.
  - apply (proj1 Generate_refuses_populated_document Sample.fs
             (JUnit.Xml.Elem "testsuites" [] []) 0%Z 5%Z
             (JUnit.JUnitDocument.__init__ "report.xml")).
    reflexivity.
  - apply (proj2 Generate_refuses_populated_document Sample.document).
    discriminate.
Defined.

(** ** Iteration *)

(** A union of flags is in a scheme when both parts are. *)
Lemma In_or (a b s : IterationScheme.t) :
  IterationScheme.In (IterationScheme.or a b) s
  = IterationScheme.In a s && IterationScheme.In b s.
Proof.
  unfold IterationScheme.In, IterationScheme.or.
  apply eq_true_iff_eq. rewrite andb_true_iff, !N.eqb_eq. split.
  - intros H.
    assert (Hbit : forall i,
               (N.testbit a i || N.testbit b i) && N.testbit s i
               = N.testbit a i || N.testbit b i).
    { intros i. now rewrite <- N.lor_spec, <- N.land_spec, H. }
    split; apply N.bits_inj; intros i; specialize (Hbit i);
      rewrite N.land_spec;
      destruct (N.testbit a i), (N.testbit b i), (N.testbit s i);
      simpl in *; congruence.
  - intros [Ha Hb]. rewrite N.land_lor_distr_l. now rewrite Ha, Hb.
Qed.

(** C7 (as the code behaves): [Testsuite.Iterate] never reaches a child
    suite.  With [PreOrder] alone it yields the node itself (if
    [IncludeSelf] and [IncludeTestsuites] are set), then its own test cases
    (if [IncludeTestcases] is set), and then raises [AttributeError], because
    the attribute [_testsuites] it is about to loop over does not exist;
    with [PostOrder] alone it raises the same before it has yielded
    anything, so the groups of the post-order never appear.  With both
    orders it raises [AssertionError] before it yields anything.  No scheme
    lets it run to its end.  [TestsuiteSummary.Iterate] has no check of the
    orders: on a summary that holds a test suite it yields itself when the
    pre-order asks for it and then raises [AttributeError], because it calls
    [IterateTestsuites], which test suites do not have; this also under both
    orders. *)
Theorem Iterate_stops_at_child_suites :
  (forall scheme self,
     IterationScheme.In IterationScheme.PreOrder scheme = true ->
     IterationScheme.In IterationScheme.PostOrder scheme = false ->
     JUnit.Testsuite.Iterate scheme self
     = (Groups.self scheme self ++ Groups.testcases scheme self,
        Some (AttributeError
                "'Testsuite' object has no attribute '_testsuites'")))
  /\ (forall scheme self,
        IterationScheme.In IterationScheme.PreOrder scheme = false ->
        IterationScheme.In IterationScheme.PostOrder scheme = true ->
        JUnit.Testsuite.Iterate scheme self
        = ([], Some (AttributeError
                       "'Testsuite' object has no attribute '_testsuites'")))
  /\ (forall scheme self,
        IterationScheme.In IterationScheme.PreOrder scheme = true ->
        IterationScheme.In IterationScheme.PostOrder scheme = true ->
        JUnit.Testsuite.Iterate scheme self = ([], Some AssertionError))
  /\ (forall scheme self,
        snd (JUnit.Testsuite.Iterate scheme self) <> None)
  /\ (forall scheme self,
        JUnit.TestsuiteSummary._testsuites self <> [] ->
        JUnit.TestsuiteSummary.Iterate scheme self
        = ((if IterationScheme.In IterationScheme.PreOrder scheme
            then Groups.summary scheme self else []),
           Some (AttributeError
                   "'Testsuite' object has no attribute 'IterateTestsuites'")))
  /\ JUnit.Testsuite.Iterate
       (IterationScheme.or IterationScheme.Default IterationScheme.IncludeSelf)
       Sample.T
     = ([JUnit.Testsuite.ETestsuite Sample.T;
         JUnit.Testsuite.ETestcase
           (Sample.testcase "T" "bad" TestcaseStatus.Failed None);
         JUnit.Testsuite.ETestcase
           (Sample.testcase "T" "good" TestcaseStatus.Passed None)],
        Some (AttributeError
                "'Testsuite' object has no attribute '_testsuites'"))
  /\ JUnit.Testsuite.Iterate Sample.post_order Sample.T
     = ([], Some (AttributeError
                    "'Testsuite' object has no attribute '_testsuites'"))
  /\ JUnit.TestsuiteSummary.Iterate
       (IterationScheme.or Sample.both_orders IterationScheme.IncludeSelf)
       Sample.summary
     = ([JUnit.TestsuiteSummary.ESelf Sample.summary],
        Some (AttributeError
                "'Testsuite' object has no attribute 'IterateTestsuites'")).
Proof.
  split; [|split; [|split; [|split; [|split]]]].
  - intros scheme self Hpre Hpost. unfold JUnit.Testsuite.Iterate.
    cbv zeta. rewrite !In_or, Hpre, Hpost.
    unfold Groups.self, Groups.testcases.
    destruct (IterationScheme.In IterationScheme.IncludeSelf scheme),
             (IterationScheme.In IterationScheme.IncludeTestsuites scheme),
             (IterationScheme.In IterationScheme.IncludeTestcases scheme);
      cbn; now rewrite ?app_nil_r.
  - intros scheme self Hpre Hpost. unfold JUnit.Testsuite.Iterate.
    cbv zeta. rewrite !In_or, Hpre, Hpost. reflexivity.
  - intros scheme self Hpre Hpost. unfold JUnit.Testsuite.Iterate.
    cbv zeta. now rewrite In_or, Hpre, Hpost.
  - intros scheme self. unfold JUnit.Testsuite.Iterate. cbv zeta.
    rewrite !In_or.
    destruct (IterationScheme.In IterationScheme.PreOrder scheme),
             (IterationScheme.In IterationScheme.PostOrder scheme),
             (IterationScheme.In IterationScheme.IncludeSelf scheme),
             (IterationScheme.In IterationScheme.IncludeTestsuites scheme),
             (IterationScheme.In IterationScheme.IncludeTestcases scheme);
      cbn; discriminate.
  - intros scheme self Hsuites. unfold JUnit.TestsuiteSummary.Iterate.
    cbv zeta beta. rewrite !In_or. unfold Groups.summary.
    destruct (JUnit.TestsuiteSummary._testsuites self) as [|[key testsuite] rest];
      [congruence|].
    destruct (IterationScheme.In IterationScheme.PreOrder scheme),
             (IterationScheme.In IterationScheme.PostOrder scheme),
             (IterationScheme.In IterationScheme.IncludeSelf scheme),
             (IterationScheme.In IterationScheme.IncludeTestsuites scheme);
      reflexivity.
  - repeat split; reflexivity.
Qed.

(** ** GoogleTest: the kinds [ToTestsuite] assigns *)

Section KindFacts.
Import GoogleTestJUnit.

Lemma AddTestcases_keeps (testcases : list ut_Testcase.t) :
  forall suite suite',
    ut_Testsuite.AddTestcases testcases suite = Return suite' ->
    ut_Testsuite._kind suite' = ut_Testsuite._kind suite
    /\ ut_Testsuite._name suite' = ut_Testsuite._name suite
    /\ ut_Testsuite._testsuites suite' = ut_Testsuite._testsuites suite.
Proof.
  induction testcases as [|tc rest IH]; intros suite suite' H.
  - inversion H. auto.
  - cbn [ut_Testsuite.AddTestcases Py.bind] in H.
    unfold ut_Testsuite.AddTestcase in H.
    destruct (Py.contains _ _); [discriminate|].
    cbn [Py.bind] in H. apply IH in H. exact H.
Qed.

Lemma kind_at_fresh (path : list string) (element : string) :
  path <> [] ->
  Classname.kind_at path
    (ut_Testsuite.__init__ element TestsuiteKind.Package None None
                           TestsuiteStatus.Unknown) = None.
Proof. destruct path; [congruence | reflexivity]. Qed.

(** The kinds along the class path after the walk from [suite]. *)
Lemma ToTestsuite_walk_kinds (classpath : list string)
    (testcases : list ut_Testcase.t) :
  forall is_testsuite suite suite',
    classpath <> [] ->
    Testsuite.ToTestsuite_walk classpath testcases is_testsuite suite
    = Return suite' ->
    Classname.kind_at classpath suite' = Some TestsuiteKind.Class
    /\ ut_Testsuite._kind suite'
       = match classpath with
         | [_] => if is_testsuite then ut_Testsuite._kind suite
                  else TestsuiteKind.Module_
         | _ => ut_Testsuite._kind suite
         end
    /\ (2 <= List.length classpath ->
        Classname.kind_at (removelast classpath) suite'
        = Some TestsuiteKind.Module_)
    /\ (forall k,
          0 < k -> k + 2 <= List.length classpath ->
          Classname.kind_at (firstn k classpath) suite'
          = Classname.kept_or_Package
              (Classname.kind_at (firstn k classpath) suite)).
Proof.
  induction classpath as [|element rest IH]; [congruence|].
  intros is_testsuite suite suite' _ H.
  cbn [Testsuite.ToTestsuite_walk] in H.
  set (child := match Py.get element (ut_Testsuite._testsuites suite) with
                | Some child => child
                | None => ut_Testsuite.__init__ element TestsuiteKind.Package
                            None None TestsuiteStatus.Unknown
                end) in *.
  destruct (Testsuite.ToTestsuite_walk rest testcases false child)
    as [child'|e] eqn:E; [|discriminate].
  cbn [Py.bind] in H.
  destruct rest as [|element2 rest2].
  - (* the innermost suite is the child *)
    cbn [Testsuite.ToTestsuite_walk] in E.
    apply AddTestcases_keeps in E. destruct E as (Ek & _ & _).
    cbn in Ek.
    assert (Hat : Classname.kind_at [element] suite' = Some TestsuiteKind.Class).
    { inversion H; subst suite'.
      destruct is_testsuite; cbn; rewrite get_set_same; now rewrite Ek. }
    repeat split.
    + exact Hat.
    + inversion H; subst suite'. destruct is_testsuite; reflexivity.
    + cbn. lia.
    + cbn. intros k Hk1 Hk2. lia.
  - specialize (IH false child child' ltac:(discriminate) E).
    destruct IH as (IH1 & IH2 & IH3 & IH4).
    inversion H; subst suite'; clear H.
    repeat split.
    + cbn [Classname.kind_at ut_Testsuite._testsuites ut_Testsuite.set_testsuites].
      now rewrite get_set_same.
    + intros _.
      change (removelast (element :: element2 :: rest2))
        with (element :: removelast (element2 :: rest2)).
      cbn [Classname.kind_at ut_Testsuite._testsuites ut_Testsuite.set_testsuites].
      rewrite get_set_same.
      destruct rest2 as [|element3 rest3].
      * cbn. now rewrite IH2.
      * apply IH3. cbn. lia.
    + intros k Hk1 Hk2. destruct k as [|k]; [lia|].
      cbn [firstn Classname.kind_at ut_Testsuite._testsuites
           ut_Testsuite.set_testsuites].
      rewrite get_set_same.
      destruct k as [|k].
      * cbn [firstn Classname.kind_at]. rewrite IH2.
        assert (Hk : ut_Testsuite._kind child
                     = match rest2 with
                       | [] => ut_Testsuite._kind child
                       | _ => ut_Testsuite._kind child
                       end) by (destruct rest2; reflexivity).
        destruct rest2 as [|element3 rest3]; [cbn in Hk2; lia|].
        subst child.
        destruct (Py.get element (ut_Testsuite._testsuites suite));
          reflexivity.
      * rewrite IH4 by (cbn in *; lia).
        subst child.
        destruct (Py.get element (ut_Testsuite._testsuites suite));
          [reflexivity|].
        rewrite kind_at_fresh by (cbn; discriminate). reflexivity.
Qed.

End KindFacts.

(** C9 (amended): when [ToTestsuite] places a test class, the suite at the
    end of its dotted path is tagged [Class]; every suite the walk had to
    create before the last two steps is tagged [Package], and one it found
    there keeps its kind; the parent of the innermost suite is tagged
    [Module] when it is not the result suite itself, and the result suite
    keeps its kind. *)
Theorem ToTestsuite_kinds :
  forall testclass testsuite testsuite',
    GoogleTestJUnit.Testsuite.ToTestsuite_testclass testclass testsuite
    = Return testsuite' ->
    let classpath :=
      GoogleTestJUnit.split "." (GoogleTestJUnit.Testclass._name testclass) in
    Classname.kind_at classpath testsuite' = Some TestsuiteKind.Class
    /\ GoogleTestJUnit.ut_Testsuite._kind testsuite'
       = GoogleTestJUnit.ut_Testsuite._kind testsuite
    /\ (2 <= List.length classpath ->
        Classname.kind_at (removelast classpath) testsuite'
        = Some TestsuiteKind.Module_)
    /\ (forall k,
          0 < k -> k + 2 <= List.length classpath ->
          Classname.kind_at (firstn k classpath) testsuite'
          = Classname.kept_or_Package
              (Classname.kind_at (firstn k classpath) testsuite)).
Proof.
  intros testclass testsuite testsuite' H classpath.
  unfold GoogleTestJUnit.Testsuite.ToTestsuite_testclass in H.
  fold classpath in H.
  destruct classpath as [|element rest] eqn:E; [discriminate|].
  apply ToTestsuite_walk_kinds in H; [|discriminate].
  destruct H as (H1 & H2 & H3 & H4).
  repeat split; auto.
  rewrite H2. destruct rest; reflexivity.
Qed.

Lemma ToTestsuite_kinds_witness :
  let classpath := ["pkg"; "Mod"; "ClassA"] in
  Classname.kind_at classpath SampleGoogleTest.placed = Some TestsuiteKind.Class
  /\ GoogleTestJUnit.ut_Testsuite._kind SampleGoogleTest.placed
     = TestsuiteKind.Logical
  /\ (2 <= List.length classpath ->
      Classname.kind_at (removelast classpath) SampleGoogleTest.placed
      = Some TestsuiteKind.Module_)
  /\ (forall k,
        0 < k -> k + 2 <= List.length classpath ->
        Classname.kind_at (firstn k classpath) SampleGoogleTest.placed
        = Classname.kept_or_Package
            (Classname.kind_at (firstn k classpath) SampleGoogleTest.root)).
Proof.
  apply (ToTestsuite_kinds (SampleGoogleTest.testclass "pkg.Mod.ClassA")
           SampleGoogleTest.root SampleGoogleTest.placed).
  reflexivity.
Defined.

(** C9 as stated fails both ways: for the class "ClassA" the parent of the
    innermost suite is the result suite, and it stays [Logical]; for the
    class "pkg.Mod.ClassA" the parent "Mod" is not the result suite, and it
    is the one tagged [Module]. *)
Lemma Module_tag_goes_to_inner_parent :
  (exists testsuite',
     GoogleTestJUnit.Testsuite.ToTestsuite_testclass
       (SampleGoogleTest.testclass "ClassA") SampleGoogleTest.root
     = Return testsuite'
     /\ Classname.kind_at [] testsuite' = Some TestsuiteKind.Logical
     /\ Classname.kind_at ["ClassA"] testsuite' = Some TestsuiteKind.Class)
  /\ (exists testsuite',
        GoogleTestJUnit.Testsuite.ToTestsuite_testclass
          (SampleGoogleTest.testclass "pkg.Mod.ClassA") SampleGoogleTest.root
        = Return testsuite'
        /\ Classname.kind_at [] testsuite' = Some TestsuiteKind.Logical
        /\ Classname.kind_at ["pkg"; "Mod"] testsuite'
           = Some TestsuiteKind.Module_
        /\ Classname.kind_at ["pkg"; "Mod"; "ClassA"] testsuite'
           = Some TestsuiteKind.Class).
Proof.
  split; eexists; (split; [reflexivity|]); repeat split; reflexivity.
Qed.

(** ** GoogleTest: the class-name round trip *)

Section UtInduction.
Import GoogleTestJUnit.
Variable P : ut_Testsuite.t -> Prop.
Hypothesis step :
  forall self,
    Forall (fun e => P (snd e)) (ut_Testsuite._testsuites self) -> P self.

(** Induction over a suite of the unified model and its child suites. *)
Lemma ut_Testsuite_nested_ind : forall self, P self.
Proof.
  fix IH 1. intros self. apply step.
  destruct self as [? ? ? ? ? ? ? ? ? ? tss ?]. simpl.
  induction tss as [|[k c] rest IHrest]; constructor;
    [apply IH | apply IHrest].
Qed.
End UtInduction.

Section RoundTrip.
Import GoogleTestJUnit.

Lemma split_not_nil (s : string) : split "." s <> [].
Proof.
  destruct s as [|c s]; simpl; [discriminate|].
  destruct (Ascii.eqb c "."); [discriminate|].
  destruct (split "." s); discriminate.
Qed.

(** Joining what [split] gave returns the string. *)
Lemma join_split (s : string) : Classname.join (split "." s) = s.
Proof.
  induction s as [|c s IH]; [reflexivity|].
  cbn [split]. destruct (Ascii.eqb c ".") eqn:E.
  - apply Ascii.eqb_eq in E. subst c.
    pose proof (split_not_nil s) as Hne.
    cbn [Classname.join]. destruct (split "." s) as [|w ws]; [congruence|].
    rewrite IH. reflexivity.
  - pose proof (split_not_nil s) as Hne.
    destruct (split "." s) as [|w ws]; [congruence|].
    cbn [Classname.join] in *. destruct ws; subst s; reflexivity.
Qed.

Lemma IterateTestcases_unfold (ancestors : list ut_Testsuite.ancestor)
    (self : ut_Testsuite.t) :
  ut_Testsuite.IterateTestcases ancestors self
  = let chain := (ut_Testsuite._name self, ut_Testsuite._kind self) :: ancestors in
    map (fun tc => (chain, tc)) (Py.values (ut_Testsuite._testcases self))
    ++ flat_map (fun e => ut_Testsuite.IterateTestcases chain (snd e))
                (ut_Testsuite._testsuites self).
Proof.
  destruct self as [? ? ? ? ? ? ? ? ? ? tss ?]. cbn. f_equal.
  induction tss as [|[k c] rest IH]; [reflexivity|].
  cbn. now rewrite IH.
Qed.

Lemma relative_unfold (self : ut_Testsuite.t) :
  Classname.relative self
  = map (fun tc => (ut_Testsuite._name self, tc))
        (Py.values (ut_Testsuite._testcases self))
    ++ flat_map
         (fun e => map (fun r => ((ut_Testsuite._name self ++ "." ++ fst r)%string, snd r))
                       (Classname.relative (snd e)))
         (ut_Testsuite._testsuites self).
Proof.
  destruct self as [? ? ? ? ? ? ? ? ? ? tss ?]. cbn. f_equal.
  induction tss as [|[k c] rest IH]; [reflexivity|].
  cbn. now rewrite IH.
Qed.

Lemma above_unfold (self : ut_Testsuite.t) :
  Classname.above self
  <-> TestsuiteKind.gt (ut_Testsuite._kind self) TestsuiteKind.Logical = true
      /\ Forall (fun e => ut_Testsuite._name (snd e) = fst e
                          /\ Classname.above (snd e))
                (ut_Testsuite._testsuites self).
Proof.
  destruct self as [? ? ? ? ? ? ? ? ? ? tss ?]. cbn.
  apply and_iff_compat_l.
  induction tss as [|[k c] rest IH]; cbn.
  - split; auto.
  - rewrite IH. split.
    + intros [H1 H2]. constructor; auto.
    + intros H. inversion H; subst. auto.
Qed.

(** In a subtree that is [above], the class name of a test case is its
    relative name carried further up the chain of ancestors. *)
Lemma cases_relative (self : ut_Testsuite.t) :
  forall ancestors,
    Classname.above self ->
    Classname.cases ancestors self
    = map (fun r => (Testsuite.FromTestsuite_classname (fst r) ancestors, snd r))
          (Classname.relative self).
Proof.
  induction self as [self IH] using ut_Testsuite_nested_ind.
  intros ancestors Habove. apply above_unfold in Habove.
  destruct Habove as [Hkind Hchildren].
  unfold Classname.cases. rewrite IterateTestcases_unfold, relative_unfold.
  cbv zeta. rewrite !map_app, !map_map. f_equal.
  induction (ut_Testsuite._testsuites self) as [|[k c] rest IHrest];
    [reflexivity|].
  inversion IH as [|? ? IHc IHr]; subst.
  inversion Hchildren as [|? ? Hc Hr]; subst.
  cbn [flat_map]. rewrite !map_app. f_equal; [|apply IHrest; assumption].
  cbn [snd] in *. destruct Hc as [_ Hc].
  specialize (IHc ((ut_Testsuite._name self, ut_Testsuite._kind self) :: ancestors) Hc).
  unfold Classname.cases in IHc. rewrite IHc, !map_map.
  apply map_ext. intros [r tc]. cbn [fst snd Testsuite.FromTestsuite_classname].
  now rewrite Hkind.
Qed.

(** The class names under a suite that is being filled are the relative
    names in its child suites. *)
Lemma cases_filling (testsuite : ut_Testsuite.t) :
  Classname.filling testsuite ->
  Classname.cases [] testsuite
  = flat_map (fun e => Classname.relative (snd e))
             (ut_Testsuite._testsuites testsuite).
Proof.
  intros (Hkind & Hcases & Hchildren).
  unfold Classname.cases. rewrite IterateTestcases_unfold. cbv zeta.
  rewrite Hcases. cbn [Py.values map app].
  induction Hchildren as [|[k c] rest [_ Hc] Hrest IH]; [reflexivity|].
  cbn [flat_map snd]. rewrite map_app, IH. f_equal.
  pose proof (cases_relative c
                [(ut_Testsuite._name testsuite, ut_Testsuite._kind testsuite)]
                Hc) as H.
  unfold Classname.cases in H. etransitivity; [exact H|].
  etransitivity; [|apply map_id].
  apply map_ext. intros [r tc]. cbn. now rewrite Hkind.
Qed.

(** Every test case [IterateTestcases] delivers has a parent. *)
Lemma IterateTestcases_chain (self : ut_Testsuite.t) :
  forall ancestors,
    Forall (fun e => fst e <> [])
           (ut_Testsuite.IterateTestcases ancestors self).
Proof.
  induction self as [self IH] using ut_Testsuite_nested_ind.
  intros ancestors. rewrite IterateTestcases_unfold. cbv zeta.
  apply Forall_app. split.
  - apply Forall_forall. intros e He. apply in_map_iff in He.
    destruct He as (tc & <- & _). discriminate.
  - apply Forall_forall. intros e He. apply in_flat_map in He.
    destruct He as (child & Hchild & He).
    rewrite Forall_forall in IH.
    pose proof (IH child Hchild
                  ((ut_Testsuite._name self, ut_Testsuite._kind self) :: ancestors))
      as IHc.
    rewrite Forall_forall in IHc. now apply IHc.
Qed.

Lemma content_In (d : dict Testclass.t) (k n : string) (testclass : Testclass.t)
    (testcase : Testcase.t) :
  In (k, testclass) d ->
  In (n, testcase) (Testclass._testcases testclass) ->
  In (Testclass._name testclass, Testcase._name testcase)
     (Classname.names (Classname.content d)).
Proof.
  intros Hd Hc. unfold Classname.names, Classname.content.
  apply in_map_iff.
  exists (Testclass._name testclass, Testcase.ToTestcase testcase).
  split; [reflexivity|].
  apply in_flat_map. exists (k, testclass). split; [exact Hd|].
  unfold Classname.class_content. apply in_map_iff.
  exists (n, testcase). auto.
Qed.

(** One turn of the loop of [FromTestsuite]: a test case whose class name
    and name are not taken yet joins its class. *)
Lemma FromTestsuite_step (d : dict Testclass.t) (classname : string)
    (tc : ut_Testcase.t) :
  Classname.grouped d ->
  ~ In (classname, ut_Testcase._name tc) (Classname.names (Classname.content d)) ->
  exists juClass,
    Testclass.AddTestcase (Testcase.FromTestcase tc)
      (match Py.get classname d with
       | Some juClass => juClass
       | None => Testclass.mk classname []
       end) = Return juClass
    /\ Classname.grouped (Py.set classname juClass d)
    /\ Permutation (Classname.content (Py.set classname juClass d))
                   (Classname.content d ++ [(classname, tc)]).
Proof.
  intros [Hkeys Hall] Hfree.
  assert (Hback : Testcase.ToTestcase (Testcase.FromTestcase tc) = tc)
    by (destruct tc; reflexivity).
  destruct (Py.get classname d) as [juClass|] eqn:E.
  - pose proof (get_Some_In _ _ _ E) as Hin.
    pose proof Hall as Hall'. rewrite Forall_forall in Hall'.
    destruct (Hall' _ Hin) as (Hname & Hnodup & Hnames). cbn [fst snd] in *.
    assert (Hnone : Py.get (ut_Testcase._name tc) (Testclass._testcases juClass)
                    = None).
    { destruct (Py.get (ut_Testcase._name tc) (Testclass._testcases juClass))
        as [old|] eqn:E'; [|reflexivity].
      exfalso. apply Hfree. apply get_Some_In in E'.
      pose proof E' as E''. rewrite Forall_forall in Hnames.
      apply Hnames in E''. cbn [fst snd] in E''.
      rewrite <- Hname, <- E''. eapply content_In; eauto. }
    unfold Testclass.AddTestcase, Py.contains.
    cbn [Testcase.FromTestcase Testcase._name]. rewrite Hnone.
    eexists. split; [reflexivity|]. split; [split|].
    + rewrite keys_set. unfold Py.contains. now rewrite E.
    + apply Forall_set; [exact Hall|]. cbn [fst snd Testclass._name Testclass._testcases].
      split; [exact Hname|]. rewrite (set_fresh _ _ _ Hnone). split.
      * unfold Py.keys. rewrite map_app. cbn [map fst].
        apply NoDup_app; [exact Hnodup | repeat constructor; auto |].
        intros a Ha [Hb|[]]. subst a.
        apply (proj1 (get_None_not_In _ _) Hnone). exact Ha.
      * apply Forall_app. split; [exact Hnames|]. repeat constructor.
    + unfold Classname.content.
      apply (flat_map_set Classname.class_content). rewrite E.
      unfold Classname.class_content.
      cbn [Testclass._name Testclass._testcases].
      rewrite (set_fresh _ _ _ Hnone), map_app. cbn [map snd].
      rewrite Hback, Hname. reflexivity.
  - unfold Testclass.AddTestcase, Py.contains. cbn.
    eexists. split; [reflexivity|]. split; [split|].
    + rewrite keys_set. unfold Py.contains. rewrite E.
      apply NoDup_app; [exact Hkeys | repeat constructor; auto |].
      intros a Ha [Hb|[]]. subst a.
      apply (proj1 (get_None_not_In _ _) E). exact Ha.
    + apply Forall_set; [exact Hall|]. cbn.
      repeat split; repeat constructor; auto.
    + unfold Classname.content.
      apply (flat_map_set Classname.class_content). rewrite E.
      unfold Classname.class_content. cbn. now rewrite Hback.
Qed.

Lemma names_app (l1 l2 : list (string * ut_Testcase.t)) :
  Classname.names (l1 ++ l2) = Classname.names l1 ++ Classname.names l2.
Proof. apply map_app. Qed.

(** The loop of [FromTestsuite] groups the test cases it is given by class
    name, when no two of them share class name and name. *)
Lemma FromTestsuite_loop_groups
    (testcases : list (list ut_Testsuite.ancestor * ut_Testcase.t)) :
  forall juTestsuite,
    Forall (fun e => fst e <> []) testcases ->
    Classname.grouped (Testsuite._testclasses juTestsuite) ->
    NoDup (Classname.names
             (Classname.content (Testsuite._testclasses juTestsuite)
              ++ map (fun e => (Classname.of_chain (fst e), snd e)) testcases)) ->
    exists result,
      Testsuite.FromTestsuite_loop testcases juTestsuite = Return result
      /\ Testsuite._name result = Testsuite._name juTestsuite
      /\ Classname.grouped (Testsuite._testclasses result)
      /\ Permutation
           (Classname.content (Testsuite._testclasses result))
           (Classname.content (Testsuite._testclasses juTestsuite)
            ++ map (fun e => (Classname.of_chain (fst e), snd e)) testcases).
Proof.
  induction testcases as [|[chain tc] rest IH]; intros ju Hchains Hgrouped Hnodup.
  - exists ju. cbn. rewrite app_nil_r. auto.
  - inversion Hchains as [|? ? Hchain Hrest]; subst. cbn [fst] in Hchain.
    destruct chain as [|[name kind] up]; [congruence|].
    cbn [map fst snd Classname.of_chain] in Hnodup |- *.
    set (classname := Testsuite.FromTestsuite_classname name up) in *.
    assert (Hfree : ~ In (classname, ut_Testcase._name tc)
                      (Classname.names
                         (Classname.content (Testsuite._testclasses ju)))).
    { rewrite names_app in Hnodup. cbn [Classname.names map] in Hnodup.
      apply NoDup_remove_2 in Hnodup. intros H. apply Hnodup.
      apply in_or_app. now left. }
    destruct (FromTestsuite_step _ classname tc Hgrouped Hfree)
      as (juClass & Hadd & Hgrouped' & Hperm).
    cbn [Testsuite.FromTestsuite_loop]. fold classname. rewrite Hadd.
    cbn [Py.bind].
    destruct (IH (Testsuite.set_testclasses
                    (Py.set classname juClass (Testsuite._testclasses ju)) ju))
      as (result & Hres & Hname & Hg & Hp).
    + exact Hrest.
    + exact Hgrouped'.
    + cbn [Testsuite._testclasses Testsuite.set_testclasses].
      eapply Permutation_NoDup; [|exact Hnodup].
      unfold Classname.names. apply Permutation_map.
      rewrite Hperm. rewrite <- app_assoc. reflexivity.
    + exists result.
      split; [exact Hres|]. split; [exact Hname|]. split; [exact Hg|].
      rewrite Hp. cbn [Testsuite._testclasses Testsuite.set_testclasses].
      rewrite Hperm, <- app_assoc. reflexivity.
Qed.

Lemma names_eq_dec (a b : string * string) : {a = b} + {a <> b}.
Proof. decide equality; apply string_dec. Qed.

(** A class name and test case name already among the test classes sends
    [AddTestcase] into its duplicate check. *)
Lemma FromTestsuite_step_refused (d : dict Testclass.t) (classname : string)
    (tc : ut_Testcase.t) :
  Classname.grouped d ->
  In (classname, ut_Testcase._name tc) (Classname.names (Classname.content d)) ->
  exists msg,
    Testclass.AddTestcase (Testcase.FromTestcase tc)
      (match Py.get classname d with
       | Some juClass => juClass
       | None => Testclass.mk classname []
       end) = Raise (DuplicateTestcaseException msg).
Proof.
  intros [Hkeys Hall] Hin.
  unfold Classname.names, Classname.content in Hin.
  apply in_map_iff in Hin. destruct Hin as ([c' tc'] & Heq & Hin).
  apply in_flat_map in Hin. destruct Hin as ([k testclass] & Hd & Hcls).
  unfold Classname.class_content in Hcls. apply in_map_iff in Hcls.
  destruct Hcls as ([n testcase] & Hpair & Hcase).
  cbn [fst snd] in *. injection Hpair as Hc Htc. injection Heq as Hc' Hn.
  rewrite Forall_forall in Hall.
  destruct (Hall _ Hd) as (Hname & _ & Hnames). cbn [fst snd] in *.
  rewrite Forall_forall in Hnames. pose proof (Hnames _ Hcase) as Hn'.
  cbn [fst snd] in Hn'.
  assert (Hk : k = classname) by congruence. rewrite Hk in Hd.
  rewrite (In_get _ _ _ Hkeys Hd).
  unfold Testclass.AddTestcase. cbn [Testcase.FromTestcase Testcase._name].
  assert (Hnn : n = ut_Testcase._name tc).
  { rewrite <- Hn, <- Htc, <- Hn'. destruct testcase; reflexivity. }
  rewrite Hnn in Hcase. rewrite (In_contains _ _ _ Hcase).
  eexists. reflexivity.
Qed.

(** The loop of [FromTestsuite] raises the duplicate error when two of the
    test cases share class name and name. *)
Lemma FromTestsuite_loop_refuses
    (testcases : list (list ut_Testsuite.ancestor * ut_Testcase.t)) :
  forall juTestsuite,
    Forall (fun e => fst e <> []) testcases ->
    Classname.grouped (Testsuite._testclasses juTestsuite) ->
    NoDup (Classname.names
             (Classname.content (Testsuite._testclasses juTestsuite))) ->
    ~ NoDup (Classname.names
               (Classname.content (Testsuite._testclasses juTestsuite)
                ++ map (fun e => (Classname.of_chain (fst e), snd e)) testcases)) ->
    exists msg,
      Testsuite.FromTestsuite_loop testcases juTestsuite
      = Raise (DuplicateTestcaseException msg).
Proof.
  induction testcases as [|[chain tc] rest IH];
    intros ju Hchains Hgrouped Hnodup Hdup.
  - exfalso. apply Hdup. cbn. now rewrite app_nil_r.
  - inversion Hchains as [|? ? Hchain Hrest]; subst. cbn [fst] in Hchain.
    destruct chain as [|[name kind] up]; [congruence|].
    cbn [map fst snd Classname.of_chain] in Hdup.
    set (classname := Testsuite.FromTestsuite_classname name up) in *.
    cbn [Testsuite.FromTestsuite_loop]. fold classname.
    destruct (in_dec names_eq_dec
                (classname, ut_Testcase._name tc)
                (Classname.names
                   (Classname.content (Testsuite._testclasses ju))))
      as [Hin|Hfree].
    + destruct (FromTestsuite_step_refused _ classname tc Hgrouped Hin)
        as [msg Hmsg].
      rewrite Hmsg. exists msg. reflexivity.
    + destruct (FromTestsuite_step _ classname tc Hgrouped Hfree)
        as (juClass & Hadd & Hgrouped' & Hperm).
      rewrite Hadd. cbn [Py.bind].
      apply IH; cbn [Testsuite._testclasses Testsuite.set_testclasses].
      * exact Hrest.
      * exact Hgrouped'.
      * eapply Permutation_NoDup.
        { unfold Classname.names. apply Permutation_map.
          symmetry. exact Hperm. }
        rewrite names_app. cbn [Classname.names map fst snd].
        apply NoDup_app; [exact Hnodup | repeat constructor; auto |].
        intros a Ha [Hb|[]]. subst a. contradiction.
      * intros H. apply Hdup. eapply Permutation_NoDup; [|exact H].
        unfold Classname.names. apply Permutation_map.
        rewrite Hperm, <- app_assoc. reflexivity.
Qed.

Lemma get_app_fresh {V : Type} (k k' : string) (v : V) (d : dict V) :
  Py.get k d = None -> k <> k' -> Py.get k (d ++ [(k', v)]) = None.
Proof.
  intros H Hne. apply get_None_not_In. unfold Py.keys.
  rewrite map_app. cbn. intros Hin. apply in_app_or in Hin.
  destruct Hin as [Hin|[Hin|[]]]; [|congruence].
  now apply (proj1 (get_None_not_In _ _) H).
Qed.

(** Test cases with names of their own, all new to the suite, are added
    behind those it has. *)
Lemma AddTestcases_fresh (testcases : list ut_Testcase.t) :
  forall suite,
    NoDup (map ut_Testcase._name testcases) ->
    (forall tc, In tc testcases ->
                Py.get (ut_Testcase._name tc) (ut_Testsuite._testcases suite)
                = None) ->
    ut_Testsuite.AddTestcases testcases suite
    = Return (ut_Testsuite.set_testcases
                (ut_Testsuite._testcases suite
                 ++ map (fun tc => (ut_Testcase._name tc, tc)) testcases)
                suite).
Proof.
  induction testcases as [|tc rest IH]; intros suite Hnodup Hnew.
  - cbn. rewrite app_nil_r. destruct suite; reflexivity.
  - cbn [ut_Testsuite.AddTestcases]. unfold ut_Testsuite.AddTestcase, Py.contains.
    rewrite (Hnew tc) by (now left). cbn [Py.bind].
    inversion Hnodup as [|? ? Hfirst Hrest]; subst.
    rewrite (set_fresh _ _ _ (Hnew tc (or_introl eq_refl))).
    rewrite IH.
    + cbn [ut_Testsuite._testcases ut_Testsuite.set_testcases map].
      rewrite <- app_assoc. destruct suite; reflexivity.
    + exact Hrest.
    + intros tc' Hin. cbn [ut_Testsuite._testcases ut_Testsuite.set_testcases].
      apply get_app_fresh; [apply Hnew; now right|].
      intros Heq. apply Hfirst. rewrite <- Heq. now apply in_map.
Qed.

Lemma above_fresh (element : string) :
  Classname.above
    (ut_Testsuite.__init__ element TestsuiteKind.Package None None
                           TestsuiteStatus.Unknown).
Proof. cbn. auto. Qed.

(** The walk below the result suite: from a subtree that is [above] and has
    nothing yet under the class name, it succeeds, and the test cases
    appear under that name. *)
Lemma ToTestsuite_walk_relative (classpath : list string)
    (testcases : list ut_Testcase.t) :
  forall suite,
    Classname.above suite ->
    NoDup (map ut_Testcase._name testcases) ->
    (forall tc,
       ~ In (Classname.join (ut_Testsuite._name suite :: classpath), tc)
            (Classname.relative suite)) ->
    exists suite',
      Testsuite.ToTestsuite_walk classpath testcases false suite = Return suite'
      /\ ut_Testsuite._name suite' = ut_Testsuite._name suite
      /\ Classname.above suite'
      /\ Permutation
           (Classname.relative suite')
           (Classname.relative suite
            ++ map (fun tc =>
                      (Classname.join (ut_Testsuite._name suite :: classpath), tc))
                   testcases).
Proof.
  induction classpath as [|element rest IH]; intros suite Habove Hnodup Hfree.
  - (* the innermost suite *)
    cbn [Classname.join] in *.
    assert (Hempty : ut_Testsuite._testcases suite = []).
    { destruct (ut_Testsuite._testcases suite) as [|[k tc] l] eqn:E;
        [reflexivity|].
      exfalso. apply (Hfree tc). rewrite relative_unfold, E. now left. }
    cbn [Testsuite.ToTestsuite_walk].
    rewrite AddTestcases_fresh.
    + eexists. split; [reflexivity|].
      split; [destruct suite; reflexivity|]. split.
      * apply above_unfold. apply above_unfold in Habove.
        destruct suite; cbn in *. split; [reflexivity | apply Habove].
      * rewrite !relative_unfold.
        replace (ut_Testsuite._testcases
                   (ut_Testsuite.set_testcases
                      (ut_Testsuite._testcases
                         (ut_Testsuite.set_kind TestsuiteKind.Class suite)
                       ++ map (fun tc => (ut_Testcase._name tc, tc)) testcases)
                      (ut_Testsuite.set_kind TestsuiteKind.Class suite)))
          with (map (fun tc => (ut_Testcase._name tc, tc)) testcases)
          by (destruct suite; cbn in *; now subst).
        rewrite Hempty. unfold Py.values. rewrite !map_map. cbn [snd map app].
        replace (ut_Testsuite._name (ut_Testsuite.set_testcases _ _))
          with (ut_Testsuite._name suite) by (destruct suite; reflexivity).
        replace (ut_Testsuite._testsuites (ut_Testsuite.set_testcases _ _))
          with (ut_Testsuite._testsuites suite) by (destruct suite; reflexivity).
        apply Permutation_app_comm.
    + exact Hnodup.
    + intros tc _. destruct suite; cbn in *. now subst.
  - cbn [Testsuite.ToTestsuite_walk].
    set (child := match Py.get element (ut_Testsuite._testsuites suite) with
                  | Some child => child
                  | None => ut_Testsuite.__init__ element TestsuiteKind.Package
                              None None TestsuiteStatus.Unknown
                  end).
    pose proof (proj1 (above_unfold suite) Habove) as [Hkind Hchildren].
    assert (Hchild : ut_Testsuite._name child = element /\ Classname.above child).
    { subst child.
      destruct (Py.get element (ut_Testsuite._testsuites suite)) as [c|] eqn:E.
      - apply get_Some_In in E. rewrite Forall_forall in Hchildren.
        apply (Hchildren _ E).
      - split; [reflexivity | apply above_fresh]. }
    destruct Hchild as [Hname Habove'].
    assert (Hjoin : Classname.join (ut_Testsuite._name suite :: element :: rest)
                    = (ut_Testsuite._name suite ++ "."
                       ++ Classname.join (element :: rest))%string)
      by reflexivity.
    destruct (IH child Habove' Hnodup) as (child' & Hwalk & Hname' & Habove'' & Hperm).
    { intros tc Hin. apply (Hfree tc). rewrite Hjoin, relative_unfold.
      apply in_or_app. right. subst child.
      destruct (Py.get element (ut_Testsuite._testsuites suite)) as [c|] eqn:E;
        [|destruct Hin].
      apply in_flat_map. exists (element, c). split; [now apply get_Some_In|].
      cbn [snd]. apply in_map_iff.
      exists (Classname.join (ut_Testsuite._name c :: rest), tc).
      rewrite Hname in *. split; [reflexivity | exact Hin]. }
    rewrite Hwalk. cbn [Py.bind].
    set (suite1 := ut_Testsuite.set_testsuites
                     (Py.set element child' (ut_Testsuite._testsuites suite))
                     suite).
    assert (Hrel : Permutation
                     (Classname.relative suite1)
                     (Classname.relative suite
                      ++ map (fun tc =>
                                (Classname.join
                                   (ut_Testsuite._name suite :: element :: rest),
                                 tc)) testcases)).
    { rewrite !relative_unfold.
      replace (ut_Testsuite._name suite1) with (ut_Testsuite._name suite)
        by (destruct suite; reflexivity).
      replace (ut_Testsuite._testcases suite1) with (ut_Testsuite._testcases suite)
        by (destruct suite; reflexivity).
      replace (ut_Testsuite._testsuites suite1)
        with (Py.set element child' (ut_Testsuite._testsuites suite))
        by (destruct suite; reflexivity).
      rewrite <- app_assoc. apply Permutation_app_head.
      apply (flat_map_set
               (fun c => map (fun r => ((ut_Testsuite._name suite ++ "."
                                         ++ fst r)%string, snd r))
                             (Classname.relative c))).
      rewrite Hperm, map_app, map_map. cbn [fst snd].
      rewrite Hname. subst child.
      destruct (Py.get element (ut_Testsuite._testsuites suite)); reflexivity. }
    assert (Habove1 : forall kind,
               TestsuiteKind.gt kind TestsuiteKind.Logical = true ->
               Classname.above (ut_Testsuite.set_kind kind suite1)).
    { intros kind Hk. apply above_unfold.
      replace (ut_Testsuite._kind (ut_Testsuite.set_kind kind suite1)) with kind
        by (destruct suite; reflexivity).
      replace (ut_Testsuite._testsuites (ut_Testsuite.set_kind kind suite1))
        with (Py.set element child' (ut_Testsuite._testsuites suite))
        by (destruct suite; reflexivity).
      split; [exact Hk|]. apply Forall_set; [exact Hchildren|].
      cbn [fst snd]. rewrite Hname'. auto. }
    assert (Hsame : forall kind,
               Classname.relative (ut_Testsuite.set_kind kind suite1)
               = Classname.relative suite1
               /\ ut_Testsuite._name (ut_Testsuite.set_kind kind suite1)
                  = ut_Testsuite._name suite).
    { intros kind. rewrite !relative_unfold. destruct suite; auto. }
    destruct rest as [|element2 rest2].
    + exists (ut_Testsuite.set_kind TestsuiteKind.Module_ suite1).
      split; [reflexivity|].
      split; [apply Hsame|]. split; [now apply Habove1|].
      rewrite (proj1 (Hsame _)). exact Hrel.
    + exists suite1. split; [reflexivity|].
      replace suite1 with (ut_Testsuite.set_kind (ut_Testsuite._kind suite) suite1)
        by (destruct suite; reflexivity).
      split; [apply Hsame|]. split; [now apply Habove1|].
      rewrite (proj1 (Hsame _)). exact Hrel.
Qed.

(** One test class placed into the result suite: when nothing is under its
    name yet, its test cases appear under its name. *)
Lemma ToTestsuite_testclass_cases (testclass : Testclass.t)
    (testsuite : ut_Testsuite.t) :
  Classname.filling testsuite ->
  NoDup (Py.keys (Testclass._testcases testclass)) ->
  Forall (fun c => Testcase._name (snd c) = fst c)
         (Testclass._testcases testclass) ->
  (forall tc, ~ In (Testclass._name testclass, tc) (Classname.cases [] testsuite)) ->
  exists testsuite',
    Testsuite.ToTestsuite_testclass testclass testsuite = Return testsuite'
    /\ Classname.filling testsuite'
    /\ Permutation (Classname.cases [] testsuite')
                   (Classname.cases [] testsuite
                    ++ Classname.class_content testclass).
Proof.
  intros Hfilling Hkeys Hnames Hfree.
  pose proof Hfilling as (Hkind & Hcases & Hchildren).
  unfold Testsuite.ToTestsuite_testclass.
  pose proof (join_split (Testclass._name testclass)) as Hjoin.
  pose proof (split_not_nil (Testclass._name testclass)) as Hne.
  destruct (split "." (Testclass._name testclass)) as [|element rest];
    [congruence|]. clear Hne.
  set (testcases := map Testcase.ToTestcase
                        (Py.values (Testclass._testcases testclass))).
  assert (Hnodup : NoDup (map ut_Testcase._name testcases)).
  { subst testcases. unfold Py.values. rewrite !map_map.
    erewrite map_ext_in; [exact Hkeys|].
    intros c Hc. rewrite Forall_forall in Hnames.
    cbn. now apply Hnames. }
  cbn [Testsuite.ToTestsuite_walk].
  set (child := match Py.get element (ut_Testsuite._testsuites testsuite) with
                | Some child => child
                | None => ut_Testsuite.__init__ element TestsuiteKind.Package
                            None None TestsuiteStatus.Unknown
                end).
  assert (Hchild : ut_Testsuite._name child = element /\ Classname.above child).
  { subst child.
    destruct (Py.get element (ut_Testsuite._testsuites testsuite)) as [c|] eqn:E.
    - apply get_Some_In in E. rewrite Forall_forall in Hchildren.
      apply (Hchildren _ E).
    - split; [reflexivity | apply above_fresh]. }
  destruct Hchild as [Hname Habove].
  destruct (ToTestsuite_walk_relative rest testcases child Habove Hnodup)
    as (child' & Hwalk & Hname' & Habove' & Hperm).
  { rewrite Hname, Hjoin. intros tc Hin. apply (Hfree tc).
    rewrite (cases_filling _ Hfilling). subst child.
    destruct (Py.get element (ut_Testsuite._testsuites testsuite)) as [c|] eqn:E;
      [|destruct Hin].
    apply in_flat_map. exists (element, c). split; [now apply get_Some_In|].
    exact Hin. }
  rewrite Hwalk. cbn [Py.bind].
  set (testsuite1 := ut_Testsuite.set_testsuites
                       (Py.set element child'
                               (ut_Testsuite._testsuites testsuite))
                       testsuite).
  exists testsuite1.
  split; [destruct rest; reflexivity|].
  assert (Hfilling1 : Classname.filling testsuite1).
  { unfold Classname.filling.
    replace (ut_Testsuite._kind testsuite1) with (ut_Testsuite._kind testsuite)
      by (destruct testsuite; reflexivity).
    replace (ut_Testsuite._testcases testsuite1)
      with (ut_Testsuite._testcases testsuite)
      by (destruct testsuite; reflexivity).
    replace (ut_Testsuite._testsuites testsuite1)
      with (Py.set element child' (ut_Testsuite._testsuites testsuite))
      by (destruct testsuite; reflexivity).
    split; [exact Hkind|]. split; [exact Hcases|].
    apply Forall_set; [exact Hchildren|]. cbn [fst snd].
    rewrite Hname'. auto. }
  split; [exact Hfilling1|].
  rewrite (cases_filling _ Hfilling1), (cases_filling _ Hfilling).
  replace (ut_Testsuite._testsuites testsuite1)
    with (Py.set element child' (ut_Testsuite._testsuites testsuite))
    by (destruct testsuite; reflexivity).
  apply (flat_map_set Classname.relative).
  rewrite Hperm, Hname, Hjoin.
  unfold Classname.class_content. subst testcases.
  unfold Py.values. rewrite !map_map. subst child.
  destruct (Py.get element (ut_Testsuite._testsuites testsuite)); reflexivity.
Qed.

(** The loop of [ToTestsuite] over test classes with names of their own,
    none of them present yet. *)
Lemma ToTestsuite_loop_cases (testclasses : list Testclass.t) :
  forall testsuite,
    Classname.filling testsuite ->
    NoDup (map Testclass._name testclasses) ->
    Forall (fun testclass =>
              NoDup (Py.keys (Testclass._testcases testclass))
              /\ Forall (fun c => Testcase._name (snd c) = fst c)
                        (Testclass._testcases testclass)) testclasses ->
    (forall testclass tc,
       In testclass testclasses ->
       ~ In (Testclass._name testclass, tc) (Classname.cases [] testsuite)) ->
    exists testsuite',
      Testsuite.ToTestsuite_loop testclasses testsuite = Return testsuite'
      /\ Classname.filling testsuite'
      /\ Permutation (Classname.cases [] testsuite')
                     (Classname.cases [] testsuite
                      ++ flat_map Classname.class_content testclasses).
Proof.
  induction testclasses as [|testclass rest IH];
    intros testsuite Hfilling Hnodup Hall Hfree.
  - exists testsuite. cbn. rewrite app_nil_r. auto.
  - inversion Hnodup as [|? ? Hfirst Hrest]; subst.
    inversion Hall as [|? ? [Hkeys Hnames] Hall']; subst.
    destruct (ToTestsuite_testclass_cases testclass testsuite Hfilling Hkeys Hnames)
      as (testsuite1 & Hstep & Hfilling1 & Hperm1).
    { intros tc. apply Hfree. now left. }
    cbn [Testsuite.ToTestsuite_loop]. rewrite Hstep. cbn [Py.bind].
    destruct (IH testsuite1 Hfilling1 Hrest Hall')
      as (testsuite' & Hloop & Hfilling' & Hperm').
    { intros testclass' tc Hin Hcase.
      apply (Permutation_in _ Hperm1) in Hcase.
      apply in_app_or in Hcase. destruct Hcase as [Hcase|Hcase].
      - apply (Hfree testclass' tc); [now right | exact Hcase].
      - unfold Classname.class_content in Hcase. apply in_map_iff in Hcase.
        destruct Hcase as (c & Hc & _). injection Hc as Heq _.
        apply Hfirst. rewrite Heq. now apply in_map. }
    exists testsuite'. split; [exact Hloop|]. split; [exact Hfilling'|].
    rewrite Hperm', Hperm1. cbn [flat_map]. now rewrite app_assoc.
Qed.

(** [ToTestsuite] on test classes as [FromTestsuite] groups them. *)
Lemma ToTestsuite_cases (juTestsuite : Testsuite.t) :
  Classname.grouped (Testsuite._testclasses juTestsuite) ->
  exists testsuite,
    Testsuite.ToTestsuite juTestsuite = Return testsuite
    /\ Permutation (Classname.cases [] testsuite)
                   (Classname.content (Testsuite._testclasses juTestsuite)).
Proof.
  intros [Hkeys Hall]. unfold Testsuite.ToTestsuite.
  set (root := ut_Testsuite.__init__ _ _ _ _ _).
  assert (Hfilling : Classname.filling root)
    by (repeat split; constructor).
  assert (Hnames : map Testclass._name
                       (Py.values (Testsuite._testclasses juTestsuite))
                   = Py.keys (Testsuite._testclasses juTestsuite)).
  { unfold Py.values, Py.keys. rewrite map_map. apply map_ext_in.
    intros e He. rewrite Forall_forall in Hall. now apply Hall. }
  destruct (ToTestsuite_loop_cases
              (Py.values (Testsuite._testclasses juTestsuite)) root Hfilling)
    as (testsuite & Hloop & Hfilling' & Hperm).
  - now rewrite Hnames.
  - unfold Py.values. apply Forall_map.
    eapply Forall_impl; [|exact Hall]. intros e (_ & H1 & H2). cbn beta. auto.
  - intros testclass tc _ [].
  - exists testsuite. split; [exact Hloop|].
    rewrite Hperm. cbn [app]. unfold Classname.content, Py.values.
    rewrite flat_map_concat_map, map_map, <- flat_map_concat_map.
    reflexivity.
Qed.

End RoundTrip.

(** The test cases under pkg.Mod.ClassA and pkg.Mod.ClassB come back under
    these two class names. *)
Lemma round_trip_ClassA_ClassB :
  exists juTestsuite y,
    GoogleTestJUnit.Testsuite.FromTestsuite [] SampleGoogleTest.x
    = Return juTestsuite
    /\ GoogleTestJUnit.Testsuite.ToTestsuite juTestsuite = Return y
    /\ Classname.names (Classname.cases [] SampleGoogleTest.x)
       = [("pkg.Mod.ClassA", "t1"); ("pkg.Mod.ClassA", "t2");
          ("pkg.Mod.ClassB", "t1")]
    /\ Classname.names (Classname.cases [] y)
       = [("pkg.Mod.ClassA", "t1"); ("pkg.Mod.ClassA", "t2");
          ("pkg.Mod.ClassB", "t1")].
Proof.
  do 2 eexists.
  split; [vm_compute; reflexivity|].
  split; [vm_compute; reflexivity|].
  split; vm_compute; reflexivity.
Qed.

(** C6 (amended): for every test suite tree of the unified model in which no
    two test cases share both the dotted class name and the test case name,
    [FromTestsuite] returns, [ToTestsuite] returns on its result, and the
    tree that comes back holds exactly the test cases of the original, each
    under its original dotted class name: none lost, none twice.  When two
    test cases do share class name and name, [FromTestsuite] raises the
    duplicate error.  In particular the test cases under pkg.Mod.ClassA and pkg.Mod.ClassB come
    back under these two class names. *)
Theorem classname_round_trip :
  (forall ancestors x,
     NoDup (Classname.names (Classname.cases ancestors x)) ->
     exists juTestsuite y,
       GoogleTestJUnit.Testsuite.FromTestsuite ancestors x = Return juTestsuite
       /\ GoogleTestJUnit.Testsuite.ToTestsuite juTestsuite = Return y
       /\ Permutation (Classname.cases [] y) (Classname.cases ancestors x))
  /\ (forall ancestors x,
        ~ NoDup (Classname.names (Classname.cases ancestors x)) ->
        exists msg,
          GoogleTestJUnit.Testsuite.FromTestsuite ancestors x
          = Raise (DuplicateTestcaseException msg))
  /\ (exists juTestsuite y,
        GoogleTestJUnit.Testsuite.FromTestsuite [] SampleGoogleTest.x
        = Return juTestsuite
        /\ GoogleTestJUnit.Testsuite.ToTestsuite juTestsuite = Return y
        /\ Classname.names (Classname.cases [] SampleGoogleTest.x)
           = [("pkg.Mod.ClassA", "t1"); ("pkg.Mod.ClassA", "t2");
              ("pkg.Mod.ClassB", "t1")]
        /\ Classname.names (Classname.cases [] y)
           = [("pkg.Mod.ClassA", "t1"); ("pkg.Mod.ClassA", "t2");
              ("pkg.Mod.ClassB", "t1")]).
Proof.
  split; [|split; [|exact round_trip_ClassA_ClassB]].
  2: { intros ancestors x Hdup.
       apply FromTestsuite_loop_refuses.
       - apply IterateTestcases_chain.
       - split; constructor.
       - constructor.
       - exact Hdup. }
  intros ancestors x Hnodup.
  unfold GoogleTestJUnit.Testsuite.FromTestsuite.
  match goal with
  | |- context [GoogleTestJUnit.Testsuite.FromTestsuite_loop _ ?ju] =>
      destruct (FromTestsuite_loop_groups
                  (GoogleTestJUnit.ut_Testsuite.IterateTestcases ancestors x) ju)
        as (juTestsuite & Hfrom & _ & Hgrouped & Hperm)
  end.
  - apply IterateTestcases_chain.
  - split; constructor.
  - exact Hnodup.
  - destruct (ToTestsuite_cases juTestsuite Hgrouped) as (y & Hto & Hperm').
    exists juTestsuite, y. split; [exact Hfrom|]. split; [exact Hto|].
    rewrite Hperm', Hperm. reflexivity.
Qed.

Lemma classname_round_trip_witness :
  exists juTestsuite y,
    GoogleTestJUnit.Testsuite.FromTestsuite [] SampleGoogleTest.x
    = Return juTestsuite
    /\ GoogleTestJUnit.Testsuite.ToTestsuite juTestsuite = Return y
    /\ Permutation (Classname.cases [] y)
                   (Classname.cases [] SampleGoogleTest.x).
Proof.
  apply (proj1 classname_round_trip [] SampleGoogleTest.x).
  cbn.
  repeat (constructor;
          [cbn; intros H;
           repeat (destruct H as [H|H]; [discriminate H|]); destruct H|]).
  constructor.
Defined.

(** C6 as stated fails: in the sample every suite below the root has a kind
    above [Logical], the suites "a.b" and "a"/"b" give the same class name
    "a.b", each holds a test case "t", and [FromTestsuite] raises instead of
    returning a test suite to convert back. *)
Lemma shared_classname_and_name_is_refused :
  Classname.kinds_above_Logical SampleGoogleTest.clash = true
  /\ Classname.names (Classname.cases [] SampleGoogleTest.clash)
     = [("a.b", "t"); ("a.b", "t")]
  /\ GoogleTestJUnit.Testsuite.FromTestsuite [] SampleGoogleTest.clash
     = Raise (DuplicateTestcaseException
                "Testclass already contains a testcase with same name 't'.").
Proof. repeat split; reflexivity. Qed.

(** * Further properties of the code *)

(** ** Insertion: [AddTestcases], [AddTestsuite] and the constructors *)

Section InsertFacts.
Import JUnit.

Lemma contains_app_fresh {V : Type} (k k' : string) (v : V) (d : dict V) :
  Py.contains k d = false -> k <> k' ->
  Py.contains k (d ++ [(k', v)]) = false.
Proof.
  unfold Py.contains. intros H Hne.
  destruct (Py.get k d) eqn:E; [discriminate|].
  now rewrite (get_app_fresh k k' v d E Hne).
Qed.

Lemma contains_false_get {V : Type} (k : string) (d : dict V) :
  Py.contains k d = false -> Py.get k d = None.
Proof. unfold Py.contains. destruct (Py.get k d); [discriminate | auto]. Qed.

(** The loop of [Testsuite.__init__] does what [AddTestcases] does. *)
Lemma Testsuite__init__loop_AddTestcases (testcases : list Testcase.t) :
  forall self,
    match Testsuite.AddTestcases testcases self with
    | Return self' => Testsuite__init__loop testcases self = (self', Return tt)
    | Raise e => snd (Testsuite__init__loop testcases self) = Raise e
    end.
Proof.
  induction testcases as [|tc rest IH]; intros self; [reflexivity|].
  cbn [Testsuite.AddTestcases Testsuite__init__loop].
  unfold Testsuite.AddTestcase.
  destruct (Testcase._parent tc); [reflexivity|].
  destruct (Py.contains (Testcase._name tc) (Testsuite._testcases self));
    [reflexivity|].
  cbn [Py.bind]. apply IH.
Qed.

(** The loop of [TestsuiteSummary.__init__] is [AddTestsuites]. *)
Lemma TestsuiteSummary__init__loop_AddTestsuites (testsuites : list Testsuite.t) :
  forall self,
    TestsuiteSummary__init__loop testsuites self
    = TestsuiteSummary.AddTestsuites testsuites self.
Proof.
  induction testsuites as [|ts rest IH]; intros self; [reflexivity|].
  cbn [TestsuiteSummary.AddTestsuites TestsuiteSummary__init__loop].
  unfold TestsuiteSummary.AddTestsuite.
  destruct (Testsuite._parent ts); [reflexivity|].
  destruct (Py.contains (Testsuite._name ts) (TestsuiteSummary._testsuites self));
    [reflexivity|].
  cbn [Py.bind]. apply IH.
Qed.

End InsertFacts.

(** X1: test cases without a parent, with names of their own that the test
    suite does not hold yet, are all added by [AddTestcases]: they come
    behind the test cases the suite has, in their order, each with the suite
    as its parent, and [TestcaseCount] grows by their number. *)
Theorem AddTestcases_appends :
  forall testcases self,
    Forall (fun tc => JUnit.Testcase._parent tc = None) testcases ->
    NoDup (map JUnit.Testcase._name testcases) ->
    (forall tc, In tc testcases ->
                Py.contains (JUnit.Testcase._name tc)
                            (JUnit.Testsuite._testcases self) = false) ->
    exists self',
      JUnit.Testsuite.AddTestcases testcases self = Return self'
      /\ JUnit.Testsuite._testcases self'
         = JUnit.Testsuite._testcases self
           ++ map (fun tc =>
                     (JUnit.Testcase._name tc,
                      JUnit.Testcase.set_parent
                        (Some (JUnit.Testsuite._name self)) tc))
                  testcases
      /\ JUnit.Testsuite.TestcaseCount self'
         = (JUnit.Testsuite.TestcaseCount self
            + Z.of_nat (List.length testcases))%Z.
Proof.
  induction testcases as [|tc rest IH]; intros self Hparent Hnodup Hnew.
  - exists self. cbn. rewrite app_nil_r. repeat split; lia.
  - inversion Hparent as [|? ? Hp Hparent']; subst.
    inversion Hnodup as [|? ? Hfirst Hnodup']; subst.
    cbn [JUnit.Testsuite.AddTestcases]. unfold JUnit.Testsuite.AddTestcase.
    rewrite Hp, (Hnew tc (or_introl eq_refl)). cbn [Py.bind].
    set (self1 := JUnit.Testsuite.set_testcases _ self).
    assert (Hcases1 : JUnit.Testsuite._testcases self1
                      = JUnit.Testsuite._testcases self
                        ++ [(JUnit.Testcase._name tc,
                             JUnit.Testcase.set_parent
                               (Some (JUnit.Testsuite._name self)) tc)]).
    { subst self1. cbn.
      apply set_fresh, contains_false_get, (Hnew tc). now left. }
    destruct (IH self1 Hparent' Hnodup') as (self' & Hadd & Hcases & Hcount).
    { intros tc' Hin. rewrite Hcases1. apply contains_app_fresh.
      - apply Hnew. now right.
      - intros Heq. apply Hfirst. rewrite <- Heq. now apply in_map. }
    exists self'. split; [exact Hadd|]. split.
    + rewrite Hcases, Hcases1, <- app_assoc. reflexivity.
    + rewrite Hcount. unfold JUnit.Testsuite.TestcaseCount.
      rewrite Hcases1, length_app. cbn [List.length]. lia.
Qed.

Lemma AddTestcases_appends_witness :
  exists self',
    JUnit.Testsuite.AddTestcases
      [SampleInsert.fresh "a"; SampleInsert.fresh "b"] Sample.T
    = Return self'
    /\ JUnit.Testsuite._testcases self'
       = JUnit.Testsuite._testcases Sample.T
         ++ map (fun tc =>
                   (JUnit.Testcase._name tc,
                    JUnit.Testcase.set_parent
                      (Some (JUnit.Testsuite._name Sample.T)) tc))
                [SampleInsert.fresh "a"; SampleInsert.fresh "b"]
    /\ JUnit.Testsuite.TestcaseCount self'
       = (JUnit.Testsuite.TestcaseCount Sample.T + Z.of_nat 2)%Z.
Proof.
  apply (AddTestcases_appends
           [SampleInsert.fresh "a"; SampleInsert.fresh "b"] Sample.T).
  - repeat constructor.
  - cbn. repeat (constructor;
                 [cbn; intros H;
                  repeat (destruct H as [H|H]; [discriminate H|]); destruct H|]).
    constructor.
  - intros tc [<-|[<-|[]]]; reflexivity.
Defined.

(** X2: the constructors that take children do what the [Add] methods do:
    [Testsuite(..., testcases=l)] has the outcome of [AddTestcases(l)] on the
    suite without test cases, and [TestsuiteSummary(..., testsuites=l)] that
    of [AddTestsuites(l)] on the summary without test suites, the same
    exception included. *)
Theorem constructors_add_like_Add :
  (forall name hostname startTime duration status testcases,
     snd (JUnit.Testsuite__init__ name hostname startTime duration status
                                  (Some testcases) None)
     = JUnit.Testsuite.AddTestcases testcases
         (JUnit.Testsuite.mk None name duration startTime status 0 0 0 0 0
                             hostname []))
  /\ (forall name startTime duration status testsuites,
        JUnit.TestsuiteSummary__init__ name startTime duration status
                                       (Some testsuites)
        = JUnit.TestsuiteSummary.AddTestsuites testsuites
            (JUnit.TestsuiteSummary.mk name duration startTime status
                                       0 0 0 0 0 [])).
Proof.
  split.
  - intros. unfold JUnit.Testsuite__init__. cbn [option_map].
    pose proof (Testsuite__init__loop_AddTestcases testcases
                  (JUnit.Testsuite.mk None name duration startTime status
                                      0 0 0 0 0 hostname [])) as H.
    destruct (JUnit.Testsuite.AddTestcases testcases _) as [self'|e].
    + rewrite H. reflexivity.
    + destruct (JUnit.Testsuite__init__loop testcases _) as [self' r].
      cbn [snd] in *. subst r. reflexivity.
  - intros. unfold JUnit.TestsuiteSummary__init__.
    apply TestsuiteSummary__init__loop_AddTestsuites.
Qed.

(** X3: when [AddTestsuite] returns, the test suite sits in the summary
    under its name with the summary as parent, [TestsuiteCount] has grown by
    one and [TestcaseCount] by the number of test cases of the suite. *)
Theorem AddTestsuite_counts :
  forall testsuite self self',
    JUnit.TestsuiteSummary.AddTestsuite testsuite self = Return self' ->
    Py.get (JUnit.Testsuite._name testsuite)
           (JUnit.TestsuiteSummary._testsuites self')
    = Some (JUnit.Testsuite.set_parent
              (Some (JUnit.TestsuiteSummary._name self)) testsuite)
    /\ JUnit.TestsuiteSummary.TestsuiteCount self'
       = (JUnit.TestsuiteSummary.TestsuiteCount self + 1)%Z
    /\ JUnit.TestsuiteSummary.TestcaseCount self'
       = (JUnit.TestsuiteSummary.TestcaseCount self
          + JUnit.Testsuite.TestcaseCount testsuite)%Z.
Proof.
  intros testsuite self self' H.
  unfold JUnit.TestsuiteSummary.AddTestsuite in H.
  destruct (JUnit.Testsuite._parent testsuite); [discriminate|].
  destruct (Py.contains _ _) eqn:E; [discriminate|].
  inversion H; subst self'; clear H.
  cbn [JUnit.TestsuiteSummary._testsuites JUnit.TestsuiteSummary.set_testsuites
       JUnit.Testsuite._name JUnit.Testsuite.set_parent].
  split; [apply get_set_same|].
  unfold JUnit.TestsuiteSummary.TestsuiteCount, JUnit.TestsuiteSummary.TestcaseCount.
  cbn [JUnit.TestsuiteSummary._testsuites JUnit.TestsuiteSummary.set_testsuites
       JUnit.Testsuite._name JUnit.Testsuite.set_parent].
  rewrite (set_fresh _ _ _ (contains_false_get _ _ E)).
  split.
  - rewrite length_app. cbn [List.length]. lia.
  - unfold Py.values. rewrite !map_app. cbn [map snd].
    induction (map JUnit.Testsuite.TestcaseCount
                   (map snd (JUnit.TestsuiteSummary._testsuites self)))
      as [|z l IH]; cbn [fold_right app].
    + unfold JUnit.Testsuite.TestcaseCount. cbn. lia.
    + rewrite IH. lia.
Qed.

Lemma AddTestsuite_counts_witness :
  Py.get "U"
    (JUnit.TestsuiteSummary._testsuites
       (JUnit.TestsuiteSummary.set_testsuites
          [("T", Sample.T);
           ("U", JUnit.Testsuite.set_parent (Some "root")
                   SampleInsert.unparented)]
          Sample.summary))
  = Some (JUnit.Testsuite.set_parent (Some "root") SampleInsert.unparented)
  /\ JUnit.TestsuiteSummary.TestsuiteCount
       (JUnit.TestsuiteSummary.set_testsuites
          [("T", Sample.T);
           ("U", JUnit.Testsuite.set_parent (Some "root")
                   SampleInsert.unparented)]
          Sample.summary)
     = (JUnit.TestsuiteSummary.TestsuiteCount Sample.summary + 1)%Z
  /\ JUnit.TestsuiteSummary.TestcaseCount
       (JUnit.TestsuiteSummary.set_testsuites
          [("T", Sample.T);
           ("U", JUnit.Testsuite.set_parent (Some "root")
                   SampleInsert.unparented)]
          Sample.summary)
     = (JUnit.TestsuiteSummary.TestcaseCount Sample.summary
        + JUnit.Testsuite.TestcaseCount SampleInsert.unparented)%Z.
Proof.
  apply (AddTestsuite_counts SampleInsert.unparented Sample.summary).
  reflexivity.
Defined.

(** ** The document protocol: [Write] and [Generate] *)





Section GenerateFacts.
Import JUnit.

Lemma fold_left_SubElement {A : Type} (f : A -> list Xml.Element)
    (step : A -> Xml.Element -> Xml.Element) (l : list A) :
  (forall a tag attrib children,
      step a (Xml.Elem tag attrib children)
      = Xml.Elem tag attrib (children ++ f a)) ->
  forall tag attrib children,
    fold_left (fun element a => step a element) l (Xml.Elem tag attrib children)
    = Xml.Elem tag attrib (children ++ flat_map f l).
Proof.
  intros Hstep. induction l as [|a l IH]; intros tag attrib children.
  - cbn. now rewrite app_nil_r.
  - cbn [fold_left flat_map]. rewrite Hstep, IH, <- app_assoc. reflexivity.
Qed.

Lemma _GenerateTestcase_appends (testcase : Testcase.t) tag attrib children :
  JUnitDocument._GenerateTestcase testcase (Xml.Elem tag attrib children)
  = Xml.Elem tag attrib (children ++ XmlView.testcase_element testcase).
Proof. reflexivity. Qed.

Lemma _GenerateTestsuite_appends (testsuite : Testsuite.t) tag attrib children :
  JUnitDocument._GenerateTestsuite testsuite (Xml.Elem tag attrib children)
  = Xml.Elem tag attrib (children ++ XmlView.testsuite_element testsuite).
Proof.
  unfold XmlView.testsuite_element, JUnitDocument._GenerateTestsuite.
  destruct (fold_left _ _ _). reflexivity.
Qed.

End GenerateFacts.

(** X6: on a document whose internal XML document is empty, [Generate]
    returns and builds a [testsuites] element that always carries the
    name and the four counters, carries [timestamp] and [time] only when
    start time and duration are set, and has as children what
    [_GenerateTestsuite] gives for each test suite, in the order of the
    summary's map. *)
Theorem Generate_root_element :
  forall overwrite self,
    JUnit.JUnitDocument._xmlDocument self = None ->
    exists root,
      JUnit.JUnitDocument.Generate overwrite self
      = (JUnit.JUnitDocument.set_xmlDocument (Some root) self, Return tt)
      /\ XmlView.tag root = "testsuites"
      /\ Py.get "name" (XmlView.attrib root)
         = Some (JUnit.Xml.Text
                   (JUnit.TestsuiteSummary._name (JUnit.JUnitDocument.summary self)))
      /\ Py.get "tests" (XmlView.attrib root)
         = Some (JUnit.Xml.Int
                   (JUnit.TestsuiteSummary._tests (JUnit.JUnitDocument.summary self)))
      /\ Py.get "failures" (XmlView.attrib root)
         = Some (JUnit.Xml.Int
                   (JUnit.TestsuiteSummary._failed (JUnit.JUnitDocument.summary self)))
      /\ Py.get "errors" (XmlView.attrib root)
         = Some (JUnit.Xml.Int
                   (JUnit.TestsuiteSummary._errored (JUnit.JUnitDocument.summary self)))
      /\ Py.get "skipped" (XmlView.attrib root)
         = Some (JUnit.Xml.Int
                   (JUnit.TestsuiteSummary._skipped (JUnit.JUnitDocument.summary self)))
      /\ Py.get "timestamp" (XmlView.attrib root)
         = option_map JUnit.Xml.Timestamp
             (JUnit.TestsuiteSummary._startTime (JUnit.JUnitDocument.summary self))
      /\ Py.get "time" (XmlView.attrib root)
         = option_map JUnit.Xml.Seconds
             (JUnit.TestsuiteSummary._duration (JUnit.JUnitDocument.summary self))
      /\ XmlView.children root
         = flat_map XmlView.testsuite_element
             (Py.values
                (JUnit.TestsuiteSummary._testsuites (JUnit.JUnitDocument.summary self))).
Proof.
  intros overwrite self H. unfold JUnit.JUnitDocument.Generate. rewrite H.
  rewrite (fold_left_SubElement XmlView.testsuite_element
             JUnit.JUnitDocument._GenerateTestsuite)
    by apply _GenerateTestsuite_appends.
  eexists. split; [reflexivity|].
  destruct (JUnit.TestsuiteSummary._startTime (JUnit.JUnitDocument.summary self)),
           (JUnit.TestsuiteSummary._duration (JUnit.JUnitDocument.summary self));
    repeat split; reflexivity.
Qed.

Lemma Generate_root_element_witness :
  exists root,
    JUnit.JUnitDocument.Generate false (JUnit.JUnitDocument.__init__ "report.xml")
    = (JUnit.JUnitDocument.set_xmlDocument (Some root)
         (JUnit.JUnitDocument.__init__ "report.xml"), Return tt)
    /\ XmlView.tag root = "testsuites"
    /\ Py.get "name" (XmlView.attrib root)
       = Some (JUnit.Xml.Text "Unprocessed JUnit XML file")
    /\ Py.get "tests" (XmlView.attrib root) = Some (JUnit.Xml.Int 0)
    /\ Py.get "failures" (XmlView.attrib root) = Some (JUnit.Xml.Int 0)
    /\ Py.get "errors" (XmlView.attrib root) = Some (JUnit.Xml.Int 0)
    /\ Py.get "skipped" (XmlView.attrib root) = Some (JUnit.Xml.Int 0)
    /\ Py.get "timestamp" (XmlView.attrib root) = None
    /\ Py.get "time" (XmlView.attrib root) = None
    /\ XmlView.children root = [].
Proof.
  apply (Generate_root_element false (JUnit.JUnitDocument.__init__ "report.xml")).
  reflexivity.
Defined.

(** X7: [_GenerateTestsuite] appends one [testsuite] element.  It always
    carries the name and the four counters, carries [timestamp], [time] and
    [hostname] only when they are set, and its children are the [testcase]
    elements of the suite's test cases in the order of its map. *)
Theorem GenerateTestsuite_element :
  forall testsuite,
    exists element,
      XmlView.testsuite_element testsuite = [element]
      /\ XmlView.tag element = "testsuite"
      /\ Py.get "name" (XmlView.attrib element)
         = Some (JUnit.Xml.Text (JUnit.Testsuite._name testsuite))
      /\ Py.get "tests" (XmlView.attrib element)
         = Some (JUnit.Xml.Int (JUnit.Testsuite._tests testsuite))
      /\ Py.get "failures" (XmlView.attrib element)
         = Some (JUnit.Xml.Int (JUnit.Testsuite._failed testsuite))
      /\ Py.get "errors" (XmlView.attrib element)
         = Some (JUnit.Xml.Int (JUnit.Testsuite._errored testsuite))
      /\ Py.get "skipped" (XmlView.attrib element)
         = Some (JUnit.Xml.Int (JUnit.Testsuite._skipped testsuite))
      /\ Py.get "timestamp" (XmlView.attrib element)
         = option_map JUnit.Xml.Timestamp (JUnit.Testsuite._startTime testsuite)
      /\ Py.get "time" (XmlView.attrib element)
         = option_map JUnit.Xml.Seconds (JUnit.Testsuite._duration testsuite)
      /\ Py.get "hostname" (XmlView.attrib element)
         = option_map JUnit.Xml.Text (JUnit.Testsuite._hostname testsuite)
      /\ XmlView.children element
         = flat_map XmlView.testcase_element
             (Py.values (JUnit.Testsuite._testcases testsuite)).
Proof.
  intros testsuite.
  unfold XmlView.testsuite_element, JUnit.JUnitDocument._GenerateTestsuite.
  rewrite (fold_left_SubElement XmlView.testcase_element
             JUnit.JUnitDocument._GenerateTestcase)
    by apply _GenerateTestcase_appends.
  eexists. split; [reflexivity|].
  destruct testsuite as [? ? d st ? ? ? ? ? ? h ?].
  cbn [JUnit.Testsuite._name JUnit.Testsuite._duration JUnit.Testsuite._startTime
       JUnit.Testsuite._tests JUnit.Testsuite._failed JUnit.Testsuite._errored
       JUnit.Testsuite._skipped JUnit.Testsuite._hostname
       JUnit.Testsuite._testcases JUnit.Testsuite._parent JUnit.Testsuite._status
       JUnit.Testsuite._passed].
  destruct d, st, h; repeat split; reflexivity.
Qed.

(** X8: [_GenerateTestcase] appends one [testcase] element with the name,
    with [classname], [time] and [assertions] only when they are set, and
    with a status child by the status: none for [Passed], [failure] for
    [Failed], [skipped] for [Skipped], and [error] for every other status,
    [Unknown] and [Weak] included. *)
Theorem GenerateTestcase_element :
  forall testcase,
    exists element,
      XmlView.testcase_element testcase = [element]
      /\ XmlView.tag element = "testcase"
      /\ Py.get "name" (XmlView.attrib element)
         = Some (JUnit.Xml.Text (JUnit.Testcase._name testcase))
      /\ Py.get "classname" (XmlView.attrib element)
         = option_map JUnit.Xml.Text (JUnit.Testcase._classname testcase)
      /\ Py.get "time" (XmlView.attrib element)
         = option_map JUnit.Xml.Seconds (JUnit.Testcase._duration testcase)
      /\ Py.get "assertions" (XmlView.attrib element)
         = option_map JUnit.Xml.Int (JUnit.Testcase._assertionCount testcase)
      /\ map XmlView.tag (XmlView.children element)
         = XmlView.status_children (JUnit.Testcase._status testcase)
      /\ (XmlView.children element = []
          <-> JUnit.Testcase._status testcase = TestcaseStatus.Passed)
      /\ (JUnit.Testcase._status testcase = TestcaseStatus.Unknown
          \/ JUnit.Testcase._status testcase = TestcaseStatus.Weak
          \/ JUnit.Testcase._status testcase = TestcaseStatus.Errored ->
          map XmlView.tag (XmlView.children element) = ["error"]).
Proof.
  intros testcase.
  unfold XmlView.testcase_element, JUnit.JUnitDocument._GenerateTestcase.
  eexists. split; [reflexivity|].
  destruct testcase as [? ? d a c status].
  cbn [JUnit.Testcase._name JUnit.Testcase._duration JUnit.Testcase._classname
       JUnit.Testcase._assertionCount JUnit.Testcase._status].
  assert (Hstatus :
            map XmlView.tag
                (if TestcaseStatus.is_ status TestcaseStatus.Passed then []
                 else if TestcaseStatus.is_ status TestcaseStatus.Failed
                      then [JUnit.Xml.Elem "failure" [] []]
                      else if TestcaseStatus.is_ status TestcaseStatus.Skipped
                           then [JUnit.Xml.Elem "skipped" [] []]
                           else [JUnit.Xml.Elem "error" [] []])
            = XmlView.status_children status).
  { unfold XmlView.status_children.
    destruct (TestcaseStatus.is_ status TestcaseStatus.Passed),
             (TestcaseStatus.is_ status TestcaseStatus.Failed),
             (TestcaseStatus.is_ status TestcaseStatus.Skipped); reflexivity. }
  destruct d, a, c; cbn [XmlView.tag XmlView.attrib XmlView.children option_map];
    (split; [reflexivity|]); (split; [reflexivity|]); (split; [reflexivity|]);
    (split; [reflexivity|]); (split; [reflexivity|]);
    (split; [exact Hstatus|]);
    (split;
     [ unfold TestcaseStatus.is_;
       destruct (N.eqb status TestcaseStatus.Passed) eqn:E;
       [ apply N.eqb_eq in E; tauto
       | apply N.eqb_neq in E; split; [|tauto];
         destruct (N.eqb status TestcaseStatus.Failed),
                  (N.eqb status TestcaseStatus.Skipped); discriminate ]
     | intros [-> | [-> | ->]]; reflexivity ]).
Qed.

(** ** Iteration of a summary *)

(** X11: [TestsuiteSummary.Iterate] does not check the order itself.  Under
    a scheme with both [PreOrder] and [PostOrder], where [Testsuite.Iterate]
    stops at once with [AssertionError] on every test suite, a summary
    without test suites raises nothing: it yields itself once for each order
    (when [IncludeSelf] and [IncludeTestsuites] are set) and ends. *)
Theorem Summary_Iterate_with_both_orders :
  forall scheme self,
    IterationScheme.In IterationScheme.PreOrder scheme = true ->
    IterationScheme.In IterationScheme.PostOrder scheme = true ->
    JUnit.TestsuiteSummary._testsuites self = [] ->
    JUnit.TestsuiteSummary.Iterate scheme self
    = (Groups.summary scheme self ++ Groups.summary scheme self, None)
    /\ forall testsuite,
         JUnit.Testsuite.Iterate scheme testsuite = ([], Some AssertionError).
Proof.
  intros scheme self Hpre Hpost Hempty. split.
  - unfold JUnit.TestsuiteSummary.Iterate.
    cbv zeta beta. rewrite !In_or, Hpre, Hpost, !andb_true_r.
    unfold Groups.summary. rewrite Hempty.
    destruct (IterationScheme.In IterationScheme.IncludeSelf scheme
              && IterationScheme.In IterationScheme.IncludeTestsuites scheme);
      reflexivity.
  - intros testsuite. unfold JUnit.Testsuite.Iterate. cbv zeta.
    rewrite In_or, Hpre, Hpost. reflexivity.
Qed.

Lemma Summary_Iterate_with_both_orders_witness :
  JUnit.TestsuiteSummary.Iterate
    (IterationScheme.or Sample.both_orders IterationScheme.IncludeSelf)
    SampleSummary.empty
  = ([JUnit.TestsuiteSummary.ESelf SampleSummary.empty;
      JUnit.TestsuiteSummary.ESelf SampleSummary.empty], None).
Proof.
  apply (Summary_Iterate_with_both_orders
           (IterationScheme.or Sample.both_orders IterationScheme.IncludeSelf)
           SampleSummary.empty); reflexivity.
Defined.

Section StoreFacts.
Context {V : Type}.

Lemma contains_delete (k : string) (d : dict V) :
  Py.contains k (PyMore.delete k d) = false.
Proof.
  unfold Py.contains.
  induction d as [|[k' v] d IH]; [reflexivity|].
  cbn. destruct (String.eqb k k') eqn:E; [exact IH|].
  cbn. now rewrite E.
Qed.

Lemma get_delete_other (k other : string) (d : dict V) :
  other <> k -> Py.get other (PyMore.delete k d) = Py.get other d.
Proof.
  intros Hne. induction d as [|[k' v] d IH]; [reflexivity|].
  cbn. destruct (String.eqb k k') eqn:E.
  - apply String.eqb_eq in E. subst k'.
    destruct (String.eqb other k) eqn:E'; [|exact IH].
    apply String.eqb_eq in E'. contradiction.
  - cbn. now rewrite IH.
Qed.

Lemma delete_absent (k : string) (d : dict V) :
  Py.get k d = None -> PyMore.delete k d = d.
Proof.
  induction d as [|[k' v] d IH]; [reflexivity|].
  cbn. destruct (String.eqb k k'); [discriminate|].
  intros H. now rewrite IH.
Qed.

Lemma delete_set_fresh (k : string) (v : V) (d : dict V) :
  Py.get k d = None -> PyMore.delete k (Py.set k v d) = d.
Proof.
  induction d as [|[k' v'] d IH]; cbn.
  - now rewrite String.eqb_refl.
  - destruct (String.eqb k k') eqn:E; [discriminate|].
    intros H. cbn. now rewrite E, IH.
Qed.

Lemma length_set (k : string) (v : V) (d : dict V) :
  List.length (Py.set k v d)
  = (List.length d + if Py.contains k d then 0 else 1)%nat.
Proof.
  unfold Py.contains.
  induction d as [|[k' v'] d IH]; [reflexivity|].
  cbn. destruct (String.eqb k k'); cbn; [lia|].
  rewrite IH. reflexivity.
Qed.

Lemma length_delete_le (k : string) (d : dict V) :
  (List.length (PyMore.delete k d) <= List.length d)%nat.
Proof.
  induction d as [|[k' v'] d IH]; cbn; [lia|].
  destruct (String.eqb k k'); cbn; lia.
Qed.

Lemma length_delete (k : string) (d : dict V) :
  Py.contains k d = true ->
  (List.length (PyMore.delete k d) < List.length d)%nat.
Proof.
  unfold Py.contains.
  induction d as [|[k' v'] d IH]; cbn; [discriminate|].
  destruct (String.eqb k k'); cbn.
  - intros _. pose proof (length_delete_le k d). lia.
  - intros H. specialize (IH H). lia.
Qed.

End StoreFacts.

(** X12: storing an annotation.  After [node[key] = value], [node[key]]
    returns [value] and [key in node] holds; every other key reads and tests
    as before; [len(node)] grows by one when the key is new and stays
    otherwise; a new key is iterated last, after the items that were there. *)
Theorem annotation_store_and_read :
  forall (Any : Type) (key : string) (value : Any) (self : @JUnitMore.Base.t Any),
    let self' := JUnitMore.Base.__setitem__ key value self in
    JUnitMore.Base.__getitem__ key self' = PyMore.Return value
    /\ JUnitMore.Base.__contains__ key self' = true
    /\ (forall other, other <> key ->
          JUnitMore.Base.__getitem__ other self'
          = JUnitMore.Base.__getitem__ other self
          /\ JUnitMore.Base.__contains__ other self'
             = JUnitMore.Base.__contains__ other self)
    /\ JUnitMore.Base.__len__ self'
       = (JUnitMore.Base.__len__ self
          + if JUnitMore.Base.__contains__ key self then 0 else 1)%Z
    /\ (JUnitMore.Base.__contains__ key self = false ->
          JUnitMore.Base.__iter__ self'
          = JUnitMore.Base.__iter__ self ++ [(key, value)]).
Proof.
  intros Any key value self. cbv zeta.
  unfold JUnitMore.Base.__getitem__, JUnitMore.Base.__contains__,
    JUnitMore.Base.__setitem__, JUnitMore.Base.__len__,
    JUnitMore.Base.__iter__, Py.contains. cbn.
  split; [now rewrite get_set_same|].
  split; [now rewrite get_set_same|].
  split.
  { intros other Hne. now rewrite !get_set_other by congruence. }
  split.
  { rewrite length_set. unfold Py.contains.
    destruct (Py.get key (JUnitMore.Base._dict self)); lia. }
  intros H. apply set_fresh.
  destruct (Py.get key (JUnitMore.Base._dict self)); [discriminate|reflexivity].
Qed.

(** X13: deleting an annotation.  [del node[key]] for a key the node does
    not hold raises [KeyError(key)] and leaves the node as it was.  For a key
    it holds the call returns; afterwards [key in node] is false,
    [node[key]] raises [KeyError(key)], [len(node)] is smaller and every
    other key reads as before.  Storing a new key and deleting it again gives
    back the node as it was. *)
Theorem annotation_delete :
  forall (Any : Type) (key : string) (self : @JUnitMore.Base.t Any),
    (JUnitMore.Base.__contains__ key self = false ->
       JUnitMore.Base.__delitem__ key self
       = (self, PyMore.Raise (PyMore.KeyError key))
       /\ JUnitMore.Base.__getitem__ key self
          = PyMore.Raise (PyMore.KeyError key))
    /\ (JUnitMore.Base.__contains__ key self = true ->
          exists self',
            JUnitMore.Base.__delitem__ key self = (self', PyMore.Return tt)
            /\ JUnitMore.Base.__contains__ key self' = false
            /\ JUnitMore.Base.__getitem__ key self'
               = PyMore.Raise (PyMore.KeyError key)
            /\ (JUnitMore.Base.__len__ self' < JUnitMore.Base.__len__ self)%Z
            /\ (forall other, other <> key ->
                  JUnitMore.Base.__getitem__ other self'
                  = JUnitMore.Base.__getitem__ other self))
    /\ (forall value,
          JUnitMore.Base.__contains__ key self = false ->
          JUnitMore.Base.__delitem__ key
            (JUnitMore.Base.__setitem__ key value self)
          = (self, PyMore.Return tt)).
Proof.
  intros Any key self.
  unfold JUnitMore.Base.__getitem__, JUnitMore.Base.__contains__,
    JUnitMore.Base.__setitem__, JUnitMore.Base.__len__,
    JUnitMore.Base.__delitem__.
  split; [|split].
  - intros H. rewrite H. split; [reflexivity|].
    unfold Py.contains in H.
    destruct (Py.get key (JUnitMore.Base._dict self)); [discriminate|reflexivity].
  - intros H. rewrite H. eexists. split; [reflexivity|]. cbn.
    pose proof (contains_delete key (JUnitMore.Base._dict self)) as Hc.
    split; [exact Hc|].
    split.
    { unfold Py.contains in Hc.
      destruct (Py.get key (PyMore.delete key (JUnitMore.Base._dict self)));
        [discriminate|reflexivity]. }
    split.
    { pose proof (length_delete key (JUnitMore.Base._dict self) H). lia. }
    intros other Hne. now rewrite get_delete_other.
  - intros value H. cbn. unfold Py.contains. rewrite get_set_same.
    unfold Py.contains in H.
    destruct (Py.get key (JUnitMore.Base._dict self)) eqn:E; [discriminate|].
    rewrite delete_set_fresh by exact E.
    destruct self; reflexivity.
Qed.

(** X14: a copy of a test case is detached and has lost its class name.
    [Testcase.Copy] returns a test case with the name, duration, status and
    assertion count of the original, without parent and with class name
    [None]; a test suite that holds no test case of that name accepts the
    copy, also when the original sits in a suite; the [testcase] element
    generated for the copy has no [classname] attribute, so [_ParseTestcase]
    raises [KeyError('classname')] on it and leaves its test suite alone. *)
Theorem Testcase_Copy_is_detached :
  forall (self : JUnit.Testcase.t),
    exists copy,
      JUnitMore.Testcase_Copy self = Return copy
      /\ JUnit.Testcase._parent copy = None
      /\ JUnit.Testcase._classname copy = None
      /\ JUnit.Testcase._name copy = JUnit.Testcase._name self
      /\ JUnit.Testcase._duration copy = JUnit.Testcase._duration self
      /\ JUnit.Testcase._status copy = JUnit.Testcase._status self
      /\ JUnit.Testcase._assertionCount copy
         = JUnit.Testcase._assertionCount self
      /\ (forall suite,
            Py.contains (JUnit.Testcase._name self)
                        (JUnit.Testsuite._testcases suite) = false ->
            exists suite',
              JUnit.Testsuite.AddTestcase copy suite = Return suite'
              /\ Py.get (JUnit.Testcase._name self)
                        (JUnit.Testsuite._testcases suite')
                 = Some (JUnit.Testcase.set_parent
                           (Some (JUnit.Testsuite._name suite)) copy)
              /\ JUnit.Testsuite.TestcaseCount suite'
                 = (JUnit.Testsuite.TestcaseCount suite + 1)%Z)
      /\ (forall text fromisoformat seconds parent element,
            In element (XmlView.testcase_element copy) ->
            JUnitMore.Parse._ParseTestcase text seconds parent element
            = (parent, PyMore.Raise (PyMore.KeyError "classname"))
            /\ JUnitMore.Parse._ParseTestsuite_loop text fromisoformat seconds
                 [element] parent
               = (parent, PyMore.Raise (PyMore.KeyError "classname"))).
Proof.
  intros self. eexists. split; [reflexivity|].
  do 6 (split; [reflexivity|]).
  split.
  - intros suite Hfresh. unfold JUnit.Testsuite.AddTestcase. cbn.
    rewrite Hfresh. eexists. split; [reflexivity|]. cbn.
    split; [now rewrite get_set_same|].
    unfold JUnit.Testsuite.TestcaseCount. cbn. rewrite length_set, Hfresh. lia.
  - intros text fromisoformat seconds parent element Hin.
    assert (Hcase :
      JUnitMore.Parse._ParseTestcase text seconds parent element
      = (parent, PyMore.Raise (PyMore.KeyError "classname"))).
    { unfold XmlView.testcase_element, JUnit.JUnitDocument._GenerateTestcase in Hin.
      cbn in Hin. destruct Hin as [<-|[]].
      unfold JUnitMore.Parse._ParseTestcase.
      destruct (JUnit.Testcase._duration self), (JUnit.Testcase._assertionCount self);
        reflexivity. }
    split; [exact Hcase|].
    assert (Htag : JUnitMore.Parse.tag element = "testcase").
    { unfold XmlView.testcase_element, JUnit.JUnitDocument._GenerateTestcase in Hin.
      cbn in Hin. destruct Hin as [<-|[]]. reflexivity. }
    cbn. rewrite Htag. cbn. now rewrite Hcase.
Qed.

(** X15: a copy of a test suite is empty.  [Testsuite.Copy] returns a test
    suite with the name, host name, start time, duration and status of the
    original, without parent, without test cases and with all five counters
    at zero, whatever the original holds; [Aggregate] on the copy returns
    five zeros and sets the status [Empty]; a summary that holds no test
    suite of that name accepts the copy. *)
Theorem Testsuite_Copy_is_empty :
  forall (self : JUnit.Testsuite.t),
    exists copy,
      JUnitMore.Testsuite_Copy self = Return copy
      /\ JUnit.Testsuite._parent copy = None
      /\ JUnit.Testsuite._name copy = JUnit.Testsuite._name self
      /\ JUnit.Testsuite._hostname copy = JUnit.Testsuite._hostname self
      /\ JUnit.Testsuite._startTime copy = JUnit.Testsuite._startTime self
      /\ JUnit.Testsuite._duration copy = JUnit.Testsuite._duration self
      /\ JUnit.Testsuite._status copy = JUnit.Testsuite._status self
      /\ JUnit.Testsuite.TestcaseCount copy = 0%Z
      /\ stored copy = (0, 0, 0, 0, 0)%Z
      /\ (forall strict,
            snd (JUnit.Testsuite.Aggregate strict copy)
            = Return (0, 0, 0, 0, 0)%Z
            /\ JUnit.Testsuite._status
                 (fst (JUnit.Testsuite.Aggregate strict copy))
               = TestsuiteStatus.Empty)
      /\ (forall summary,
            Py.contains (JUnit.Testsuite._name self)
                        (JUnit.TestsuiteSummary._testsuites summary) = false ->
            exists summary',
              JUnit.TestsuiteSummary.AddTestsuite copy summary = Return summary'
              /\ JUnit.TestsuiteSummary.TestsuiteCount summary'
                 = (JUnit.TestsuiteSummary.TestsuiteCount summary + 1)%Z).
Proof.
  intros self. eexists. split; [reflexivity|].
  do 8 (split; [reflexivity|]).
  split; [intros strict; split; reflexivity|].
  intros summary Hfresh. unfold JUnit.TestsuiteSummary.AddTestsuite. cbn.
  rewrite Hfresh. eexists. split; [reflexivity|].
  unfold JUnit.TestsuiteSummary.TestsuiteCount. cbn.
  rewrite length_set, Hfresh. lia.
Qed.

Section ParseFacts.
Import JUnit JUnitMore.
Variable text : Xml.value -> string.
Variable fromisoformat : Xml.value -> PyMore.result Z.
Variable seconds : Xml.value -> PyMore.result Z.

(** A [testsuite] element among the children stops the loop of
    [_ParseTestsuite] with an exception. *)
Lemma _ParseTestsuite_loop_nested (children : list Xml.Element)
    (child : Xml.Element) :
  In child children -> Parse.tag child = "testsuite" ->
  forall testsuite,
    exists testsuite' e,
      Parse._ParseTestsuite_loop text fromisoformat seconds children testsuite
      = (testsuite', PyMore.Raise e).
Proof.
  intros Hin Htag.
  induction children as [|node rest IH]; [destruct Hin|].
  intros testsuite. cbn [Parse._ParseTestsuite_loop].
  destruct (String.eqb (Parse.tag node) "testsuite") eqn:E.
  - eauto.
  - assert (Hrest : In child rest).
    { destruct Hin as [->|Hin]; [|exact Hin].
      rewrite Htag in E. discriminate. }
    destruct (String.eqb (Parse.tag node) "testcase").
    + destruct (Parse._ParseTestcase text seconds testsuite node) as [ts [u|e]].
      * apply IH, Hrest.
      * eauto.
    + apply IH, Hrest.
Qed.

Lemma _ParseTestsuite_nested_raises (node child : Xml.Element) :
  In child (Parse.iterchildren node) -> Parse.tag child = "testsuite" ->
  forall parent,
    exists parent' e,
      Parse._ParseTestsuite text fromisoformat seconds parent node
      = (parent', PyMore.Raise e).
Proof.
  intros Hin Htag parent. unfold Parse._ParseTestsuite.
  destruct (Parse._ParseTestsuite_header text fromisoformat seconds node)
    as [[[name startTime] duration]|e]; [|eauto].
  destruct (Py.get "hostname" (Parse.attrib node)) as [hostname|]; [|eauto].
  match goal with
  | |- context [Parse._ParseTestsuite_loop _ _ _ _ ?ts] =>
      destruct (_ParseTestsuite_loop_nested _ _ Hin Htag ts) as (ts' & e & ->)
  end.
  eauto.
Qed.

(** A [testsuite] element that cannot be read stops the loop of [Parse]. *)
Lemma Parse_loop_raises (children : list Xml.Element) (node : Xml.Element) :
  In node children -> Parse.tag node = "testsuite" ->
  (forall parent,
      exists parent' e,
        Parse._ParseTestsuite text fromisoformat seconds parent node
        = (parent', PyMore.Raise e)) ->
  forall self,
    exists self' e,
      Parse.Parse_loop text fromisoformat seconds children self
      = (self', PyMore.Raise e).
Proof.
  intros Hin Htag Hraises.
  induction children as [|head rest IH]; [destruct Hin|].
  intros self. cbn [Parse.Parse_loop].
  destruct Hin as [->|Hin].
  - rewrite Htag. cbn.
    destruct (Hraises self) as (self' & e & ->). eauto.
  - destruct (String.eqb (Parse.tag head) "testsuite"); [|apply IH, Hin].
    destruct (Parse._ParseTestsuite text fromisoformat seconds self head)
      as [self' [u|e]]; [apply IH, Hin|eauto].
Qed.

End ParseFacts.

(** X17: [Parse] needs a document that was read.  On a document object
    whose internal XML document is empty, [Parse] raises
    [UnittestException] and changes nothing.  This is also where a file ends
    that [Read] could not parse: [Read] returns normally on a syntax error
    in the document, leaves the internal XML document empty, and the [Parse]
    that follows raises. *)
Theorem Parse_needs_a_read_document :
  forall text fromisoformat seconds startConversion endConversation self,
    JUnit.JUnitDocument._xmlDocument self = None ->
    (exists msg,
        JUnitMore.Parse.Parse text fromisoformat seconds startConversion
          endConversation self
        = (self, PyMore.Raise (PyMore.Known (UnittestException msg))))
    /\ (forall fs startAnalysis endAnalysis,
          Py.contains (JUnit.JUnitDocument._path self) fs = true ->
          exists self' msg,
            JUnit.JUnitDocument.Read fs JUnit.JUnitDocument.DocumentSyntaxError
              startAnalysis endAnalysis self
            = (self', Return tt)
            /\ JUnitMore.Parse.Parse text fromisoformat seconds startConversion
                 endConversation self'
               = (self', PyMore.Raise (PyMore.Known (UnittestException msg)))).
Proof.
  intros text fromisoformat seconds startConversion endConversation self Hnone.
  split.
  - unfold JUnitMore.Parse.Parse. rewrite Hnone. eauto.
  - intros fs startAnalysis endAnalysis Hfile.
    unfold JUnit.JUnitDocument.Read. rewrite Hfile. cbn [negb].
    do 2 eexists. split; [reflexivity|].
    unfold JUnitMore.Parse.Parse. cbn. rewrite Hnone. reflexivity.
Qed.

Lemma Parse_needs_a_read_document_witness :
  JUnit.JUnitDocument._xmlDocument (JUnit.JUnitDocument.__init__ "report.xml")
  = None
  /\ exists msg,
       JUnitMore.Parse.Parse SampleParse.text SampleParse.fromisoformat
         SampleParse.seconds 0 5 (JUnit.JUnitDocument.__init__ "report.xml")
       = (JUnit.JUnitDocument.__init__ "report.xml",
          PyMore.Raise (PyMore.Known (UnittestException msg))).
Proof.
  split; [reflexivity|].
  apply (Parse_needs_a_read_document SampleParse.text SampleParse.fromisoformat
           SampleParse.seconds 0 5 (JUnit.JUnitDocument.__init__ "report.xml")).
  reflexivity.
Defined.

(** X18: a [testsuite] element without [hostname] cannot be read.
    [_ParseTestsuite] raises on it and leaves the parent as it was; when
    name, time stamp and time can be read the exception is the [TypeError]
    of the constructor call that lacks the positional argument; in the loop
    of [Parse] the exception ends the loop, whatever follows the element. *)
Theorem ParseTestsuite_needs_hostname :
  forall text fromisoformat seconds parent node,
    Py.contains "hostname" (JUnitMore.Parse.attrib node) = false ->
    exists e,
      JUnitMore.Parse._ParseTestsuite text fromisoformat seconds parent node
      = (parent, PyMore.Raise e)
      /\ (forall header,
            JUnitMore.Parse._ParseTestsuite_header text fromisoformat seconds node
            = PyMore.Return header ->
            e = PyMore.Known
                  (TypeError
                     "Testsuite.__init__() missing 1 required positional argument: 'hostname'"))
      /\ (JUnitMore.Parse.tag node = "testsuite" ->
          forall rest,
            JUnitMore.Parse.Parse_loop text fromisoformat seconds (node :: rest)
              parent
            = (parent, PyMore.Raise e)).
Proof.
  intros text fromisoformat seconds parent node Hhost.
  apply contains_false_get in Hhost.
  assert (H : exists e,
      JUnitMore.Parse._ParseTestsuite text fromisoformat seconds parent node
      = (parent, PyMore.Raise e)
      /\ (forall header,
            JUnitMore.Parse._ParseTestsuite_header text fromisoformat seconds node
            = PyMore.Return header ->
            e = PyMore.Known
                  (TypeError
                     "Testsuite.__init__() missing 1 required positional argument: 'hostname'"))).
  { unfold JUnitMore.Parse._ParseTestsuite.
    destruct (JUnitMore.Parse._ParseTestsuite_header text fromisoformat seconds node)
      as [[[name startTime] duration]|e].
    - rewrite Hhost. eexists. split; [reflexivity|]. reflexivity.
    - exists e. split; [reflexivity|]. discriminate. }
  destruct H as (e & Heq & Hheader).
  exists e. split; [exact Heq|]. split; [exact Hheader|].
  intros Htag rest. cbn [JUnitMore.Parse.Parse_loop].
  rewrite Htag, Heq. reflexivity.
Qed.

Lemma ParseTestsuite_needs_hostname_witness :
  Py.contains "hostname" (JUnitMore.Parse.attrib SampleParse.anonymous) = false
  /\ exists e,
       JUnitMore.Parse._ParseTestsuite SampleParse.text
         SampleParse.fromisoformat SampleParse.seconds Sample.summary
         SampleParse.anonymous
       = (Sample.summary, PyMore.Raise e).
Proof.
  split; [reflexivity|].
  destruct (ParseTestsuite_needs_hostname SampleParse.text
              SampleParse.fromisoformat SampleParse.seconds Sample.summary
              SampleParse.anonymous) as (e & Heq & _).
  - reflexivity.
  - exists e. exact Heq.
Defined.

(** X19: a report with a test suite inside a test suite cannot be parsed.
    When a [testsuite] child of the root has itself a [testsuite] child,
    [Parse] raises, whatever else the document holds; the document object
    keeps its XML document and gets no conversion time. *)
Theorem Parse_refuses_nested_testsuites :
  forall text fromisoformat seconds startConversion endConversation self root
         outer inner,
    JUnit.JUnitDocument._xmlDocument self = Some root ->
    In outer (JUnitMore.Parse.iterchildren root) ->
    JUnitMore.Parse.tag outer = "testsuite" ->
    In inner (JUnitMore.Parse.iterchildren outer) ->
    JUnitMore.Parse.tag inner = "testsuite" ->
    exists self' e,
      JUnitMore.Parse.Parse text fromisoformat seconds startConversion
        endConversation self
      = (self', PyMore.Raise e)
      /\ JUnit.JUnitDocument._xmlDocument self' = Some root
      /\ JUnit.JUnitDocument._modelConversion self'
         = JUnit.JUnitDocument._modelConversion self.
Proof.
  intros text fromisoformat seconds startConversion endConversation self root
         outer inner Hroot Houter Houter_tag Hinner Hinner_tag.
  unfold JUnitMore.Parse.Parse. rewrite Hroot.
  destruct (JUnitMore.Parse.optional fromisoformat "timestamp" root)
    as [startTime|e].
  2: { do 2 eexists. split; [reflexivity|]. split; [exact Hroot|reflexivity]. }
  destruct (JUnitMore.Parse.optional seconds "time" root) as [duration|e].
  2: { do 2 eexists. split; [reflexivity|]. split; [exact Hroot|reflexivity]. }
  match goal with
  | |- context [JUnitMore.Parse.Parse_loop _ _ _ _ ?s] =>
      destruct (Parse_loop_raises text fromisoformat seconds
                  (JUnitMore.Parse.iterchildren root) outer Houter Houter_tag
                  (_ParseTestsuite_nested_raises text fromisoformat seconds
                     outer inner Hinner Hinner_tag) s) as (s' & e & ->)
  end.
  do 2 eexists. split; [reflexivity|]. split; [exact Hroot|reflexivity].
Qed.

Lemma Parse_refuses_nested_testsuites_witness :
  exists self' e,
    JUnitMore.Parse.Parse SampleParse.text SampleParse.fromisoformat
      SampleParse.seconds 0 5 (SampleParse.read SampleParse.nested)
    = (self', PyMore.Raise e)
    /\ JUnit.JUnitDocument._xmlDocument self' = Some SampleParse.nested
    /\ JUnit.JUnitDocument._modelConversion self'
       = JUnit.JUnitDocument._modelConversion
           (SampleParse.read SampleParse.nested).
Proof.
  apply (Parse_refuses_nested_testsuites SampleParse.text
           SampleParse.fromisoformat SampleParse.seconds 0 5
           (SampleParse.read SampleParse.nested) SampleParse.nested
           SampleParse.outer SampleParse.inner).
  - reflexivity.
  - cbn. left. reflexivity.
  - reflexivity.
  - cbn. right. left. reflexivity.
  - reflexivity.
Defined.

Section ParseInvariant.
Import JUnit JUnitMore.
Variable text : Xml.value -> string.
Variable fromisoformat : Xml.value -> PyMore.result Z.
Variable seconds : Xml.value -> PyMore.result Z.

(** The loop over the children of a [testcase] element leaves the status it
    found or one of the three it sets. *)
Lemma _ParseTestcase_loop_status (children : list Xml.Element) :
  forall status,
    let status' := fst (Parse._ParseTestcase_loop children status) in
    status' = status \/ status' = TestcaseStatus.Skipped
    \/ status' = TestcaseStatus.Failed \/ status' = TestcaseStatus.Errored.
Proof.
  induction children as [|node rest IH]; intros status; cbv zeta;
    [left; reflexivity|].
  cbn [Parse._ParseTestcase_loop].
  repeat match goal with
         | |- context [if String.eqb ?a ?b then _ else _] =>
             destruct (String.eqb a b)
         end;
    try (left; reflexivity);
    match goal with
    | |- context [Parse._ParseTestcase_loop rest ?s] =>
        pose proof (IH s) as H; cbv zeta in H; tauto
    end.
Qed.

(** What [_ParseTestcase] has done when it returns. *)
Lemma _ParseTestcase_returns (parent parent' : Testsuite.t)
    (node : Xml.Element) (u : unit) :
  Parse._ParseTestcase text seconds parent node = (parent', PyMore.Return u) ->
  exists key testcase,
    parent'
    = Testsuite.set_testcases
        (Py.set key testcase (Testsuite._testcases parent)) parent
    /\ Reparsed.read_testcase (Testsuite._name parent) (key, testcase).
Proof.
  unfold Parse._ParseTestcase.
  destruct (Py.get "name" (Parse.attrib node)) as [name|]; [|discriminate].
  destruct (Py.get "classname" (Parse.attrib node)) as [className|];
    [|discriminate].
  destruct (Py.get "time" (Parse.attrib node)) as [time|]; [|discriminate].
  destruct (seconds time) as [duration|e]; [|discriminate].
  cbn [Testcase._status].
  pose proof (_ParseTestcase_loop_status (Parse.iterchildren node)
                TestcaseStatus.Unknown) as Hstatus.
  cbv zeta in Hstatus.
  destruct (Parse._ParseTestcase_loop (Parse.iterchildren node)
              TestcaseStatus.Unknown) as [status [u'|e]]; [|discriminate].
  cbn [fst] in Hstatus.
  intros H. injection H as <- _.
  do 2 eexists. split; [reflexivity|].
  unfold Reparsed.read_testcase, Reparsed.terminal. cbn.
  repeat split; try discriminate.
  destruct Hstatus as [-> | [-> | [-> | ->]]]; cbn; tauto.
Qed.

(** What the loop of [_ParseTestsuite] has done when it returns. *)
Lemma _ParseTestsuite_loop_returns (children : list Xml.Element) :
  forall (testsuite testsuite' : Testsuite.t) (u : unit),
    Parse._ParseTestsuite_loop text fromisoformat seconds children testsuite
    = (testsuite', PyMore.Return u) ->
    Forall (Reparsed.read_testcase (Testsuite._name testsuite))
           (Testsuite._testcases testsuite) ->
    exists testcases,
      testsuite' = Testsuite.set_testcases testcases testsuite
      /\ Forall (Reparsed.read_testcase (Testsuite._name testsuite)) testcases.
Proof.
  induction children as [|node rest IH]; intros testsuite testsuite' u.
  - cbn. intros H Hall. injection H as <-.
    exists (Testsuite._testcases testsuite). split; [|exact Hall].
    destruct testsuite; reflexivity.
  - cbn [Parse._ParseTestsuite_loop].
    destruct (String.eqb (Parse.tag node) "testsuite"); [discriminate|].
    destruct (String.eqb (Parse.tag node) "testcase"); [|apply IH].
    destruct (Parse._ParseTestcase text seconds testsuite node)
      as [next [u'|e]] eqn:Hcase; [|discriminate].
    intros Hloop Hall.
    destruct (_ParseTestcase_returns _ _ _ _ Hcase)
      as (key & testcase & -> & Hread).
    destruct (IH _ _ _ Hloop) as (testcases & -> & Hcases).
    + cbn. apply Forall_set; assumption.
    + exists testcases. split; [reflexivity|exact Hcases].
Qed.

(** What [_ParseTestsuite] has done when it returns. *)
Lemma _ParseTestsuite_returns (parent parent' : TestsuiteSummary.t)
    (node : Xml.Element) (u : unit) :
  Parse._ParseTestsuite text fromisoformat seconds parent node
  = (parent', PyMore.Return u) ->
  exists key testsuite,
    parent'
    = TestsuiteSummary.set_testsuites
        (Py.set key testsuite (TestsuiteSummary._testsuites parent)) parent
    /\ Reparsed.read_testsuite (TestsuiteSummary._name parent) (key, testsuite).
Proof.
  unfold Parse._ParseTestsuite.
  destruct (Parse._ParseTestsuite_header text fromisoformat seconds node)
    as [[[name startTime] duration]|e]; [|discriminate].
  destruct (Py.get "hostname" (Parse.attrib node)) as [hostname|];
    [|discriminate].
  match goal with
  | |- context [Parse._ParseTestsuite_loop _ _ _ _ ?ts] =>
      destruct (Parse._ParseTestsuite_loop text fromisoformat seconds
                  (Parse.iterchildren node) ts) as [testsuite [u'|e]] eqn:Hloop;
        [|discriminate]
  end.
  intros H. injection H as <- _.
  destruct (_ParseTestsuite_loop_returns _ _ _ _ Hloop) as (testcases & -> & Hcases);
    [constructor|].
  do 2 eexists. split; [reflexivity|].
  unfold Reparsed.read_testsuite. cbn.
  repeat split; try discriminate. exact Hcases.
Qed.

(** What the loop of [Parse] has done when it returns. *)
Lemma Parse_loop_returns (children : list Xml.Element) :
  forall (self self' : TestsuiteSummary.t) (u : unit),
    Parse.Parse_loop text fromisoformat seconds children self
    = (self', PyMore.Return u) ->
    Forall (Reparsed.read_testsuite (TestsuiteSummary._name self))
           (TestsuiteSummary._testsuites self) ->
    exists testsuites,
      self' = TestsuiteSummary.set_testsuites testsuites self
      /\ Forall (Reparsed.read_testsuite (TestsuiteSummary._name self))
                testsuites.
Proof.
  induction children as [|node rest IH]; intros self self' u.
  - cbn. intros H Hall. injection H as <-.
    exists (TestsuiteSummary._testsuites self). split; [|exact Hall].
    destruct self; reflexivity.
  - cbn [Parse.Parse_loop].
    destruct (String.eqb (Parse.tag node) "testsuite"); [|apply IH].
    destruct (Parse._ParseTestsuite text fromisoformat seconds self node)
      as [next [u'|e]] eqn:Hsuite; [|discriminate].
    intros Hloop Hall.
    destruct (_ParseTestsuite_returns _ _ _ _ Hsuite)
      as (key & testsuite & -> & Hread).
    destruct (IH _ _ _ Hloop) as (testsuites & -> & Hsuites).
    + cbn. apply Forall_set; assumption.
    + exists testsuites. split; [reflexivity|exact Hsuites].
Qed.

End ParseInvariant.

(** X20: what a parsed report looks like.  When [Parse] returns on a
    document object that held no test suites, the summary has all five
    counters at zero and the status [Empty], whatever the report says; every
    test suite it holds is stored under its name, has the summary as parent,
    a host name, the status [Unknown] and zero counters;
    every test case is stored under its name, has its suite as parent, a
    class name and a duration, no assertion count, and one of the statuses
    [Passed], [Skipped], [Failed], [Errored]. *)
Theorem Parse_result :
  forall text fromisoformat seconds startConversion endConversation self self',
    JUnit.TestsuiteSummary._testsuites (JUnit.JUnitDocument.summary self) = [] ->
    JUnitMore.Parse.Parse text fromisoformat seconds startConversion
      endConversation self
    = (self', PyMore.Return tt) ->
    stored_summary (JUnit.JUnitDocument.summary self') = (0, 0, 0, 0, 0)%Z
    /\ JUnit.TestsuiteSummary._status (JUnit.JUnitDocument.summary self')
       = TestsuiteStatus.Empty
    /\ JUnit.JUnitDocument._modelConversion self'
       = Some (endConversation - startConversion)%Z
    /\ JUnit.JUnitDocument._xmlDocument self'
       = JUnit.JUnitDocument._xmlDocument self
    /\ Forall
         (Reparsed.read_testsuite
            (JUnit.TestsuiteSummary._name (JUnit.JUnitDocument.summary self')))
         (JUnit.TestsuiteSummary._testsuites (JUnit.JUnitDocument.summary self')).
Proof.
  intros text fromisoformat seconds startConversion endConversation self self'
         Hempty.
  unfold JUnitMore.Parse.Parse.
  destruct (JUnit.JUnitDocument._xmlDocument self) as [root|] eqn:Hroot;
    [|discriminate].
  destruct (JUnitMore.Parse.optional fromisoformat "timestamp" root)
    as [startTime|e]; [|discriminate].
  destruct (JUnitMore.Parse.optional seconds "time" root) as [duration|e];
    [|discriminate].
  match goal with
  | |- context [JUnitMore.Parse.Parse_loop _ _ _ _ ?s] =>
      destruct (JUnitMore.Parse.Parse_loop text fromisoformat seconds
                  (JUnitMore.Parse.iterchildren root) s)
        as [parsed [u|e]] eqn:Hloop; [|discriminate]
  end.
  intros H. injection H as <-.
  destruct (Parse_loop_returns _ _ _ _ _ _ _ Hloop) as (testsuites & -> & Hall).
  { cbn. rewrite Hempty. constructor. }
  cbn. repeat split; [exact Hroot|exact Hall].
Qed.

Lemma Parse_result_witness :
  exists self',
    JUnitMore.Parse.Parse SampleParse.text SampleParse.fromisoformat
      SampleParse.seconds 0 5 (SampleParse.read SampleParse.failing)
    = (self', PyMore.Return tt)
    /\ stored_summary (JUnit.JUnitDocument.summary self') = (0, 0, 0, 0, 0)%Z
    /\ JUnit.TestsuiteSummary._status (JUnit.JUnitDocument.summary self')
       = TestsuiteStatus.Empty
    /\ JUnit.TestsuiteSummary.TestcaseCount (JUnit.JUnitDocument.summary self')
       = 2%Z.
Proof.
  eexists. split; [vm_compute; reflexivity|].
  split; [|split; [|vm_compute; reflexivity]].
  - apply (Parse_result SampleParse.text SampleParse.fromisoformat
             SampleParse.seconds 0 5 (SampleParse.read SampleParse.failing));
      vm_compute; reflexivity.
  - apply (Parse_result SampleParse.text SampleParse.fromisoformat
             SampleParse.seconds 0 5 (SampleParse.read SampleParse.failing));
      vm_compute; reflexivity.
Defined.

Section WriteThenRead.
Import JUnit JUnitMore.
Variable text : Xml.value -> string.
Variable fromisoformat : Xml.value -> PyMore.result Z.
Variable seconds : Xml.value -> PyMore.result Z.
Hypothesis readers : Reparsed.inverse text fromisoformat seconds.

Lemma set_middle {V : Type} (k : string) (v v0 : V) (d1 d2 : dict V) :
  ~ In k (Py.keys d1) ->
  Py.set k v (d1 ++ (k, v0) :: d2) = d1 ++ (k, v) :: d2.
Proof.
  intros Hfresh. induction d1 as [|[k' v'] d1 IH]; cbn.
  - now rewrite String.eqb_refl.
  - destruct (String.eqb k k') eqn:E.
    + apply String.eqb_eq in E. subst k'. exfalso. apply Hfresh. now left.
    + rewrite IH; [reflexivity|]. intros Hin. apply Hfresh. now right.
Qed.

(** The element of a test case with class name and duration reads back as
    the test case, its status normalised and its assertion count lost. *)
Lemma _ParseTestcase_generated (parent : Testsuite.t) (testcase : Testcase.t) :
  Testcase._classname testcase <> None ->
  Testcase._duration testcase <> None ->
  exists element,
    XmlView.testcase_element testcase = [element]
    /\ Parse.tag element = "testcase"
    /\ Parse._ParseTestcase text seconds parent element
       = (Testsuite.set_testcases
            (Py.set (Testcase._name testcase)
                    (Reparsed.testcase (Testsuite._name parent) testcase)
                    (Testsuite._testcases parent)) parent,
          PyMore.Return tt).
Proof.
  destruct readers as (Htext & _ & Hseconds).
  destruct testcase as [p name duration assertionCount classname status].
  cbn [Testcase._classname Testcase._duration].
  intros Hclass Hduration.
  destruct classname as [classname|]; [|contradiction].
  destruct duration as [duration|]; [|contradiction].
  eexists. split; [reflexivity|]. split; [reflexivity|].
  unfold Parse._ParseTestcase, Reparsed.testcase, Reparsed.status.
  cbn [Testcase._name Testcase._duration Testcase._classname Testcase._status
       Testcase._assertionCount option_map JUnitDocument.attr_optional].
  destruct assertionCount as [assertionCount|];
    cbn [Parse.attrib Parse.iterchildren option_map JUnitDocument.attr_optional
         Py.set Py.get String.eqb Ascii.eqb Bool.eqb];
    rewrite Hseconds, !Htext;
    destruct (TestcaseStatus.is_ status TestcaseStatus.Passed);
    [reflexivity| |reflexivity|];
    (destruct (TestcaseStatus.is_ status TestcaseStatus.Failed);
     [reflexivity|]);
    (destruct (TestcaseStatus.is_ status TestcaseStatus.Skipped);
     reflexivity).
Qed.

(** The elements of the test cases of a map read back in order. *)
Lemma _ParseTestsuite_loop_generated (todo : dict Testcase.t) :
  forall (done : dict Testcase.t) (testsuite : Testsuite.t),
    Testsuite._testcases testsuite = done ->
    NoDup (Py.keys (done ++ todo)) ->
    Forall (fun e => fst e = Testcase._name (snd e)) todo ->
    Forall (fun c => Testcase._classname (snd c) <> None
                     /\ Testcase._duration (snd c) <> None) todo ->
    Parse._ParseTestsuite_loop text fromisoformat seconds
      (flat_map XmlView.testcase_element (Py.values todo)) testsuite
    = (Testsuite.set_testcases
         (done
          ++ map (fun e => (fst e,
                            Reparsed.testcase (Testsuite._name testsuite) (snd e)))
                 todo)
         testsuite,
       PyMore.Return tt).
Proof.
  induction todo as [|[key testcase] todo IH];
    intros done testsuite Hdone Hnodup Hkeys Hall.
  - cbn. rewrite app_nil_r, <- Hdone. destruct testsuite; reflexivity.
  - inversion Hkeys as [|? ? Hkey Hkeys']; subst.
    inversion Hall as [|? ? [Hclass Hduration] Hall']; subst.
    cbn [fst snd] in Hkey, Hclass, Hduration. subst key.
    destruct (_ParseTestcase_generated testsuite testcase Hclass Hduration)
      as (element & Helement & Htag & Hparse).
    cbn [Py.values map flat_map snd]. fold (Py.values todo).
    rewrite Helement. cbn [app Parse._ParseTestsuite_loop].
    rewrite Htag. cbn [String.eqb Ascii.eqb Bool.eqb]. rewrite Hparse.
    assert (Hfresh :
      Py.get (Testcase._name testcase) (Testsuite._testcases testsuite) = None).
    { apply get_None_not_In. unfold Py.keys in *. rewrite map_app in Hnodup.
      cbn in Hnodup. apply NoDup_remove_2 in Hnodup.
      intros Hin. apply Hnodup. apply in_or_app. now left. }
    rewrite (set_fresh _ _ _ Hfresh).
    rewrite (IH (Testsuite._testcases testsuite
                 ++ [(Testcase._name testcase,
                      Reparsed.testcase (Testsuite._name testsuite) testcase)])).
    + cbn. rewrite <- app_assoc. destruct testsuite; reflexivity.
    + reflexivity.
    + rewrite <- app_assoc. unfold Py.keys in *. rewrite !map_app in *.
      exact Hnodup.
    + exact Hkeys'.
    + exact Hall'.
Qed.

(** The element of a test suite with host name reads back as the test
    suite, replacing the entry under its name. *)
Lemma _ParseTestsuite_generated (parent : TestsuiteSummary.t)
    (testsuite : Testsuite.t) :
  Testsuite._hostname testsuite <> None ->
  Reparsed.keyed Testcase._name (Testsuite._testcases testsuite) ->
  Forall (fun c => Testcase._classname (snd c) <> None
                   /\ Testcase._duration (snd c) <> None)
         (Testsuite._testcases testsuite) ->
  exists element,
    XmlView.testsuite_element testsuite = [element]
    /\ Parse.tag element = "testsuite"
    /\ Parse._ParseTestsuite text fromisoformat seconds parent element
       = (TestsuiteSummary.set_testsuites
            (Py.set (Testsuite._name testsuite)
                    (Reparsed.testsuite (TestsuiteSummary._name parent) testsuite)
                    (TestsuiteSummary._testsuites parent)) parent,
          PyMore.Return tt).
Proof.
  destruct readers as (Htext & Hfromisoformat & Hseconds).
  intros Hhost [Hnodup Hkeys] Hall.
  unfold XmlView.testsuite_element, JUnitDocument._GenerateTestsuite.
  rewrite (fold_left_SubElement XmlView.testcase_element
             JUnitDocument._GenerateTestcase)
    by apply _GenerateTestcase_appends.
  eexists. split; [reflexivity|]. split; [reflexivity|].
  unfold Parse._ParseTestsuite, Parse._ParseTestsuite_header, Parse.optional.
  destruct testsuite as [p name duration startTime status tests skipped errored
                           failed passed hostname testcases].
  cbn [Testsuite._name Testsuite._duration Testsuite._startTime
       Testsuite._tests Testsuite._failed Testsuite._errored Testsuite._skipped
       Testsuite._hostname Testsuite._testcases] in *.
  destruct hostname as [hostname|]; [|contradiction].
  pose proof (fun ts H =>
                _ParseTestsuite_loop_generated testcases [] ts H Hnodup Hkeys Hall)
    as Hloop.
  destruct startTime as [startTime|], duration as [duration|];
    cbn [Parse.attrib Parse.iterchildren option_map JUnitDocument.attr_optional
         Py.set Py.get String.eqb Ascii.eqb Bool.eqb app];
    rewrite ?Hfromisoformat, ?Hseconds, !Htext;
    rewrite Hloop by reflexivity; reflexivity.
Qed.

(** The elements of the test suites of a map read back in order, each
    replacing the entry it was generated from. *)
Lemma Parse_loop_generated (todo : dict Testsuite.t) :
  forall (done : dict Testsuite.t) (self : TestsuiteSummary.t),
    TestsuiteSummary._testsuites self = done ++ todo ->
    NoDup (Py.keys (done ++ todo)) ->
    Forall (fun e => fst e = Testsuite._name (snd e)) todo ->
    Forall
      (fun e =>
         Testsuite._hostname (snd e) <> None
         /\ Reparsed.keyed Testcase._name (Testsuite._testcases (snd e))
         /\ Forall
              (fun c => Testcase._classname (snd c) <> None
                        /\ Testcase._duration (snd c) <> None)
              (Testsuite._testcases (snd e)))
      todo ->
    Parse.Parse_loop text fromisoformat seconds
      (flat_map XmlView.testsuite_element (Py.values todo)) self
    = (TestsuiteSummary.set_testsuites
         (done
          ++ map (fun e => (fst e,
                            Reparsed.testsuite (TestsuiteSummary._name self)
                                               (snd e)))
                 todo)
         self,
       PyMore.Return tt).
Proof.
  induction todo as [|[key testsuite] todo IH];
    intros done self Hself Hnodup Hkeys Hall.
  - cbn. rewrite app_nil_r in *. rewrite <- Hself. destruct self; reflexivity.
  - inversion Hkeys as [|? ? Hkey Hkeys']; subst.
    inversion Hall as [|? ? (Hhost & Hkeyed & Hcases) Hall']; subst.
    cbn [fst snd] in Hkey, Hhost, Hkeyed, Hcases. subst key.
    destruct (_ParseTestsuite_generated self testsuite Hhost Hkeyed Hcases)
      as (element & Helement & Htag & Hparse).
    cbn [Py.values map flat_map snd]. fold (Py.values todo).
    rewrite Helement. cbn [app Parse.Parse_loop].
    rewrite Htag. cbn [String.eqb Ascii.eqb Bool.eqb]. rewrite Hparse.
    assert (Hfresh : ~ In (Testsuite._name testsuite) (Py.keys done)).
    { unfold Py.keys in *. rewrite map_app in Hnodup.
      cbn in Hnodup. apply NoDup_remove_2 in Hnodup.
      intros Hin. apply Hnodup. apply in_or_app. now left. }
    rewrite Hself, (set_middle _ _ _ _ _ Hfresh).
    rewrite (IH (done
                 ++ [(Testsuite._name testsuite,
                      Reparsed.testsuite (TestsuiteSummary._name self)
                                         testsuite)])).
    + cbn. rewrite <- app_assoc. destruct self; reflexivity.
    + cbn. rewrite <- app_assoc. reflexivity.
    + rewrite <- app_assoc. cbn.
      unfold Py.keys in *. rewrite map_app in *. exact Hnodup.
    + exact Hkeys'.
    + exact Hall'.
Qed.

End WriteThenRead.

(** X21: writing and reading back.  For a document object built in memory
    whose summary is complete (a host name on every test suite, a class name
    and a duration on every test case, every object stored under its name)
    and readers that give back what was rendered, [Generate] returns and
    [Parse] on its result returns too.  The names, time stamps, durations,
    host names, class names and the order of test suites and test cases come
    back; what does not come back: the counters are zero and the status
    [Unknown] on every test suite, the summary is [Empty], assertion counts
    are gone, and a test case status other than [Passed], [Failed] and
    [Skipped] has become [Errored]. *)
Theorem Generate_then_Parse :
  forall text fromisoformat seconds overwrite startConversion endConversation
         self,
    Reparsed.inverse text fromisoformat seconds ->
    JUnit.JUnitDocument._xmlDocument self = None ->
    Reparsed.complete (JUnit.JUnitDocument.summary self) ->
    exists root,
      JUnit.JUnitDocument.Generate overwrite self
      = (JUnit.JUnitDocument.set_xmlDocument (Some root) self, Return tt)
      /\ JUnitMore.Parse.Parse text fromisoformat seconds startConversion
           endConversation
           (JUnit.JUnitDocument.set_xmlDocument (Some root) self)
         = (JUnit.JUnitDocument.mk
              (Reparsed.summary (JUnit.JUnitDocument.summary self))
              (JUnit.JUnitDocument._path self) (Some root)
              (JUnit.JUnitDocument._analysisDuration self)
              (Some (endConversation - startConversion)%Z),
            PyMore.Return tt).
Proof.
  intros text fromisoformat seconds overwrite startConversion endConversation
         self Hreaders Hnone [[Hnodup Hkeys] Hall].
  unfold JUnit.JUnitDocument.Generate. rewrite Hnone.
  rewrite (fold_left_SubElement XmlView.testsuite_element
             JUnit.JUnitDocument._GenerateTestsuite)
    by apply _GenerateTestsuite_appends.
  eexists. split; [reflexivity|].
  pose proof (fun s H =>
                Parse_loop_generated text fromisoformat seconds Hreaders
                  (JUnit.TestsuiteSummary._testsuites
                     (JUnit.JUnitDocument.summary self))
                  [] s H Hnodup Hkeys Hall) as Hloop.
  destruct Hreaders as (Htext & Hfromisoformat & Hseconds).
  unfold JUnitMore.Parse.Parse, JUnitMore.Parse.optional.
  destruct self as [[name duration startTime status tests skipped errored
                       failed passed testsuites] path xml analysis conversion].
  cbn [JUnit.JUnitDocument.summary JUnit.JUnitDocument._xmlDocument
       JUnit.JUnitDocument.set_xmlDocument JUnit.JUnitDocument._path
       JUnit.JUnitDocument._analysisDuration JUnit.JUnitDocument._modelConversion
       JUnit.TestsuiteSummary._name JUnit.TestsuiteSummary._duration
       JUnit.TestsuiteSummary._startTime JUnit.TestsuiteSummary._tests
       JUnit.TestsuiteSummary._failed JUnit.TestsuiteSummary._errored
       JUnit.TestsuiteSummary._skipped JUnit.TestsuiteSummary._testsuites] in *.
  destruct startTime as [startTime|], duration as [duration|];
    cbn [JUnitMore.Parse.attrib JUnitMore.Parse.iterchildren option_map
         JUnit.JUnitDocument.attr_optional
         Py.set Py.get String.eqb Ascii.eqb Bool.eqb app];
    rewrite ?Hfromisoformat, ?Hseconds, !Htext;
    rewrite Hloop by reflexivity; reflexivity.
Qed.

Lemma Generate_then_Parse_witness :
  exists root,
    JUnit.JUnitDocument.Generate false SampleParse.written
    = (JUnit.JUnitDocument.set_xmlDocument (Some root) SampleParse.written,
       Return tt)
    /\ JUnitMore.Parse.Parse SampleParse.text SampleParse.fromisoformat
         SampleParse.seconds 0 5
         (JUnit.JUnitDocument.set_xmlDocument (Some root) SampleParse.written)
       = (JUnit.JUnitDocument.mk
            (Reparsed.summary (JUnit.JUnitDocument.summary SampleParse.written))
            (JUnit.JUnitDocument._path SampleParse.written) (Some root)
            (JUnit.JUnitDocument._analysisDuration SampleParse.written)
            (Some (5 - 0)%Z),
          PyMore.Return tt).
Proof.
  apply (Generate_then_Parse SampleParse.text SampleParse.fromisoformat
           SampleParse.seconds false 0 5 SampleParse.written).
  - repeat split.
  - reflexivity.
  - unfold Reparsed.complete, Reparsed.keyed. cbn.
    repeat (split || constructor || discriminate
            || (cbn; intros H;
                repeat (destruct H as [H|H]; [discriminate H|]); destruct H)).
Defined.

Section TestclassFacts.
Import GoogleTestJUnit.

Lemma NoDup_map_pair {A B : Type} (a : A) (l : list B) :
  NoDup l -> NoDup (map (pair a) l).
Proof.
  induction 1 as [|b l Hb Hl IH]; cbn; constructor; [|exact IH].
  rewrite in_map_iff. intros (x & Heq & Hin).
  injection Heq as ->. contradiction.
Qed.

Lemma names_class_content (testclass : Testclass.t) :
  Forall (fun c => Testcase._name (snd c) = fst c)
         (Testclass._testcases testclass) ->
  Classname.names (Classname.class_content testclass)
  = map (pair (Testclass._name testclass))
        (Py.keys (Testclass._testcases testclass)).
Proof.
  intros Hnames. unfold Classname.names, Classname.class_content, Py.keys.
  rewrite !map_map. apply map_ext_in. intros c Hc. cbn.
  rewrite Forall_forall in Hnames. now rewrite (Hnames c Hc).
Qed.

(** The class names in the content of a map of test classes are names of
    its test classes. *)
Lemma content_classname (d : dict Testclass.t) (classname name : string) :
  In (classname, name) (Classname.names (Classname.content d)) ->
  exists e, In e d /\ Testclass._name (snd e) = classname.
Proof.
  unfold Classname.names, Classname.content. rewrite in_map_iff.
  intros ([cn tc] & Heq & Hin). injection Heq as -> _.
  apply in_flat_map in Hin. destruct Hin as (e & He & Hin).
  exists e. split; [exact He|].
  unfold Classname.class_content in Hin. apply in_map_iff in Hin.
  destruct Hin as (c & Heq & _). now injection Heq as ->.
Qed.

(** Test classes keyed by name hold no test case twice. *)
Lemma grouped_NoDup (d : dict Testclass.t) :
  Classname.grouped d -> NoDup (Classname.names (Classname.content d)).
Proof.
  induction d as [|[key testclass] d IH]; intros [Hkeys Hall];
    [constructor|].
  inversion Hkeys as [|? ? Hkey Hkeys']; subst.
  inversion Hall as [|? ? (Hname & Hnodup & Hnames) Hall']; subst.
  cbn [fst snd] in *.
  match goal with
  | |- NoDup (Classname.names (Classname.content (?e :: d))) =>
      change (Classname.content (e :: d))
        with (Classname.class_content testclass ++ Classname.content d)
  end.
  rewrite names_app. apply NoDup_app.
  - rewrite names_class_content by exact Hnames.
    apply NoDup_map_pair, Hnodup.
  - apply IH. split; assumption.
  - intros [classname name] Hhere Hthere.
    rewrite names_class_content in Hhere by exact Hnames.
    apply in_map_iff in Hhere. destruct Hhere as (n & Heq & _).
    injection Heq as <- _.
    apply content_classname in Hthere. destruct Hthere as (e & He & Hsame).
    apply Hkey. rewrite Forall_forall in Hall'.
    destruct (Hall' e He) as (Hename & _).
    rewrite <- Hname, <- Hsame, Hename. apply in_map. exact He.
Qed.

End TestclassFacts.

(** X22: the round trip from the JUnit side.  For a test suite of the
    GoogleTest dialect whose test classes sit under their names and hold
    their test cases under their names, [ToTestsuite] returns, and
    [FromTestsuite] on its result returns a test suite whose test classes
    hold exactly the test cases of the original under the same class names,
    none lost and none twice, again with every test class and test case
    under its name. *)
Theorem testclasses_round_trip :
  forall juTestsuite,
    Classname.grouped (GoogleTestJUnit.Testsuite._testclasses juTestsuite) ->
    exists testsuite back,
      GoogleTestJUnit.Testsuite.ToTestsuite juTestsuite = Return testsuite
      /\ GoogleTestJUnit.Testsuite.FromTestsuite [] testsuite = Return back
      /\ Classname.grouped (GoogleTestJUnit.Testsuite._testclasses back)
      /\ Permutation
           (Classname.content (GoogleTestJUnit.Testsuite._testclasses back))
           (Classname.content (GoogleTestJUnit.Testsuite._testclasses juTestsuite)).
Proof.
  intros juTestsuite Hgrouped.
  destruct (ToTestsuite_cases juTestsuite Hgrouped) as (testsuite & Hto & Hperm).
  exists testsuite.
  unfold GoogleTestJUnit.Testsuite.FromTestsuite.
  match goal with
  | |- context [GoogleTestJUnit.Testsuite.FromTestsuite_loop _ ?ju] =>
      destruct (FromTestsuite_loop_groups
                  (GoogleTestJUnit.ut_Testsuite.IterateTestcases [] testsuite) ju)
        as (back & Hfrom & _ & Hback & Hcontent)
  end.
  - apply IterateTestcases_chain.
  - split; constructor.
  - cbn [GoogleTestJUnit.Testsuite._testclasses Classname.content flat_map app].
    apply (Permutation_NoDup
             (l := Classname.names
                     (Classname.content
                        (GoogleTestJUnit.Testsuite._testclasses juTestsuite)))).
    + unfold Classname.names. apply Permutation_map.
      symmetry. exact Hperm.
    + apply grouped_NoDup, Hgrouped.
  - exists back. split; [exact Hto|]. split; [exact Hfrom|].
    split; [exact Hback|].
    etransitivity; [exact Hcontent|]. exact Hperm.
Qed.

Lemma testclasses_round_trip_witness :
  exists testsuite back,
    GoogleTestJUnit.Testsuite.ToTestsuite SampleTestclasses.juTestsuite
    = Return testsuite
    /\ GoogleTestJUnit.Testsuite.FromTestsuite [] testsuite = Return back
    /\ Classname.grouped (GoogleTestJUnit.Testsuite._testclasses back)
    /\ Permutation
         (Classname.content (GoogleTestJUnit.Testsuite._testclasses back))
         (Classname.content
            (GoogleTestJUnit.Testsuite._testclasses SampleTestclasses.juTestsuite)).
Proof.
  apply (testclasses_round_trip SampleTestclasses.juTestsuite).
  unfold Classname.grouped. cbn.
  repeat (split || constructor
          || (cbn; intros H;
              repeat (destruct H as [H|H]; [discriminate H|]); destruct H)).
Defined.

Section ConstructFacts.
Import JUnit.

(** Where the loop of [Testsuite.__init__] stops when it raises. *)
Lemma Testsuite__init__loop_raises (testcases : list Testcase.t) :
  forall (self self' : Testsuite.t) (e : exn),
    Testsuite__init__loop testcases self = (self', Raise e) ->
    exists added offending rest,
      testcases = added ++ offending :: rest
      /\ self'
         = Testsuite.set_testcases
             (Testsuite._testcases self
              ++ map (fun tc =>
                        (Testcase._name tc,
                         Testcase.set_parent (Some (Testsuite._name self)) tc))
                     added)
             self
      /\ (Testcase._parent offending <> None
          \/ Py.contains (Testcase._name offending) (Testsuite._testcases self')
             = true).
Proof.
  induction testcases as [|testcase rest IH]; intros self self' e;
    [discriminate|].
  cbn [Testsuite__init__loop].
  destruct (Testcase._parent testcase) eqn:Hparent.
  - intros H. injection H as <- _.
    exists [], testcase, rest. split; [reflexivity|]. split.
    + cbn. rewrite app_nil_r. destruct self; reflexivity.
    + left. congruence.
  - destruct (Py.contains (Testcase._name testcase) (Testsuite._testcases self))
      eqn:Hheld.
    + intros H. injection H as <- _.
      exists [], testcase, rest. split; [reflexivity|]. split.
      * cbn. rewrite app_nil_r. destruct self; reflexivity.
      * right. exact Hheld.
    + intros H. apply IH in H.
      destruct H as (added & offending & rest' & -> & -> & Hwhy).
      exists (testcase :: added), offending, rest'.
      split; [reflexivity|]. split; [|exact Hwhy].
      cbn. rewrite (set_fresh _ _ _ (contains_false_get _ _ Hheld)).
      rewrite <- app_assoc. destruct self; reflexivity.
Qed.

End ConstructFacts.

(** X23: a construction that fails stays in the parent.  [Testsuite(name,
    ..., testcases=l, parent=p)] stores the new test suite in [p] before it
    looks at [l].  When the call raises, because a test case of [l] has a
    parent or a name that came before, [p] nevertheless holds a test suite
    under [name], in the place of a test suite it may have held under that
    name; that test suite has [p] as parent and holds the test cases of [l]
    before the offending one. *)
Theorem failed_construction_stays_in_parent :
  forall name hostname startTime duration status testcases parent parent' e,
    JUnit.Testsuite__init__ name hostname startTime duration status
                            (Some testcases) (Some parent)
    = (parent', Raise e) ->
    exists summary half added offending rest,
      parent' = Some summary
      /\ Py.get name (JUnit.TestsuiteSummary._testsuites summary) = Some half
      /\ JUnit.TestsuiteSummary.TestsuiteCount summary
         = (JUnit.TestsuiteSummary.TestsuiteCount parent
            + if Py.contains name (JUnit.TestsuiteSummary._testsuites parent)
              then 0 else 1)%Z
      /\ JUnit.Testsuite._name half = name
      /\ JUnit.Testsuite._parent half
         = Some (JUnit.TestsuiteSummary._name parent)
      /\ testcases = added ++ offending :: rest
      /\ JUnit.Testsuite._testcases half
         = map (fun tc =>
                  (JUnit.Testcase._name tc,
                   JUnit.Testcase.set_parent (Some name) tc))
               added
      /\ (JUnit.Testcase._parent offending <> None
          \/ In (JUnit.Testcase._name offending)
                (map JUnit.Testcase._name added)).
Proof.
  intros name hostname startTime duration status testcases parent parent' e.
  unfold JUnit.Testsuite__init__.
  destruct (JUnit.Testsuite__init__loop testcases _) as [half r] eqn:Hloop.
  destruct r as [u|e']; [discriminate|].
  cbn [option_map Py.bind]. intros H. injection H as <- <-.
  apply Testsuite__init__loop_raises in Hloop.
  destruct Hloop as (added & offending & rest & -> & -> & Hwhy).
  do 5 eexists. split; [reflexivity|].
  cbn [JUnit.TestsuiteSummary._testsuites JUnit.TestsuiteSummary.set_testsuites
       JUnit.Testsuite._testcases JUnit.Testsuite.set_testcases
       JUnit.Testsuite._name JUnit.Testsuite._parent app] in *.
  split; [apply get_set_same|].
  split.
  { unfold JUnit.TestsuiteSummary.TestsuiteCount. cbn.
    rewrite length_set.
    destruct (Py.contains name (JUnit.TestsuiteSummary._testsuites parent)); lia. }
  do 4 (split; [reflexivity|]).
  destruct Hwhy as [Hparent|Hheld]; [left; exact Hparent|right].
  unfold Py.contains in Hheld.
  destruct (Py.get (JUnit.Testcase._name offending) _) as [tc|] eqn:Hget;
    [|discriminate].
  apply get_Some_In in Hget. apply in_map_iff in Hget.
  destruct Hget as (tc' & Heq & Hin). injection Heq as Hname _.
  apply in_map_iff. exists tc'. split; [exact Hname|exact Hin].
Qed.

Lemma failed_construction_stays_in_parent_witness :
  exists summary half,
    fst (JUnit.Testsuite__init__ "S" (Some "host") None None
           TestsuiteStatus.Unknown
           (Some [SampleInsert.fresh "a"; SampleConstruct.taken])
           (Some SampleSummary.empty))
    = Some summary
    /\ Py.get "S" (JUnit.TestsuiteSummary._testsuites summary) = Some half
    /\ JUnit.Testsuite.TestcaseCount half = 1%Z.
Proof.
  destruct (failed_construction_stays_in_parent "S" (Some "host") None None
              TestsuiteStatus.Unknown
              [SampleInsert.fresh "a"; SampleConstruct.taken]
              SampleSummary.empty
              (fst (JUnit.Testsuite__init__ "S" (Some "host") None None
                      TestsuiteStatus.Unknown
                      (Some [SampleInsert.fresh "a"; SampleConstruct.taken])
                      (Some SampleSummary.empty)))
              (ValueError "Testcase 'b' is already part of a testsuite hierarchy."))
    as (summary & half & added & offending & rest & Hparent & Hget & _).
  - vm_compute. reflexivity.
  - exists summary, half. split; [exact Hparent|].
    split; [exact Hget|].
    vm_compute in Hparent. injection Hparent as <-.
    vm_compute in Hget. injection Hget as <-.
    vm_compute. reflexivity.
Defined.

(** X24: constructing a document with [parse=True].  A path that does not
    exist gives [UnittestException].  A file with a syntax error gives
    [UnittestException] as well, the one of [Parse] on an empty XML document:
    [Read] has swallowed the syntax error.  A syntax error in the schema
    gives [UnboundLocalError] from the handler of [Read], not a
    [UnittestException].  When the constructor returns, the file was parsed
    into the XML document of the object, both durations are set, and the
    summary counters are zero with the status [Empty]. *)
Theorem construct_with_parse :
  forall text fromisoformat seconds fs startAnalysis endAnalysis
         startConversion endConversation xmlReportFile,
    let construct lxml :=
      JUnitConstruct.JUnitDocument__init__ text fromisoformat seconds fs lxml
        startAnalysis endAnalysis startConversion endConversation
        xmlReportFile true in
    (Py.contains xmlReportFile fs = false ->
       forall lxml, exists msg,
         construct lxml = PyMore.Raise (PyMore.Known (UnittestException msg)))
    /\ (Py.contains xmlReportFile fs = true ->
        (exists msg,
            construct JUnit.JUnitDocument.DocumentSyntaxError
            = PyMore.Raise (PyMore.Known (UnittestException msg)))
        /\ (exists msg,
               construct JUnit.JUnitDocument.SchemaSyntaxError
               = PyMore.Raise (PyMore.Known (UnboundLocalError msg)))
        /\ (exists msg,
               construct JUnit.JUnitDocument.OtherException
               = PyMore.Raise (PyMore.Known (UnittestException msg))))
    /\ (forall lxml self,
          construct lxml = PyMore.Return self ->
          Py.contains xmlReportFile fs = true
          /\ (exists root,
                 lxml = JUnit.JUnitDocument.Parsed root
                 /\ JUnit.JUnitDocument._xmlDocument self = Some root)
          /\ JUnit.JUnitDocument._analysisDuration self
             = Some (endAnalysis - startAnalysis)%Z
          /\ JUnit.JUnitDocument._modelConversion self
             = Some (endConversation - startConversion)%Z
          /\ stored_summary (JUnit.JUnitDocument.summary self)
             = (0, 0, 0, 0, 0)%Z
          /\ JUnit.TestsuiteSummary._status (JUnit.JUnitDocument.summary self)
             = TestsuiteStatus.Empty).
Proof.
  intros text fromisoformat seconds fs startAnalysis endAnalysis
         startConversion endConversation xmlReportFile construct.
  subst construct. cbv beta.
  unfold JUnitConstruct.JUnitDocument__init__, JUnit.JUnitDocument.Read.
  cbn [JUnit.JUnitDocument.__init__ JUnit.JUnitDocument._path].
  split; [|split].
  - intros Hfile lxml. rewrite Hfile. cbn. eauto.
  - intros Hfile. rewrite Hfile. cbn.
    split; [|split]; eexists; reflexivity.
  - intros lxml self.
    destruct (Py.contains xmlReportFile fs); cbn [negb]; [|discriminate].
    destruct lxml as [root| | |]; try discriminate.
    unfold JUnitMore.Parse.Parse. cbn.
    destruct (JUnitMore.Parse.optional fromisoformat "timestamp" root)
      as [startTime|e]; [|discriminate].
    destruct (JUnitMore.Parse.optional seconds "time" root) as [duration|e];
      [|discriminate].
    match goal with
    | |- context [JUnitMore.Parse.Parse_loop _ _ _ _ ?s] =>
        destruct (JUnitMore.Parse.Parse_loop text fromisoformat seconds
                    (JUnitMore.Parse.iterchildren root) s)
          as [parsed [u|e]]; [|discriminate]
    end.
    intros H. injection H as <-. cbn.
    split; [reflexivity|]. split; [eauto|]. repeat split.
Qed.

Lemma construct_with_parse_witness :
  exists self,
    JUnitConstruct.JUnitDocument__init__ SampleParse.text
      SampleParse.fromisoformat SampleParse.seconds SampleConstruct.fs
      (JUnit.JUnitDocument.Parsed SampleParse.failing) 0 5 5 9 "report.xml" true
    = PyMore.Return self
    /\ stored_summary (JUnit.JUnitDocument.summary self) = (0, 0, 0, 0, 0)%Z
    /\ JUnit.TestsuiteSummary.TestcaseCount (JUnit.JUnitDocument.summary self)
       = 2%Z.
Proof.
  eexists. split; [vm_compute; reflexivity|].
  split; [|vm_compute; reflexivity].
  apply (proj2 (proj2 (construct_with_parse SampleParse.text
                         SampleParse.fromisoformat SampleParse.seconds
                         SampleConstruct.fs 0 5 5 9 "report.xml"))
           (JUnit.JUnitDocument.Parsed SampleParse.failing)).
  vm_compute. reflexivity.
Defined.
